(** * Document analyzer: evaluation pipeline, response parser and chat engine

    A shallow embedding of [core/evaluator.py], [core/chatbot.py],
    [utils/pdf_mappings.py], [utils/text_processing.py] and the route
    [POST /evaluate] of [api/routes/evaluator.py], with the properties of
    the specification stated over it.

    Conventions.
    - A Python [str] is a [string]; an [ascii] stands for the code point of
      the same number (U+0000 to U+00FF).
    - A Python [float] score is the rational its decimal literal denotes
      ([Q]); rounding to binary64 is not represented.
    - [None] is [None]; a dictionary with fixed keys is a record; the
      [seen] sets are [gset string], the document table a [gmap].
    - Code that may raise returns [exn + A]; code that also touches the
      session store, the retriever or the completion provider runs in the
      monad [M] over the trace of those calls.  The collaborators' answers
      are the fields of a [World].
    - Logging and wall-clock times are left out. *)

From Stdlib Require Import ZArith QArith Lqa String Ascii List Bool Lia.
From stdpp Require Import base gmap sets list strings.
Import ListNotations.
Open Scope string_scope.

(** ** Python string primitives *)

Module PyStr.

Definition code (c : ascii) : nat := nat_of_ascii c.

(** [str.isspace] on one character: TAB..CR, FS..US, SPACE, NEL, NBSP. *)
Definition isspace (c : ascii) : bool :=
  let n := code c in
  (((9 <=? n) && (n <=? 13)) || ((28 <=? n) && (n <=? 32))
   || (n =? 133) || (n =? 160))%nat.

(** [\d] on one character. *)
Definition isdigit (c : ascii) : bool :=
  let n := code c in ((48 <=? n) && (n <=? 57))%nat.

(** [str.lower] on one character: A-Z, and the upper-case letters
    U+00C0..U+00DE except the multiplication sign U+00D7. *)
Definition lower_char (c : ascii) : ascii :=
  let n := code c in
  if (((65 <=? n) && (n <=? 90))
      || ((192 <=? n) && (n <=? 222) && negb (n =? 215)))%nat
  then ascii_of_nat (n + 32) else c.

Fixpoint lower (s : string) : string :=
  match s with
  | EmptyString => EmptyString
  | String c r => String (lower_char c) (lower r)
  end.

(** Truth value of a string: non-empty. *)
Definition truthy (s : string) : bool :=
  match s with EmptyString => false | _ => true end.

Fixpoint mem (c : ascii) (chars : string) : bool :=
  match chars with
  | EmptyString => false
  | String d r => Ascii.eqb c d || mem c r
  end.

Fixpoint lstrip_by (p : ascii -> bool) (s : string) : string :=
  match s with
  | EmptyString => EmptyString
  | String c r => if p c then lstrip_by p r else s
  end.

Fixpoint rstrip_by (p : ascii -> bool) (s : string) : string :=
  match s with
  | EmptyString => EmptyString
  | String c r =>
      match rstrip_by p r with
      | EmptyString => if p c then EmptyString else String c EmptyString
      | r' => String c r'
      end
  end.

Definition strip_by (p : ascii -> bool) (s : string) : string :=
  rstrip_by p (lstrip_by p s).

(** [s.strip()] *)
Definition strip (s : string) : string := strip_by isspace s.

(** [s.strip(chars)] *)
Definition strip_chars (chars s : string) : string :=
  strip_by (fun c => mem c chars) s.

(** [s.startswith(p)] *)
Fixpoint startswith (p s : string) : bool :=
  match p, s with
  | EmptyString, _ => true
  | String a p', String b s' => Ascii.eqb a b && startswith p' s'
  | String _ _, EmptyString => false
  end.

(** [s.split(sep)] for a one-character separator. *)
Fixpoint split_char (sep : ascii) (s : string) : list string :=
  match s with
  | EmptyString => [EmptyString]
  | String c r =>
      if Ascii.eqb c sep then EmptyString :: split_char sep r
      else match split_char sep r with
           | [] => [String c EmptyString]
           | w :: ws => String c w :: ws
           end
  end.

(** [sub in s] *)
Fixpoint contains (sub s : string) : bool :=
  startswith sub s ||
  match s with
  | EmptyString => false
  | String _ r => contains sub r
  end.

(** [s[:n]] for [n >= 0]. *)
Definition take (n : nat) (s : string) : string := String.substring 0 n s.

(** [sep.join(parts)] *)
Definition join (sep : string) (parts : list string) : string :=
  String.concat sep parts.

Definition newline : ascii := ascii_of_nat 10.
Definition tab : ascii := ascii_of_nat 9.
Definition nl : string := String newline EmptyString.

End PyStr.

(** ** The five regular expressions of the response parser

    Each matcher below is [re.search] for one pattern of
    [parse_analysis_response], written out by hand.  [re.search] tries the
    start positions from left to right and returns the first match. *)

Module Regex.
Import PyStr.

(** One literal pattern character under [re.IGNORECASE]. *)
Definition ci_eqb (p c : ascii) : bool :=
  Ascii.eqb (lower_char p) (lower_char c).

(** The literal [lit] at the head of [s], ignoring case: the rest. *)
Fixpoint match_literal_ci (lit s : string) : option string :=
  match lit, s with
  | EmptyString, _ => Some s
  | String p lit', String c s' =>
      if ci_eqb p c then match_literal_ci lit' s' else None
  | String _ _, EmptyString => None
  end.

(** Left-to-right search with a matcher that is tried at every start
    position, the end of the text included. *)
Fixpoint search {A} (here : string -> option A) (s : string) : option A :=
  match here s with
  | Some r => Some r
  | None =>
      match s with
      | EmptyString => None
      | String _ r => search here r
      end
  end.

(** Greedy [\d+]: the digits and the rest; [None] when there is none. *)
Fixpoint span_digits (s : string) : string * string :=
  match s with
  | String c r =>
      if isdigit c then let (d, t) := span_digits r in (String c d, t)
      else (EmptyString, s)
  | EmptyString => (EmptyString, EmptyString)
  end.

Definition digits1 (s : string) : option (string * string) :=
  match span_digits s with
  | (EmptyString, _) => None
  | (d, t) => Some (d, t)
  end.

(** [(\d+(?:\.\d+)?)] at the head of [s]: group 1. *)
Definition decimal_here (s : string) : option string :=
  match digits1 s with
  | None => None
  | Some (int_part, t) =>
      match t with
      | String "." t' =>
          match digits1 t' with
          | Some (frac, _) => Some (int_part ++ "." ++ frac)
          | None => Some int_part
          end
      | _ => Some int_part
      end
  end.

(** [\*\*SCORE\*\*:\s*\[?(\d+(?:\.\d+)?)] at the head of [s].
    [\s*] is greedy; giving whitespace back cannot help, since the next
    character would be whitespace and the pattern needs [[] or a digit.
    Likewise [\[?] first takes the bracket, and without it the bracket
    itself is not a digit. *)
Definition score_here (s : string) : option string :=
  match match_literal_ci "**SCORE**:" s with
  | None => None
  | Some t =>
      let t1 := lstrip_by isspace t in
      match t1 with
      | String "[" t2 => decimal_here t2
      | _ => decimal_here t1
      end
  end.

Definition search_score (response : string) : option string :=
  search score_here response.

(** [$] without [re.MULTILINE]: at the end, or before a final newline. *)
Definition at_dollar (s : string) : bool :=
  match s with
  | EmptyString => true
  | String c EmptyString => Ascii.eqb c newline
  | _ => false
  end.

(** Lazy [(.*?)] under [re.DOTALL] followed by [(?:\*\*|$)]: the shortest
    prefix after which [**] or [$] matches. *)
Fixpoint lazy_until_stars_or_end (s : string) : string :=
  if startswith "**" s || at_dollar s then EmptyString
  else match s with
       | EmptyString => EmptyString
       | String c r => String c (lazy_until_stars_or_end r)
       end.

(** Lazy [(.*?)] under [re.DOTALL] followed by [$]. *)
Fixpoint lazy_until_end (s : string) : string :=
  if at_dollar s then EmptyString
  else match s with
       | EmptyString => EmptyString
       | String c r => String c (lazy_until_end r)
       end.

(** [\*\*NAME\*\*:(.*?)(?:\*\*|$)], group 1. *)
Definition section_here (name s : string) : option string :=
  match match_literal_ci ("**" ++ name ++ "**:") s with
  | Some t => Some (lazy_until_stars_or_end t)
  | None => None
  end.

Definition search_section (name response : string) : option string :=
  search (section_here name) response.

(** [\*\*(GAPS|CRITICAL GAPS|MINOR GAPS)\*\*:(.*?)(?:\*\*|$)], group 2:
    the alternatives are tried in order at each start position. *)
Definition gaps_here (s : string) : option string :=
  match section_here "GAPS" s with
  | Some g => Some g
  | None =>
      match section_here "CRITICAL GAPS" s with
      | Some g => Some g
      | None => section_here "MINOR GAPS" s
      end
  end.

Definition search_gaps (response : string) : option string :=
  search gaps_here response.

(** [\*\*DETAILED ANALYSIS\*\*:(.*?)$], group 1. *)
Definition analysis_here (s : string) : option string :=
  match match_literal_ci "**DETAILED ANALYSIS**:" s with
  | Some t => Some (lazy_until_end t)
  | None => None
  end.

Definition search_analysis (response : string) : option string :=
  search analysis_here response.

End Regex.

(** ** Exceptions and results *)

Inductive exn : Type :=
| LLMServiceError (msg : string)
| DatabaseError (msg : string)
| FileProcessingError (msg : string)
| PineconeError (msg : string)
| ValidationError (msg : string)
| TimeoutError
| AttributeError (msg : string)
| TypeError (msg : string)
| ValueError (msg : string)
| IndexError (msg : string)
| PydanticValidationError (msg : string)
| HTTPException (status_code : nat) (detail : string).

(** A computation that returns or raises. *)
Definition result (A : Type) : Type := (exn + A)%type.

Definition is_ok {A} (r : result A) : bool :=
  match r with inr _ => true | inl _ => false end.

(** [try: body except Exception: handler] for a body without side effects. *)
Definition try_except {A} (body : result A) (handler : exn -> A) : A :=
  match body with
  | inr a => a
  | inl e => handler e
  end.

(** ** Response parser ([ProposalEvaluator.parse_analysis_response]) *)

Module Parser.
Import PyStr Regex.

(** The dictionary the parser returns, and [EvaluationSection]. *)
Record Analysis : Type := mkAnalysis {
  section_type : string;
  title : string;
  content : string;
  score : option Q;
  gaps : list string;
  strengths : list string;
  recommendations : list string
}.

Definition digit_val (c : ascii) : Z := Z.of_nat (code c) - 48.

Fixpoint digits_val (acc : Z) (s : string) : Z :=
  match s with
  | EmptyString => acc
  | String c r => digits_val (10 * acc + digit_val c) r
  end.

(** [float(s)] on the literals [DIGITS] and [DIGITS.DIGITS]; on any other
    string of this model it raises [ValueError], as [float] does on a
    string that is no numeric literal. *)
Definition py_float (s : string) : result Q :=
  match span_digits s with
  | (EmptyString, _) => inl (ValueError "could not convert string to float")
  | (i, EmptyString) => inr (inject_Z (digits_val 0 i))
  | (i, String "." t) =>
      match span_digits t with
      | (EmptyString, _) => inl (ValueError "could not convert string to float")
      | (f, EmptyString) =>
          inr (inject_Z (digits_val 0 i)
               + inject_Z (digits_val 0 f) / inject_Z (10 ^ Z.of_nat (String.length f)))%Q
      | (_, String _ _) => inl (ValueError "could not convert string to float")
      end
  | (_, String _ _) => inl (ValueError "could not convert string to float")
  end.

(** The condition of the three list comprehensions:
    [line.strip().startswith('-')]. *)
Definition is_bullet (line : string) : bool := startswith "-" (strip line).

(** Their element: [line.strip('- ').strip()]. *)
Definition bullet_text (line : string) : string :=
  strip (strip_chars "- " line).

(** [[line.strip('- ').strip() for line in group.strip().split('\n')
      if line.strip().startswith('-')]] *)
Definition section_lines (group : string) : list string :=
  split_char newline (strip group).

Definition bullet_items (group : string) : list string :=
  List.map bullet_text (List.filter is_bullet (section_lines group)).

Definition items_of (m : option string) : list string :=
  match m with
  | Some group => bullet_items group
  | None => []
  end.

(** [titles.get(section_type, 'Analysis')] *)
Definition title_of (section_type : string) : string :=
  if String.eqb section_type "P_Internal" then "Internal Consistency Analysis"
  else if String.eqb section_type "P_External" then "ToR Alignment Analysis"
  else if String.eqb section_type "P_Delta" then "Gap Analysis"
  else "Analysis".

(** The body of the [try] block. *)
Definition parse_body (response section_type : string) : result Analysis :=
  match
    match search_score response with
    | Some g =>
        match py_float g with
        | inr q => inr (Some q)
        | inl e => inl e
        end
    | None => inr None
    end
  with
  | inl e => inl e
  | inr score =>
      let strengths := items_of (search_section "STRENGTHS" response) in
      let gaps := items_of (search_gaps response) in
      let recommendations :=
        items_of (search_section "RECOMMENDATIONS" response) in
      let content :=
        match search_analysis response with
        | Some g => strip g
        | None => response
        end in
      inr {| section_type := section_type;
             title := title_of section_type;
             content := content;
             score := score;
             gaps := gaps;
             strengths := strengths;
             recommendations := recommendations |}
  end.

(** The dictionary of the [except] block. *)
Definition minimal_record (response section_type : string) : Analysis :=
  {| section_type := section_type;
     title := section_type ++ " Analysis";
     content := response;
     score := None;
     gaps := [];
     strengths := [];
     recommendations := [] |}.

Definition parse_analysis_response (response section_type : string)
  : Analysis :=
  try_except (parse_body response section_type)
             (fun _ => minimal_record response section_type).

(** The response of property P3, its parts joined by newlines. *)
Definition canonical_response : string :=
  "**SCORE**: 77" ++ nl ++
  "**STRENGTHS**:" ++ nl ++ "- a" ++ nl ++ "- b" ++ nl ++
  "**GAPS**:" ++ nl ++ "- c" ++ nl ++
  "**RECOMMENDATIONS**:" ++ nl ++ "- d" ++ nl ++
  "**DETAILED ANALYSIS**:" ++ nl ++ "some text".

End Parser.

(** ** Effects: a trace of external calls, with exceptions

    A computation reads the trace of the calls made so far, may add to it,
    and returns or raises.  The trace survives an exception: what was
    written to the session store before a failure stays written. *)

Definition M (E A : Type) : Type := list E -> result A * list E.

#[global] Instance M_ret {E} : MRet (M E) := fun A a t => (inr a, t).

#[global] Instance M_bind {E} : MBind (M E) := fun A B k m t =>
  match m t with
  | (inr a, t') => k a t'
  | (inl e, t') => (inl e, t')
  end.

Definition raise {E A} (e : exn) : M E A := fun t => (inl e, t).

Definition emit {E} (ev : E) : M E unit := fun t => (inr tt, (t ++ [ev])%list).

Definition lift {E A} (r : result A) : M E A := fun t => (r, t).

Definition history {E} : M E (list E) := fun t => (inr t, t).

(** [try: m except Exception as e: h e] *)
Definition catch {E A} (m : M E A) (h : exn -> M E A) : M E A := fun t =>
  match m t with
  | (inl e, t') => h e t'
  | ok => ok
  end.

(** [x or y] on an optional string: [None] and the empty string are false. *)
Definition or_else (x : option string) (y : string) : string :=
  match x with
  | Some (String c r) => String c r
  | _ => y
  end.

Definition opt_truthy (x : option string) : bool :=
  match x with
  | Some (String _ _) => true
  | _ => false
  end.

(** [str(e)] *)
Definition exn_str (e : exn) : string :=
  match e with
  | LLMServiceError m | DatabaseError m | FileProcessingError m
  | PineconeError m | ValidationError m | AttributeError m | TypeError m
  | ValueError m | IndexError m | PydanticValidationError m => m
  | TimeoutError => ""
  | HTTPException c d => d
  end.

(** ** Evaluation orchestrator ([ProposalEvaluator]) *)

Module Evaluator.
Import PyStr Parser.

(** A prompt is a template of [services/prompts.py] with its arguments. *)
Inductive prompt : Type :=
| ProposalSummaryPrompt (proposal_text : string)
| TorSummaryPrompt (tor_text : string)
| PInternalPrompt (proposal_summary guidelines : string)
| PExternalPrompt (proposal_summary tor_summary guidelines : string)
| PDeltaPrompt (proposal_summary tor_summary
                internal_insights external_insights : string).

Definition no_guidelines : string :=
  "No specific organizational guidelines provided.".

Definition format_p_internal_prompt (proposal_summary guidelines : string)
  : prompt :=
  PInternalPrompt proposal_summary
    (if truthy guidelines then guidelines else no_guidelines).

Definition format_p_external_prompt
  (proposal_summary tor_summary guidelines : string) : prompt :=
  PExternalPrompt proposal_summary tor_summary
    (if truthy guidelines then guidelines else no_guidelines).

Record EvaluatorRequest : Type := mkRequest {
  user_id : string;
  user_name : option string;
  session_id : option string;
  organization_id : option string;
  org_guideline_id : option string;
  document_type : string;
  proposal_text_input : option string;
  proposal_file_data : option (list Byte.byte);
  tor_text_input : option string;
  tor_file_data : option (list Byte.byte)
}.

(** What a name of [evaluate] may be bound to after step 5: a parsed
    analysis (a [dict]), or the coroutine object that the call of an
    [async def] returns when nothing awaits it. *)
Inductive pyobj : Type :=
| PyDict (analysis : Analysis)
| PyCoroutine (analysis_type : string).

(** External calls, in the order made. *)
Inductive event : Type :=
| ExtractPdf (file_data : list Byte.byte)
| Completion (p : prompt)
| CreateSession (session_id user_id proposal_text tor_text : string)
| GetGuidelines (organization_id : string) (guideline_id : option string)
| SaveEvaluationResults (session_id : string)
    (internal_analysis external_analysis : pyobj) (delta_analysis : Analysis)
    (overall_score : option Q).

(** The collaborators: what each external call answers. *)
Record World : Type := mkWorld {
  uuid4 : string;
  generate_completion : list event -> prompt -> result string;
  extract_text_from_pdf : list Byte.byte -> result string;
  create_session_error : option exn;
  get_organization_guidelines :
    string -> option string -> result (list string);
  save_evaluation_results_error : option exn;
  (** [future.result(timeout=180)] expires for this analysis *)
  pool_expired : string -> bool;
  (** the verdict of pydantic on the construction of a request *)
  request_validation_error : EvaluatorRequest -> option exn
}.

Record EvaluatorResponse : Type := mkResponse {
  r_session_id : string;
  r_user_id : string;
  internal_analysis : Analysis;
  external_analysis : Analysis;
  delta_analysis : Analysis;
  overall_score_of : option Q
}.

Section Engine.
Variable w : World.

#[local] Abbreviation Eff := (M event).

Definition call_llm (p : prompt) : Eff string :=
  h ← history; _ ← emit (Completion p); lift (generate_completion w h p).

(** [extract_text_from_pdf] is a plain function that returns a [str];
    [process_proposal] awaits its value, and awaiting a [str] raises. *)
Definition await_extracted_text (file_data : list Byte.byte) : Eff string :=
  _ ← emit (ExtractPdf file_data);
  _ ← lift (extract_text_from_pdf w file_data);
  raise (TypeError "object str can't be used in 'await' expression").

Definition process_proposal
  (text_input : option string) (file_data : option (list Byte.byte))
  : Eff (string * option string) :=
  match text_input with
  | Some (String c r) => mret (String c r, None)
  | _ =>
      match file_data with
      | Some (b :: bs) =>
          proposal_text ← await_extracted_text (b :: bs);
          mret (proposal_text, None)
      | _ => mret ("", None)
      end
  end.

Definition process_tor
  (text_input : option string) (file_data : option (list Byte.byte))
  : Eff (string * option string) :=
  match text_input with
  | Some (String c r) => mret (String c r, None)
  | _ =>
      match file_data with
      | Some (b :: bs) =>
          tor_text ← await_extracted_text (b :: bs);
          mret (tor_text, None)
      | _ => mret ("", None)
      end
  end.

Definition summarize_proposal (proposal_text : string) : Eff string :=
  catch (call_llm (ProposalSummaryPrompt proposal_text))
        (fun _ => mret (take 2000 proposal_text)).

Definition summarize_tor (tor_text : string) : Eff string :=
  catch (call_llm (TorSummaryPrompt tor_text))
        (fun _ => mret (take 2000 tor_text)).

(** The body of the coroutine [run_analysis]; it runs when awaited.
    Its [except] clause re-raises. *)
Definition run_analysis
  (analysis_type proposal_summary tor_summary guidelines
   internal_insights external_insights : string) : Eff Analysis :=
  prompt ←
    (if String.eqb analysis_type "P_Internal" then
       mret (format_p_internal_prompt proposal_summary guidelines)
     else if String.eqb analysis_type "P_External" then
       mret (format_p_external_prompt proposal_summary tor_summary
                                      guidelines)
     else if String.eqb analysis_type "P_Delta" then
       mret (PDeltaPrompt proposal_summary tor_summary
                          internal_insights external_insights)
     else raise (ValueError ("Unknown analysis type: " ++ analysis_type)));
  response ← call_llm prompt;
  mret (parse_analysis_response response analysis_type).

(** [obj.get('content', '')] and [obj.get('score')] *)
Definition no_get : exn :=
  AttributeError "'coroutine' object has no attribute 'get'".

Definition get_content (obj : pyobj) : result string :=
  match obj with
  | PyDict a => inr (content a)
  | PyCoroutine _ => inl no_get
  end.

Definition get_score (obj : pyobj) : result (option Q) :=
  match obj with
  | PyDict a => inr (score a)
  | PyCoroutine _ => inl no_get
  end.

(** [[s for s in scores if s is not None]] *)
Fixpoint valid_scores (scores : list (option Q)) : list Q :=
  match scores with
  | [] => []
  | Some s :: r => s :: valid_scores r
  | None :: r => valid_scores r
  end.

(** [sum(valid_scores)] *)
Definition py_sum (l : list Q) : Q := fold_left Qplus l 0%Q.

(** [sum(valid_scores) / len(valid_scores) if valid_scores else None] *)
Definition overall_score (scores : list (option Q)) : option Q :=
  match valid_scores scores with
  | [] => None
  | v :: vs =>
      Some (py_sum (v :: vs) / inject_Z (Z.of_nat (length (v :: vs))))%Q
  end.

(** [Field(None, ge=0, le=100)] *)
Definition score_in_range (s : option Q) : bool :=
  match s with
  | None => true
  | Some q => Qle_bool 0 q && Qle_bool q 100
  end.

(** The constructor call [EvaluationSection] on the unpacked object. *)
Definition EvaluationSection (obj : pyobj) : result Analysis :=
  match obj with
  | PyCoroutine _ =>
      inl (TypeError "argument after ** must be a mapping, not coroutine")
  | PyDict a =>
      if score_in_range (score a) then inr a
      else inl (PydanticValidationError "score")
  end.

(** A future of the thread pool: its callable has returned or raised,
    or it is still running when [result(timeout=180)] gives up. *)
Inductive future : Type :=
| Finished (outcome : result pyobj)
| Running.

Definition future_result (f : future) : result pyobj :=
  match f with
  | Finished outcome => outcome
  | Running => inl TimeoutError
  end.

(** [executor.submit(lambda: self.run_analysis(name, ...))]: the lambda
    calls the [async def] and returns its coroutine object at once;
    the body of [run_analysis] does not run. *)
Definition submit_run_analysis (analysis_type : string) : future :=
  if pool_expired w analysis_type then Running
  else Finished (inr (PyCoroutine analysis_type)).

Definition save_evaluation_results (session_id : string)
  (internal external : pyobj) (delta : Analysis) (overall : option Q)
  : Eff unit :=
  match save_evaluation_results_error w with
  | Some e => raise e
  | None =>
      emit (SaveEvaluationResults session_id internal external delta
                                  overall)
  end.

(** [evaluate] from the two [future.result] calls on. *)
Definition evaluate_join (request : EvaluatorRequest)
  (session_id proposal_summary tor_summary guidelines : string)
  (internal_future external_future : future) : Eff EvaluatorResponse :=
  internal_result ← lift (future_result internal_future);
  external_result ← lift (future_result external_future);
  internal_content ← lift (get_content internal_result);
  external_content ← lift (get_content external_result);
  delta_result ← run_analysis "P_Delta" proposal_summary tor_summary
                    guidelines (take 500 internal_content)
                    (take 500 external_content);
  internal_score ← lift (get_score internal_result);
  external_score ← lift (get_score external_result);
  let overall :=
    overall_score [internal_score; external_score; score delta_result] in
  _ ← save_evaluation_results session_id internal_result external_result
        delta_result overall;
  internal_section ← lift (EvaluationSection internal_result);
  external_section ← lift (EvaluationSection external_result);
  delta_section ← lift (EvaluationSection (PyDict delta_result));
  if score_in_range overall then
    mret {| r_session_id := session_id;
            r_user_id := user_id request;
            internal_analysis := internal_section;
            external_analysis := external_section;
            delta_analysis := delta_section;
            overall_score_of := overall |}
  else raise (PydanticValidationError "overall_score").

Definition create_session (session_id user_id proposal_text tor_text
                           : string) : Eff unit :=
  match create_session_error w with
  | Some e => raise e
  | None => emit (CreateSession session_id user_id proposal_text tor_text)
  end.

Definition resolve_guidelines (request : EvaluatorRequest) : Eff string :=
  match organization_id request with
  | Some (String c r) =>
      _ ← emit (GetGuidelines (String c r) (org_guideline_id request));
      guidelines_list ←
        lift (get_organization_guidelines w (String c r)
                (org_guideline_id request));
      match guidelines_list with
      | [] => mret ""
      | _ => mret (join (nl ++ nl) guidelines_list)
      end
  | _ => mret ""
  end.

(** [ProposalEvaluator.evaluate]; its [except] clause re-raises. *)
Definition evaluate (request : EvaluatorRequest) : Eff EvaluatorResponse :=
  let session_id := or_else (session_id request) (uuid4 w) in
  '(proposal_text, proposal_url) ←
    process_proposal (proposal_text_input request)
                     (proposal_file_data request);
  '(tor_text, tor_url) ←
    process_tor (tor_text_input request) (tor_file_data request);
  _ ← create_session session_id (user_id request)
        (take 10000 proposal_text) (take 10000 tor_text);
  guidelines ← resolve_guidelines request;
  proposal_summary ← summarize_proposal proposal_text;
  tor_summary ← summarize_tor tor_text;
  let internal_future := submit_run_analysis "P_Internal" in
  let external_future := submit_run_analysis "P_External" in
  evaluate_join request session_id proposal_summary tor_summary
                guidelines internal_future external_future.

(** *** The route [POST /evaluate] ([api/routes/evaluator.py]) *)

Record EvaluateForm : Type := mkForm {
  f_user_id : string;
  f_user_name : option string;
  f_session_id : option string;
  f_document_type : string;
  f_organization_id : option string;
  f_org_guideline_id : option string;
  f_proposal_text_input : option string;
  f_proposal_pdf_file : option (list Byte.byte);
  f_tor_text_input : option string;
  f_tor_pdf_file : option (list Byte.byte)
}.

Definition bad_request (detail : string) : exn := HTTPException 400 detail.

Definition proposal_missing : string :=
  "Either proposal_text_input or proposal_pdf_file must be provided".

Definition tor_missing : string :=
  "Either tor_text_input or tor_pdf_file must be provided".

Definition is_some {A} (x : option A) : bool :=
  match x with Some _ => true | None => false end.

(** The [try] block of the route. *)
Definition evaluate_proposal_body (form : EvaluateForm)
  : Eff EvaluatorResponse :=
  if negb (opt_truthy (f_proposal_text_input form))
     && negb (is_some (f_proposal_pdf_file form))
  then raise (bad_request proposal_missing)
  else if negb (opt_truthy (f_tor_text_input form))
          && negb (is_some (f_tor_pdf_file form))
  then raise (bad_request tor_missing)
  else
    let request :=
      {| user_id := f_user_id form;
         user_name := f_user_name form;
         session_id := f_session_id form;
         organization_id := f_organization_id form;
         org_guideline_id := f_org_guideline_id form;
         document_type := f_document_type form;
         proposal_text_input := f_proposal_text_input form;
         proposal_file_data := f_proposal_pdf_file form;
         tor_text_input := f_tor_text_input form;
         tor_file_data := f_tor_pdf_file form |} in
    match request_validation_error w request with
    | Some e => raise e
    | None => evaluate request
    end.

(** [except HTTPException: raise] and
    [except Exception as e: raise HTTPException(500, ...)] *)
Definition evaluate_proposal (form : EvaluateForm)
  : Eff EvaluatorResponse :=
  catch (evaluate_proposal_body form)
        (fun e =>
           match e with
           | HTTPException _ _ => raise e
           | _ => raise (HTTPException 500
                           ("Evaluation failed: " ++ exn_str e))
           end).

End Engine.

End Evaluator.

(** ** [utils/text_processing.py]: [break_into_paragraphs] *)

Module TextProcessing.
Import PyStr.

(** [text.split('\n\n')] *)
Fixpoint split_blank_line (s : string) : list string :=
  match s with
  | EmptyString => [EmptyString]
  | String a t =>
      match t with
      | String b r =>
          if Ascii.eqb a newline && Ascii.eqb b newline
          then EmptyString :: split_blank_line r
          else match split_blank_line t with
               | [] => [String a EmptyString]
               | p :: ps => String a p :: ps
               end
      | EmptyString => [String a EmptyString]
      end
  end.

(** The inner loop over the lines of an oversized paragraph. *)
Definition pack_line (max_length : nat)
  (acc : list string * string) (line : string) : list string * string :=
  let '(result_paragraphs, current) := acc in
  let line := strip line in
  if negb (truthy line) then acc
  else if (max_length <? String.length current + String.length line + 1)%nat
  then ((if truthy current then result_paragraphs ++ [current]
         else result_paragraphs)%list, line)
  else (result_paragraphs,
        if truthy current then current ++ nl ++ line else line).

Definition pack_paragraph (max_length : nat)
  (result_paragraphs : list string) (para : string) : list string :=
  let para := strip para in
  if negb (truthy para) then result_paragraphs
  else if (max_length <? String.length para)%nat then
    let '(rs, current) :=
      fold_left (pack_line max_length) (split_char newline para)
                (result_paragraphs, "") in
    (if truthy current then rs ++ [current] else rs)%list
  else (result_paragraphs ++ [para])%list.

Definition break_into_paragraphs (text : string) (max_length : nat)
  : string :=
  if negb (truthy text) then ""
  else join (nl ++ nl)
            (fold_left (pack_paragraph max_length)
                       (split_blank_line text) []).

(** [s[:k]] for any integer [k]: a negative [k] counts from the end. *)
Definition slice_to (k : Z) (s : string) : string :=
  if (0 <=? k)%Z then take (Z.to_nat k) s
  else take (Z.to_nat (Z.of_nat (String.length s) + k)) s.

(** [truncate_text] *)
Definition truncate_text (text : string) (max_length : Z) (suffix : string)
  : string :=
  if negb (truthy text) || (Z.of_nat (String.length text) <=? max_length)%Z
  then text
  else slice_to (max_length - Z.of_nat (String.length suffix)) text ++ suffix.

(** A message of the history; [None] is a missing key. *)
Record MessageDict : Type := mkMessageDict {
  role : option string;
  content : option string
}.

(** [l[k:]] for any integer [k]: a negative [k] counts from the end. *)
Definition slice_from {A} (k : Z) (l : list A) : list A :=
  if (0 <=? k)%Z then skipn (Z.to_nat k) l
  else skipn (Z.to_nat (Z.of_nat (length l) + k)) l.

(** [messages[-max_messages:] if len(messages) > max_messages else messages] *)
Definition recent_messages (messages : list MessageDict) (max_messages : Z)
  : list MessageDict :=
  if (max_messages <? Z.of_nat (length messages))%Z
  then slice_from (- max_messages) messages
  else messages.

(** What one message adds to [conversation_parts]. *)
Definition conversation_part (msg : MessageDict) : list string :=
  let role := default "user" (role msg) in
  let content := default "" (content msg) in
  if String.eqb role "user" then ["User: " ++ content]
  else if String.eqb role "assistant" then ["Assistant: " ++ content]
  else [].

Definition conversation_parts (messages : list MessageDict)
  (max_messages : Z) : list string :=
  flat_map conversation_part (recent_messages messages max_messages).

(** [build_conversation_string] *)
Definition build_conversation_string (messages : list MessageDict)
  (max_messages : Z) : string :=
  match messages with
  | [] => ""
  | _ => join (nl ++ nl) (conversation_parts messages max_messages)
  end.

End TextProcessing.

(** ** [utils/pdf_mappings.py] *)

Module PdfMappings.

(** The dictionary kept per document, and [SourceInfo]. *)
Record SourceInfo : Type := mkSource {
  sno : string;
  title : string;
  author_organization : string;
  publication_year : string;
  link : string;
  pdf_title : string
}.

(** [PDFMappings.get]: the stored entry, or the default entry with
    [pdf_title] set. *)
Definition get (mappings : gmap string SourceInfo) (pdf_name : string)
  : SourceInfo :=
  match mappings !! pdf_name with
  | Some info => info
  | None => {| sno := ""; title := ""; author_organization := "";
               publication_year := ""; link := ""; pdf_title := pdf_name |}
  end.

Definition unique_step (acc : gset string * list SourceInfo)
  (source : SourceInfo) : gset string * list SourceInfo :=
  let '(seen, unique) := acc in
  if PyStr.truthy (pdf_title source)
     && bool_decide (pdf_title source ∉ seen)
  then ({[pdf_title source]} ∪ seen, (unique ++ [source])%list)
  else acc.

Definition get_unique_sources (sources : list SourceInfo)
  : list SourceInfo :=
  snd (fold_left unique_step sources (∅, [])).

(** The [info] argument of [add_mapping], and a row that
    [csv.DictReader] yields.  A data field is [None] when its key is
    missing; a data field that is present holds text.  For the two name
    columns of a CSV row, [None] is a missing key (no such column),
    [Some None] a key that holds Python's [None] (the row is shorter than
    the header) and [Some (Some text)] a key that holds text. *)
Record Row : Type := mkRow {
  row_pdf_name : option (option string);
  row_pdf_title : option (option string);
  row_sno : option string;
  row_title : option string;
  row_author_organization : option string;
  row_publication_year : option string;
  row_link : option string
}.

(** The entry stored for [pdf_name] from the fields of [info]. *)
Definition entry_of (pdf_name : string) (info : Row) : SourceInfo :=
  {| sno := default "" (row_sno info);
     title := default "" (row_title info);
     author_organization := default "" (row_author_organization info);
     publication_year := default "" (row_publication_year info);
     link := default "" (row_link info);
     pdf_title := pdf_name |}.

(** [PDFMappings.add_mapping] *)
Definition add_mapping (mappings : gmap string SourceInfo)
  (pdf_name : string) (info : Row) : gmap string SourceInfo :=
  <[pdf_name := entry_of pdf_name info]> mappings.

(** [row.get('pdf_name', row.get('pdf_title', ''))]; [None] is Python's
    [None]. *)
Definition row_name (row : Row) : option string :=
  match row_pdf_name row with
  | Some value => value
  | None =>
      match row_pdf_title row with
      | Some value => value
      | None => Some ""
      end
  end.

(** One row of the loop of [load_from_csv]: the row is stored when its
    name is truthy, that is a non-empty text. *)
Definition load_row (mappings : gmap string SourceInfo) (row : Row)
  : gmap string SourceInfo :=
  match row_name row with
  | Some pdf_name =>
      if PyStr.truthy pdf_name
      then <[pdf_name := entry_of pdf_name row]> mappings
      else mappings
  | None => mappings
  end.

(** [PDFMappings.load_from_csv] on the rows the reader yields. *)
Definition load_from_csv (mappings : gmap string SourceInfo)
  (rows : list Row) : gmap string SourceInfo :=
  fold_left load_row rows mappings.

End PdfMappings.

(** ** Chat orchestrator ([ChatbotEngine]) *)

Module Chatbot.
Import PyStr PdfMappings.

Inductive prompt : Type :=
| QueryRefinementPrompt (conversation_history question : string)
| ResponseGenerationPrompt (context conversation_history question : string).

(** A match returned by [PineconeService.query]; [None] is a missing key. *)
Record Metadata : Type := mkMetadata {
  md_pdf_name : option string;
  md_source : option string;
  md_text : option string
}.

Record Match : Type := mkMatch {
  m_metadata : option Metadata;
  m_text : option string;
  m_score : option Q
}.

(** An entry of [unique_contexts], and [ContextInfo]. *)
Record ContextInfo : Type := mkContext {
  pdf_name : string;
  pdf_context : string;
  score : Q
}.

(** The dictionary [extract_context] returns. *)
Record ContextData : Type := mkContextData {
  context_info : list ContextInfo;
  sources_info : list SourceInfo;
  all_context : string
}.

Record ChatRequest : Type := mkChatRequest {
  user_id : string;
  user_name : option string;
  user_email : option string;
  session_id : option string;
  question : string;
  model : string;
  source : option string
}.

Record ChatResponse : Type := mkChatResponse {
  r_user_id : string;
  r_session_id : string;
  response : string;
  response_id : string;
  contextInfo : list ContextInfo;
  sources : list SourceInfo;
  within_knowledge_base : bool
}.

(** The keyword arguments of [ChatbotDB.save_message]. *)
Record Message : Type := mkMessage {
  msg_session_id : string;
  msg_role : string;
  msg_content : string;
  msg_response_id : option string;
  msg_context_data : option (list ContextInfo * list SourceInfo);
  msg_sources : option (list SourceInfo)
}.

Inductive event : Type :=
| CreateSession (session_id user_id : string)
| GetUserConversations (user_id session_id : string)
| SaveMessage (m : Message)
| Completion (p : prompt) (model : option string)
| PineconeQuery (query : string) (top_k : Z).

Record World : Type := mkWorld {
  uuid4_session : string;
  uuid4_response : string;
  generate_completion : list event -> prompt -> result string;
  pinecone_query : string -> Z -> result (list Match);
  pdf_mappings : gmap string SourceInfo;
  create_session_error : option exn;
  (** [get_user_conversations] returns the empty string when it fails *)
  get_user_conversations : string -> string -> string;
  save_message_error : list event -> option exn
}.

Section Engine.
Variable w : World.

#[local] Abbreviation Eff := (M event).

Definition call_llm (p : prompt) (model : option string) : Eff string :=
  h ← history;
  _ ← emit (Completion p model);
  lift (generate_completion w h p).

Definition no_conversation : string := "No previous conversation".

(** [line.split(':', 1)[1]] *)
Fixpoint after_first_colon (line : string) : result string :=
  match line with
  | EmptyString => inl (IndexError "list index out of range")
  | String c r => if Ascii.eqb c ":" then inr r else after_first_colon r
  end.

(** One iteration of the loop over the lines of the refiner's answer. *)
Definition refine_step (acc : bool * string) (line : string)
  : result (bool * string) :=
  let '(requires_retrieval, refined_query) := acc in
  if startswith "REQUIRES_RETRIEVAL:" line then
    match after_first_colon line with
    | inr v => inr (String.eqb (lower (strip v)) "true", refined_query)
    | inl e => inl e
    end
  else if startswith "REFINED_QUERY:" line then
    match after_first_colon line with
    | inr v => inr (requires_retrieval, strip v)
    | inl e => inl e
    end
  else inr acc.

Fixpoint refine_lines (lines : list string) (acc : bool * string)
  : result (bool * string) :=
  match lines with
  | [] => inr acc
  | line :: rest =>
      match refine_step acc line with
      | inr acc' => refine_lines rest acc'
      | inl e => inl e
      end
  end.

(** The parse of the refiner's answer, from the initial values
    [requires_retrieval = False] and [refined_query = query]. *)
Definition parse_refinement (response query : string)
  : result (bool * string) :=
  refine_lines (split_char newline (strip response)) (false, query).

Definition query_refiner (conversation query : string)
  : Eff (bool * string) :=
  catch
    (response ←
       call_llm (QueryRefinementPrompt
                   (if truthy conversation then conversation
                    else no_conversation) query) None;
     lift (parse_refinement response query))
    (fun _ => mret (true, query)).

Definition empty_metadata : Metadata :=
  {| md_pdf_name := None; md_source := None; md_text := None |}.

(** [metadata.get('pdf_name', metadata.get('source', 'Unknown'))] *)
Definition match_pdf_name (result : Match) : string :=
  let metadata := default empty_metadata (m_metadata result) in
  default (default "Unknown" (md_source metadata)) (md_pdf_name metadata).

(** The entry built from a match. *)
Definition match_context (result : Match) : ContextInfo :=
  let metadata := default empty_metadata (m_metadata result) in
  {| pdf_name := match_pdf_name result;
     pdf_context := default (default "" (m_text result)) (md_text metadata);
     score := default 0%Q (m_score result) |}.

(** One iteration of the loop over [results]; the state is
    [seen_pdfs] and [unique_contexts] ([all_context_parts] is the
    list of the [pdf_context] fields of [unique_contexts]). *)
Definition dedup_step (top_k : Z)
  (acc : gset string * list ContextInfo) (result : Match)
  : gset string * list ContextInfo :=
  let '(seen_pdfs, unique_contexts) := acc in
  if bool_decide (match_pdf_name result ∉ seen_pdfs)
     && (Z.of_nat (length unique_contexts) <? top_k)%Z
  then ({[match_pdf_name result]} ∪ seen_pdfs,
        (unique_contexts ++ [match_context result])%list)
  else acc.

Definition unique_contexts_of (results : list Match) (top_k : Z)
  : list ContextInfo :=
  snd (fold_left (dedup_step top_k) results (∅, [])).

Definition context_separator : string := nl ++ nl ++ "---" ++ nl ++ nl.

Definition empty_context : ContextData :=
  {| context_info := []; sources_info := []; all_context := "" |}.

Definition extract_context (query : string) (top_k multiplier : Z)
  : Eff ContextData :=
  catch
    (_ ← emit (PineconeQuery query (top_k * multiplier));
     results ← lift (pinecone_query w query (top_k * multiplier));
     let unique_contexts := unique_contexts_of results top_k in
     let sources :=
       List.map (fun c => PdfMappings.get (pdf_mappings w) (pdf_name c))
                unique_contexts in
     mret {| context_info := unique_contexts;
             sources_info := get_unique_sources sources;
             all_context :=
               join context_separator
                    (List.map pdf_context unique_contexts) |})
    (fun _ => mret empty_context).

(** The marker phrases of [generate_response]. *)
Definition marker_phrases : list string :=
  [ "don't have that information"; "not in my knowledge base";
    "cannot find"; "no relevant information" ].

Definition disclaims (response : string) : bool :=
  existsb (fun phrase => contains phrase (lower response)) marker_phrases.

Definition apology : string :=
  "I apologize, but I encountered an error generating a response. Please try again.".

Definition generate_response
  (question conversation context model : string) (source : option string)
  : Eff (string * bool) :=
  catch
    (response ←
       call_llm (ResponseGenerationPrompt
                   (if truthy context then context
                    else "No relevant context found")
                   (if truthy conversation then conversation
                    else no_conversation)
                   question) (Some model);
     let within_knowledge_base :=
       if disclaims response then false else truthy context in
     let response :=
       match source with
       | Some "WA" => TextProcessing.break_into_paragraphs response 1000
       | _ => response
       end in
     mret (response, within_knowledge_base))
    (fun _ => mret (apology, false)).

Definition create_session (session_id user_id : string) : Eff unit :=
  match create_session_error w with
  | Some e => raise e
  | None => emit (CreateSession session_id user_id)
  end.

Definition save_message (m : Message) : Eff unit :=
  h ← history;
  match save_message_error w h with
  | Some e => raise e
  | None => emit (SaveMessage m)
  end.

(** [ChatbotEngine.chat]; its outer [except] clause re-raises. *)
Definition chat (request : ChatRequest) : Eff ChatResponse :=
  let session_id := or_else (session_id request) (uuid4_session w) in
  let response_id := uuid4_response w in
  _ ← catch (create_session session_id (user_id request))
            (fun _ => mret tt);
  conversation_string ←
    (if truthy session_id then
       _ ← emit (GetUserConversations (user_id request) session_id);
       mret (get_user_conversations w (user_id request) session_id)
     else mret "");
  _ ← save_message {| msg_session_id := session_id;
                      msg_role := "user";
                      msg_content := question request;
                      msg_response_id := None;
                      msg_context_data := None;
                      msg_sources := None |};
  '(requires_retrieval, refined_query) ←
    query_refiner conversation_string (question request);
  context_data ←
    (if requires_retrieval : bool then extract_context refined_query 4 2
     else mret empty_context);
  '(response_text, within_knowledge_base) ←
    generate_response (question request) conversation_string
                      (all_context context_data) (model request)
                      (source request);
  let context_info :=
    if within_knowledge_base : bool then context_info context_data
    else [] in
  let sources_info :=
    if within_knowledge_base : bool then sources_info context_data
    else [] in
  _ ← save_message {| msg_session_id := session_id;
                      msg_role := "assistant";
                      msg_content := response_text;
                      msg_response_id := Some response_id;
                      msg_context_data := Some (context_info, sources_info);
                      msg_sources := Some sources_info |};
  mret {| r_user_id := user_id request;
          r_session_id := session_id;
          response := response_text;
          response_id := response_id;
          contextInfo := context_info;
          sources := sources_info;
          within_knowledge_base := within_knowledge_base |}.

End Engine.

End Chatbot.

(** ** Follow-up questions ([ProposalEvaluator.answer_followup]) *)

Module Followup.
Import PyStr.

(** A stored analysis: the value of its [content] key, if it has one. *)
Record StoredAnalysis : Type := mkStored {
  stored_content : option string
}.

(** The row [get_session] returns; a section is [None] when the column
    is empty. *)
Record StoredSession : Type := mkSession {
  internal_analysis : option StoredAnalysis;
  external_analysis : option StoredAnalysis;
  delta_analysis : option StoredAnalysis
}.

Record EvaluatorFollowupRequest : Type := mkFollowupRequest {
  user_id : string;
  session_id : string;
  query : string;
  section : option string
}.

Record EvaluatorFollowupResponse : Type := mkFollowupResponse {
  r_session_id : string;
  r_query : string;
  answer : string;
  r_section : option string
}.

(** [format_evaluator_followup_prompt] with its arguments. *)
Inductive prompt : Type :=
| FollowupPrompt (evaluation_summary question section : string).

Inductive event : Type :=
| GetSession (session_id : string)
| Completion (p : prompt)
| SaveFollowup (session_id user_id query answer : string)
               (section : option string).

Record World : Type := mkWorld {
  get_session : string -> result (option StoredSession);
  generate_completion : list event -> prompt -> result string;
  save_followup_error : option exn
}.

Section Engine.
Variable w : World.

#[local] Abbreviation Eff := (M event).

(** One entry of [eval_summary_parts]: the label and the first 300
    characters of the content. *)
Definition summary_part (label : string) (analysis : option StoredAnalysis)
  : list string :=
  match analysis with
  | Some a => [label ++ take 300 (default "" (stored_content a))]
  | None => []
  end.

Definition evaluation_summary (session : StoredSession) : string :=
  join (nl ++ nl)
       (summary_part "**Internal Analysis**: " (internal_analysis session)
        ++ summary_part "**External Analysis**: " (external_analysis session)
        ++ summary_part "**Gap Analysis**: " (delta_analysis session))%list.

Definition general_question : string :=
  "General question about the evaluation".

Definition format_evaluator_followup_prompt
  (evaluation_summary question section : string) : prompt :=
  FollowupPrompt evaluation_summary question
                 (if truthy section then section else general_question).

Definition save_followup (session_id user_id query answer : string)
  (section : option string) : Eff unit :=
  match save_followup_error w with
  | Some e => raise e
  | None => emit (SaveFollowup session_id user_id query answer section)
  end.

(** [answer_followup]; its [except] clause re-raises. *)
Definition answer_followup (request : EvaluatorFollowupRequest)
  : Eff EvaluatorFollowupResponse :=
  _ ← emit (GetSession (session_id request));
  session ← lift (get_session w (session_id request));
  match session with
  | None =>
      raise (ValueError ("Session not found: " ++ session_id request))
  | Some session =>
      let prompt :=
        format_evaluator_followup_prompt
          (evaluation_summary session) (query request)
          (or_else (section request) "") in
      h ← history;
      _ ← emit (Completion prompt);
      answer ← lift (generate_completion w h prompt);
      _ ← save_followup (session_id request) (user_id request)
            (query request) answer (section request);
      mret {| r_session_id := session_id request;
              r_query := query request;
              answer := answer;
              r_section := section request |}
  end.

(** The route [POST /followup]: every exception becomes HTTP 500. *)
Definition followup_question (request : EvaluatorFollowupRequest)
  : Eff EvaluatorFollowupResponse :=
  catch (answer_followup request)
        (fun e => raise (HTTPException 500
                           ("Failed to answer followup: " ++ exn_str e))).

End Engine.

End Followup.

(** ** The route [POST /chat] ([api/routes/chatbot.py]) *)

Module ChatRoute.
Import Chatbot.

(** Every exception of the engine becomes HTTP 500. *)
Definition chat (w : World) (request : ChatRequest)
  : M event ChatResponse :=
  catch (Chatbot.chat w request)
        (fun e => raise (HTTPException 500 ("Chat failed: " ++ exn_str e))).

End ChatRoute.

(** ** Reference definitions used in the statements *)

Module Spec.
Import PyStr Parser.

(** Equality of optional scores, up to equality of rationals. *)
Definition opt_Qeq (a b : option Q) : Prop :=
  match a, b with
  | Some x, Some y => (x == y)%Q
  | None, None => True
  | _, _ => False
  end.

(** Every character of [s] satisfies [p]. *)
Fixpoint all_chars (p : ascii -> bool) (s : string) : bool :=
  match s with
  | EmptyString => true
  | String c r => p c && all_chars p r
  end.

Definition first_char (s : string) : option ascii :=
  match s with
  | EmptyString => None
  | String c _ => Some c
  end.

Fixpoint last_char (s : string) : option ascii :=
  match s with
  | EmptyString => None
  | String c EmptyString => Some c
  | String _ r => last_char r
  end.

Definition not_p (p : ascii -> bool) (c : option ascii) : Prop :=
  match c with
  | Some c => p c = false
  | None => True
  end.

Definition is_dash (c : ascii) : bool := Ascii.eqb c "-".

Definition dash_or_whitespace (c : ascii) : bool := is_dash c || isspace c.

Definition begins_with_dash (s : string) : bool :=
  match first_char s with
  | Some c => is_dash c
  | None => false
  end.

Definition ends_with_dash (s : string) : bool :=
  match last_char s with
  | Some c => is_dash c
  | None => false
  end.

(** What is stored for a kept line: the line cleared of its leading and
    trailing dashes and whitespace.  Nothing is said of an item that
    still has a dash at either end. *)
Definition stored_by_design (line item : string) : Prop :=
  begins_with_dash item = false ->
  ends_with_dash item = false ->
  item = strip_by dash_or_whitespace line.

End Spec.

Module EvalSpec.
Import Evaluator.

(** The store writes that mark an evaluation as completed. *)
Definition is_save (ev : event) : bool :=
  match ev with
  | SaveEvaluationResults _ _ _ _ _ => true
  | _ => false
  end.

Definition saves (t : list event) : list event := List.filter is_save t.

(** A computation that saves no evaluation results. *)
Definition quiet {A} (m : M event A) : Prop :=
  forall t, saves (snd (m t)) = saves t.

End EvalSpec.

Module ChatSpec.
Import Chatbot.

(** A retrieved chunk, as the specification has it: the name of its
    source document, its text and its relevance. *)
Record ContextChunk : Type := mkChunk {
  source_document_name : string;
  chunk_text : string;
  relevance_score : Q
}.

(** The chunk a ranked result stands for.  The document is named by the
    [pdf_name] of the metadata, by its [source] when there is no
    [pdf_name], and is [Unknown] when there is neither; the text is that
    of the metadata, or else the result's own; a result without score has
    relevance 0. *)
Definition chunk_of (r : Match) : ContextChunk :=
  {| source_document_name :=
       match m_metadata r with
       | Some {| md_pdf_name := Some name |} => name
       | Some {| md_pdf_name := None; md_source := Some name |} => name
       | _ => "Unknown"
       end;
     chunk_text :=
       match m_metadata r, m_text r with
       | Some {| md_text := Some text |}, _ => text
       | _, Some text => text
       | _, None => ""
       end;
     relevance_score :=
       match m_score r with
       | Some relevance => relevance
       | None => 0%Q
       end |}.

(** Deduplication by source-document name: the first chunk of every
    document, in rank order. *)
Fixpoint first_chunk_per_document (chunks : list ContextChunk)
  : list ContextChunk :=
  match chunks with
  | [] => []
  | c :: rest =>
      c :: List.filter
             (fun c' => negb (String.eqb (source_document_name c')
                                         (source_document_name c)))
             (first_chunk_per_document rest)
  end.

(** ... capped at [top_k] unique documents. *)
Definition deduplicated (chunks : list ContextChunk) (top_k : Z)
  : list ContextChunk :=
  firstn (Z.to_nat top_k) (first_chunk_per_document chunks).

(** [c] is the first (highest-ranked) chunk of its document in
    [chunks]. *)
Definition first_of_its_document (chunks : list ContextChunk)
  (c : ContextChunk) : Prop :=
  exists before after,
    chunks = (before ++ c :: after)%list
    /\ Forall (fun c' => source_document_name c' <> source_document_name c)
              before.

(** The context entry that shows a chunk. *)
Definition entry_of_chunk (c : ContextChunk) : ContextInfo :=
  {| pdf_name := source_document_name c;
     pdf_context := chunk_text c;
     score := relevance_score c |}.

(** The closed form of the loop of [extract_context], used in the
    proofs: the first match of every document, in rank order. *)
Fixpoint first_per_document (results : list Match) : list Match :=
  match results with
  | [] => []
  | r :: rs =>
      r :: List.filter
             (fun r' => negb (String.eqb (match_pdf_name r')
                                         (match_pdf_name r)))
             (first_per_document rs)
  end.

(** Deduplicated and capped at [top_k] documents. *)
Definition top_unique (results : list Match) (top_k : Z)
  : list ContextInfo :=
  firstn (Z.to_nat top_k)
         (List.map match_context (first_per_document results)).

(** The document of an entry is none of [seen]. *)
Definition unseen (seen : gset string) (r : Match) : bool :=
  bool_decide (match_pdf_name r ∉ seen).

(** The document of an entry is not [document]. *)
Definition other_document (document : string) (r : Match) : bool :=
  negb (String.eqb (match_pdf_name r) document).

(** A line of the refiner's answer that carries neither label. *)
Definition unlabelled (line : string) : bool :=
  negb (PyStr.startswith "REQUIRES_RETRIEVAL:" line)
  && negb (PyStr.startswith "REFINED_QUERY:" line).

End ChatSpec.

Module ExtraSpec.

(** Truth value of optional bytes: present and not empty. *)
Definition bytes_truthy (data : option (list Byte.byte)) : bool :=
  match data with
  | Some (_ :: _) => true
  | _ => false
  end.

(** The three analysis types [run_analysis] knows. *)
Definition known_analysis_type (analysis_type : string) : bool :=
  String.eqb analysis_type "P_Internal"
  || String.eqb analysis_type "P_External"
  || String.eqb analysis_type "P_Delta".

(** [a] occurs in [s] as a contiguous part. *)
Definition part_of (a s : string) : Prop :=
  exists before after, s = before ++ a ++ after.

(** Every entry of the table is stored under its own [pdf_title]. *)
Definition keyed (mappings : gmap string PdfMappings.SourceInfo) : Prop :=
  forall name info,
    mappings !! name = Some info -> PdfMappings.pdf_title info = name.

(** The store writes of the follow-up log. *)
Definition is_save_followup (ev : Followup.event) : bool :=
  match ev with
  | Followup.SaveFollowup _ _ _ _ _ => true
  | _ => false
  end.

(** The state of the loop of [get_unique_sources] is consistent: [seen]
    holds the titles of [unique], which are distinct and not empty. *)
Definition unique_state (seen : gset string)
  (unique : list PdfMappings.SourceInfo) : Prop :=
  (forall name, name ∈ seen <-> In name (List.map PdfMappings.pdf_title unique))
  /\ List.NoDup (List.map PdfMappings.pdf_title unique)
  /\ Forall (fun x => PyStr.truthy (PdfMappings.pdf_title x) = true) unique.

Definition titled (x : PdfMappings.SourceInfo) : bool :=
  PyStr.truthy (PdfMappings.pdf_title x).

(** The message stored for the user's question. *)
Definition user_message (session_id question : string) : Chatbot.Message :=
  {| Chatbot.msg_session_id := session_id;
     Chatbot.msg_role := "user";
     Chatbot.msg_content := question;
     Chatbot.msg_response_id := None;
     Chatbot.msg_context_data := None;
     Chatbot.msg_sources := None |}.

(** The events that set a chat turn up. *)
Definition is_setup (ev : Chatbot.event) : bool :=
  match ev with
  | Chatbot.CreateSession _ _ | Chatbot.GetUserConversations _ _ => true
  | _ => false
  end.

(** A computation only adds to the trace. *)
Definition grows {E A} (m : M E A) : Prop :=
  forall t, exists evs, snd (m t) = (t ++ evs)%list.

(** The paragraphs [break_into_paragraphs] joins. *)
Definition paragraphs (text : string) (max_length : nat) : list string :=
  fold_left (TextProcessing.pack_paragraph max_length)
            (TextProcessing.split_blank_line text) [].

(** The name a CSV row is stored under, if it is stored at all: the
    text of its [pdf_name] column, or of its [pdf_title] column when
    there is no [pdf_name] column, if that text is not empty. *)
Definition stored_name (row : PdfMappings.Row) : option string :=
  match PdfMappings.row_pdf_name row, PdfMappings.row_pdf_title row with
  | Some (Some name), _ => if PyStr.truthy name then Some name else None
  | Some None, _ => None
  | None, Some (Some name) => if PyStr.truthy name then Some name else None
  | None, _ => None
  end.

Definition stored_under (name : string) (row : PdfMappings.Row) : bool :=
  bool_decide (stored_name row = Some name).

(** A paragraph that is not empty and fits [max_length]. *)
Definition well_sized (max_length : nat) (p : string) : Prop :=
  PyStr.truthy p = true /\ (String.length p <= max_length)%nat.

(** No line of a paragraph of [text], stripped, is longer than
    [max_length]. *)
Definition lines_fit (max_length : nat) (text : string) : Prop :=
  Forall (fun para =>
            Forall (fun line =>
                      (String.length (PyStr.strip line) <= max_length)%nat)
                   (PyStr.split_char PyStr.newline (PyStr.strip para)))
         (TextProcessing.split_blank_line text).

End ExtraSpec.

(** ** Sample collaborators and requests *)

Module Samples.
Import PyStr Parser Evaluator.

(** A provider that fails on the proposal summary and answers every
    other prompt with the canonical response. *)
Definition completion_failing_on_proposal_summary
  (h : list event) (p : prompt) : result string :=
  match p with
  | ProposalSummaryPrompt _ =>
      inl (LLMServiceError "OpenAI completion failed: timeout")
  | _ => inr canonical_response
  end.

Definition world_of
  (completion : list event -> prompt -> result string) : World :=
  {| uuid4 := "generated-id";
     generate_completion := completion;
     extract_text_from_pdf :=
       fun _ => inl (FileProcessingError "PDF extraction failed");
     create_session_error := None;
     get_organization_guidelines := fun _ _ => inr [];
     save_evaluation_results_error := None;
     pool_expired := fun _ => false;
     request_validation_error := fun _ => None |}.

Definition world_summary_fails : World :=
  world_of completion_failing_on_proposal_summary.

(** A provider that fails on the internal analysis and answers every
    other prompt with the canonical response. *)
Definition completion_failing_on_internal_analysis
  (h : list event) (p : prompt) : result string :=
  match p with
  | PInternalPrompt _ _ =>
      inl (LLMServiceError "OpenAI completion failed: timeout")
  | _ => inr canonical_response
  end.

Definition world_internal_fails : World :=
  world_of completion_failing_on_internal_analysis.

Definition world_all_well : World :=
  world_of (fun _ _ => inr canonical_response).

Definition request_of (proposal tor : option string) : EvaluatorRequest :=
  {| user_id := "user123";
     user_name := None;
     session_id := None;
     organization_id := None;
     org_guideline_id := None;
     document_type := "Proposal";
     proposal_text_input := proposal;
     proposal_file_data := None;
     tor_text_input := tor;
     tor_file_data := None |}.

Definition followup_world (stored : option Followup.StoredSession)
  : Followup.World :=
  {| Followup.get_session := fun _ => inr stored;
     Followup.generate_completion := fun _ _ => inr "The budget is missing.";
     Followup.save_followup_error := None |}.

Definition followup_request : Followup.EvaluatorFollowupRequest :=
  {| Followup.user_id := "user123";
     Followup.session_id := "eval-session-123";
     Followup.query := "Can you elaborate on the budget gaps?";
     Followup.section := Some "P_Delta" |}.

Definition request_with_texts : EvaluatorRequest :=
  request_of (Some "Our proposal aims to...")
             (Some "The Terms of Reference require...").

Definition request_without_documents : EvaluatorRequest :=
  request_of None None.

Definition form_without_proposal : EvaluateForm :=
  {| f_user_id := "user123";
     f_user_name := None;
     f_session_id := None;
     f_document_type := "Proposal";
     f_organization_id := None;
     f_org_guideline_id := None;
     f_proposal_text_input := None;
     f_proposal_pdf_file := None;
     f_tor_text_input := Some "The Terms of Reference require...";
     f_tor_pdf_file := None |}.

Definition analysis_of (section_type : string) : pyobj :=
  PyDict (parse_analysis_response canonical_response section_type).

End Samples.

Module ChatSamples.
Import PyStr PdfMappings Chatbot.

Definition chunk (document text : string) (relevance : Q) : Match :=
  {| m_metadata := Some {| md_pdf_name := Some document;
                           md_source := None;
                           md_text := Some text |};
     m_text := None;
     m_score := Some relevance |}.

(** The ranked results of property P5: documents A, A, B, C, A. *)
Definition ranked_results : list Match :=
  [ chunk "A" "first of A" 0.9; chunk "A" "second of A" 0.8;
    chunk "B" "first of B" 0.7; chunk "C" "first of C" 0.6;
    chunk "A" "third of A" 0.5 ].

Definition world_of (completion : list event -> prompt -> result string)
  : World :=
  {| uuid4_session := "generated-session";
     uuid4_response := "generated-response";
     generate_completion := completion;
     pinecone_query := fun _ _ => inr ranked_results;
     pdf_mappings := ∅;
     create_session_error := None;
     get_user_conversations := fun _ _ => "";
     save_message_error := fun _ => None |}.

(** The refiner answers in prose, without the two labelled lines. *)
Definition completion_unlabelled (h : list event) (p : prompt)
  : result string :=
  match p with
  | QueryRefinementPrompt _ _ =>
      inr "The user asks about impact evaluation."
  | ResponseGenerationPrompt _ _ _ =>
      inr "Impact evaluation measures the effect of a programme."
  end.

(** The refiner asks for retrieval and the answer disclaims knowledge. *)
Definition completion_disclaiming (h : list event) (p : prompt)
  : result string :=
  match p with
  | QueryRefinementPrompt _ _ =>
      inr ("REQUIRES_RETRIEVAL: True" ++ nl ++ "REFINED_QUERY: budget rules")
  | ResponseGenerationPrompt _ _ _ =>
      inr "I Don't Have That Information in my knowledge base."
  end.

(** The refiner asks for retrieval and the answer uses the context. *)
Definition completion_grounded (h : list event) (p : prompt)
  : result string :=
  match p with
  | QueryRefinementPrompt _ _ =>
      inr ("REQUIRES_RETRIEVAL: True" ++ nl ++ "REFINED_QUERY: budget rules")
  | ResponseGenerationPrompt _ _ _ =>
      inr "According to document A, budgets are reviewed every year."
  end.

Definition request_of (question : string) : ChatRequest :=
  {| user_id := "user123";
     user_name := None;
     user_email := None;
     session_id := Some "session-abc";
     question := question;
     model := "gpt-4o";
     source := None |}.

End ChatSamples.

(** * Properties *)

(** ** Stripping *)

Lemma append_cons (c : ascii) (a b : string) :
  String c a ++ b = String c (a ++ b).
Proof. reflexivity. Qed.

Lemma append_nil (b : string) : "" ++ b = b.
Proof. reflexivity. Qed.

Ltac str_simpl := rewrite ?append_cons, ?append_nil.

Lemma append_assoc (a b c : string) : (a ++ b) ++ c = a ++ (b ++ c).
Proof.
  induction a as [|x a IH]; [reflexivity|].
  rewrite !append_cons, IH; reflexivity.
Qed.

Section Stripping.
Import PyStr Spec.
Variable p : ascii -> bool.

Lemma lstrip_by_spec (s : string) :
  exists pre, s = pre ++ lstrip_by p s /\ all_chars p pre = true
              /\ not_p p (first_char (lstrip_by p s)).
Proof.
  induction s as [|c r IH]; simpl.
  - exists ""; repeat split; reflexivity.
  - destruct (p c) eqn:Hc.
    + destruct IH as (pre & Heq & Hall & Hfirst).
      exists (String c pre); simpl; rewrite Hc, Hall; str_simpl.
      repeat split; [congruence | exact Hfirst].
    + exists ""; simpl; str_simpl; repeat split; exact Hc.
Qed.

Lemma rstrip_by_spec (s : string) :
  exists post, s = rstrip_by p s ++ post /\ all_chars p post = true
               /\ not_p p (last_char (rstrip_by p s)).
Proof.
  induction s as [|c r IH]; simpl.
  - exists ""; repeat split; reflexivity.
  - destruct IH as (post & Heq & Hall & Hlast).
    destruct (rstrip_by p r) as [|a r'] eqn:Hr.
    + rewrite append_nil in Heq; subst r.
      destruct (p c) eqn:Hc.
      * exists (String c post); simpl; rewrite Hc, Hall; repeat split.
      * exists post; simpl; repeat split; [exact Hall | exact Hc].
    + exists post; rewrite !append_cons, <- (append_cons a r' post).
      repeat split; [congruence | exact Hall | exact Hlast].
Qed.

Lemma rstrip_by_first (s : string) :
  not_p p (first_char s) -> not_p p (first_char (rstrip_by p s)).
Proof.
  destruct s as [|c r]; simpl; [trivial|].
  intros Hc; destruct (rstrip_by p r); [rewrite Hc|]; exact Hc.
Qed.

(** [strip_by p s] is [s] without its longest prefix and suffix of
    characters that satisfy [p]. *)
Lemma strip_by_spec (s : string) :
  exists pre post,
    s = pre ++ strip_by p s ++ post
    /\ all_chars p pre = true /\ all_chars p post = true
    /\ not_p p (first_char (strip_by p s))
    /\ not_p p (last_char (strip_by p s)).
Proof.
  unfold strip_by.
  destruct (lstrip_by_spec s) as (pre & Hs & Hpre & Hfirst).
  destruct (rstrip_by_spec (lstrip_by p s)) as (post & Hl & Hpost & Hlast).
  exists pre, post; repeat split; auto using rstrip_by_first.
  rewrite <- Hl; exact Hs.
Qed.

Lemma all_chars_app (a b : string) :
  all_chars p (a ++ b) = all_chars p a && all_chars p b.
Proof.
  induction a as [|c a IH]; [reflexivity|].
  rewrite append_cons; simpl; rewrite IH, andb_assoc; reflexivity.
Qed.

Lemma lstrip_by_all (s : string) :
  all_chars p s = true -> lstrip_by p s = "".
Proof.
  induction s as [|c r IH]; simpl; [reflexivity|].
  intros [Hc Hr]%andb_true_iff; rewrite Hc; auto.
Qed.

Lemma lstrip_by_app_all (pre s : string) :
  all_chars p pre = true -> lstrip_by p (pre ++ s) = lstrip_by p s.
Proof.
  induction pre as [|c pre IH]; [reflexivity|].
  rewrite append_cons; simpl.
  intros [Hc Hr]%andb_true_iff; rewrite Hc; auto.
Qed.

Lemma rstrip_by_all (s : string) :
  all_chars p s = true -> rstrip_by p s = "".
Proof.
  induction s as [|c r IH]; simpl; [reflexivity|].
  intros [Hc Hr]%andb_true_iff; rewrite (IH Hr), Hc; reflexivity.
Qed.

Lemma rstrip_by_app_all (m post : string) :
  all_chars p post = true -> rstrip_by p (m ++ post) = rstrip_by p m.
Proof.
  intros Hpost; induction m as [|c m IH].
  - rewrite append_nil; apply rstrip_by_all, Hpost.
  - rewrite append_cons; simpl; rewrite IH; reflexivity.
Qed.

Lemma rstrip_by_id (s : string) :
  not_p p (last_char s) -> rstrip_by p s = s.
Proof.
  induction s as [|c r IH]; [reflexivity|].
  destruct r as [|d r]; simpl in *; [intros ->; reflexivity|].
  intros H; specialize (IH H); simpl in IH; rewrite IH; reflexivity.
Qed.

(** [strip_by p] finds the middle of any such decomposition. *)
Lemma strip_by_unique (pre m post : string) :
  all_chars p pre = true -> all_chars p post = true ->
  not_p p (first_char m) -> not_p p (last_char m) ->
  strip_by p (pre ++ m ++ post) = m.
Proof.
  intros Hpre Hpost Hfirst Hlast; unfold strip_by.
  rewrite (lstrip_by_app_all _ _ Hpre).
  destruct m as [|c r].
  - rewrite append_nil, (lstrip_by_all _ Hpost); reflexivity.
  - rewrite append_cons; simpl in Hfirst |- *; rewrite Hfirst.
    rewrite <- append_cons, (rstrip_by_app_all _ _ Hpost).
    apply rstrip_by_id, Hlast.
Qed.

End Stripping.

Lemma all_chars_impl (p q : ascii -> bool) (s : string) :
  (forall c, p c = true -> q c = true) ->
  Spec.all_chars p s = true -> Spec.all_chars q s = true.
Proof.
  intros Hpq; induction s as [|c r IH]; simpl; [reflexivity|].
  intros [Hc Hr]%andb_true_iff; rewrite (Hpq _ Hc), (IH Hr); reflexivity.
Qed.

(** ** Response parser *)

Section ParserFacts.
Import PyStr Regex Parser Spec.

Lemma span_digits_spec (s : string) :
  s = fst (span_digits s) ++ snd (span_digits s)
  /\ all_chars isdigit (fst (span_digits s)) = true.
Proof.
  induction s as [|c r [IH1 IH2]]; simpl; [split; reflexivity|].
  destruct (isdigit c) eqn:Hc; [|split; reflexivity].
  destruct (span_digits r) as [d t]; simpl in *.
  rewrite Hc, IH2, append_cons, <- IH1; split; reflexivity.
Qed.

Lemma span_digits_all (d : string) :
  all_chars isdigit d = true -> span_digits d = (d, "").
Proof.
  induction d as [|c r IH]; simpl; [reflexivity|].
  intros [Hc Hr]%andb_true_iff; rewrite Hc, (IH Hr); reflexivity.
Qed.

Lemma span_digits_dot (d r : string) :
  all_chars isdigit d = true ->
  span_digits (d ++ String "." r) = (d, String "." r).
Proof.
  induction d as [|c d' IH]; simpl; [reflexivity|].
  intros [Hc Hr]%andb_true_iff.
  rewrite ?append_cons; simpl; rewrite Hc, (IH Hr); reflexivity.
Qed.

Lemma digits1_spec (s d t : string) :
  digits1 s = Some (d, t) ->
  all_chars isdigit d = true /\ d <> "".
Proof.
  unfold digits1; destruct (span_digits_spec s) as [_ Hall].
  destruct (span_digits s) as [[|c d'] t']; [discriminate|].
  intros [= <- <-]; split; [exact Hall | discriminate].
Qed.

Lemma py_float_digits (d : string) :
  all_chars isdigit d = true -> d <> "" -> is_ok (py_float d) = true.
Proof.
  intros Hall Hne; unfold py_float; rewrite (span_digits_all d Hall).
  destruct d; [contradiction | reflexivity].
Qed.

Lemma py_float_decimal (i f : string) :
  all_chars isdigit i = true -> i <> "" ->
  all_chars isdigit f = true -> f <> "" ->
  is_ok (py_float (i ++ "." ++ f)) = true.
Proof.
  intros Hi Hine Hf Hfne; unfold py_float.
  rewrite append_cons, append_nil, (span_digits_dot i f Hi).
  destruct i; [contradiction|].
  rewrite (span_digits_all f Hf); destruct f; [contradiction | reflexivity].
Qed.

(** What the score pattern captures is a literal [float] accepts. *)
Lemma decimal_here_float (s g : string) :
  decimal_here s = Some g -> is_ok (py_float g) = true.
Proof.
  unfold decimal_here.
  destruct (digits1 s) as [[i t]|] eqn:Hi; [|discriminate].
  destruct (digits1_spec _ _ _ Hi) as [Hall Hne].
  destruct t as [|c t']; [intros [= <-]; auto using py_float_digits|].
  destruct (Ascii.eqb c ".") eqn:Hc.
  - apply Ascii.eqb_eq in Hc; subst c.
    destruct (digits1 t') as [[f u]|] eqn:Hf.
    + destruct (digits1_spec _ _ _ Hf) as [Hfall Hfne].
      intros [= <-]; auto using py_float_decimal.
    + intros [= <-]; auto using py_float_digits.
  - assert (Hg : Some i = Some g -> is_ok (py_float g) = true)
      by (intros [= <-]; auto using py_float_digits).
    destruct c as [[] [] [] [] [] [] [] []]; try exact Hg; discriminate.
Qed.

Lemma search_found {A} (here : string -> option A) (s : string) (r : A) :
  search here s = Some r -> exists s', here s' = Some r.
Proof.
  induction s as [|c s' IH]; simpl.
  - destruct (here "") eqn:H; [intros [= <-]; eauto | discriminate].
  - destruct (here (String c s')) eqn:H; [intros [= <-]; eauto | exact IH].
Qed.

Lemma search_score_float (response g : string) :
  search_score response = Some g -> is_ok (py_float g) = true.
Proof.
  intros [s' H]%search_found; unfold score_here in H.
  destruct (match_literal_ci "**SCORE**:" s') as [rest|]; [|discriminate].
  destruct (lstrip_by isspace rest) as [|c t]; [discriminate|].
  destruct (Ascii.eqb c "[") eqn:Hc.
  - apply Ascii.eqb_eq in Hc; subst c; eauto using decimal_here_float.
  - assert (Hg : decimal_here (String c t) = Some g ->
                 is_ok (py_float g) = true) by apply decimal_here_float.
    destruct c as [[] [] [] [] [] [] [] []]; try (apply Hg; exact H);
      discriminate.
Qed.

(** The [try] block of the parser never raises on a string. *)
Lemma parse_body_returns (response st : string) :
  parse_body response st = inr (parse_analysis_response response st).
Proof.
  unfold parse_analysis_response, parse_body.
  destruct (search_score response) as [g|] eqn:Hs; [|reflexivity].
  pose proof (search_score_float _ _ Hs) as Hok.
  destruct (py_float g); [discriminate | reflexivity].
Qed.

(** The record the parser returns, field by field. *)
Lemma parse_analysis_response_fields (response st : string) :
  exists o,
    parse_analysis_response response st
    = {| section_type := st;
         title := title_of st;
         content := match search_analysis response with
                    | Some g => strip g
                    | None => response
                    end;
         score := o;
         gaps := items_of (search_gaps response);
         strengths := items_of (search_section "STRENGTHS" response);
         recommendations :=
           items_of (search_section "RECOMMENDATIONS" response) |}.
Proof.
  pose proof (parse_body_returns response st) as H.
  unfold parse_body in H.
  destruct (match search_score response with
            | Some g => match py_float g with
                        | inl e => inl e
                        | inr q => inr (Some q)
                        end
            | None => inr None
            end) as [e|o]; [discriminate|].
  exists o; congruence.
Qed.

End ParserFacts.

Section ParserClaims.
Import PyStr Regex Parser Spec.

(** C7.  For every response text and section type the parser returns a
    record whose [section_type] is the one given: the [try] block never
    raises on a string, and the [except] block, were it entered, returns
    the minimal record (title "<type> Analysis", the raw text as content,
    empty lists, no score). *)
Theorem parse_analysis_response_total (response st : string) :
  section_type (parse_analysis_response response st) = st
  /\ parse_body response st = inr (parse_analysis_response response st)
  /\ forall e : exn,
       try_except (inl e) (fun _ => minimal_record response st)
       = {| section_type := st;
            title := st ++ " Analysis";
            content := response;
            score := None;
            gaps := [];
            strengths := [];
            recommendations := [] |}.
Proof.
  split; [|split].
  - destruct (parse_analysis_response_fields response st) as [o ->].
    reflexivity.
  - apply parse_body_returns.
  - reflexivity.
Qed.

(** The inputs named in property P2. *)
Example parse_empty_text :
  parse_analysis_response "" "P_Delta"
  = {| section_type := "P_Delta"; title := "Gap Analysis"; content := "";
       score := None; gaps := []; strengths := [];
       recommendations := [] |}.
Proof. reflexivity. Qed.

Example parse_plain_prose :
  parse_analysis_response "This is just plain text without structure"
                          "P_Internal"
  = {| section_type := "P_Internal";
       title := "Internal Consistency Analysis";
       content := "This is just plain text without structure";
       score := None; gaps := []; strengths := [];
       recommendations := [] |}.
Proof. reflexivity. Qed.

Example parse_score_only :
  parse_analysis_response "**SCORE**: [92.5]" "P_External"
  = {| section_type := "P_External"; title := "ToR Alignment Analysis";
       content := "**SCORE**: [92.5]";
       score := Some (inject_Z 92 + inject_Z 5 / inject_Z 10)%Q;
       gaps := []; strengths := []; recommendations := [] |}.
Proof. reflexivity. Qed.

(** C8.  On the canonical response the parser returns score 77,
    strengths a and b, gap c, recommendation d and content "some text",
    whatever the section type. *)
Theorem parse_canonical_response (st : string) :
  let r := parse_analysis_response canonical_response st in
  score r = Some (inject_Z 77)
  /\ strengths r = ["a"; "b"]
  /\ gaps r = ["c"]
  /\ recommendations r = ["d"]
  /\ content r = "some text"
  /\ section_type r = st.
Proof. repeat split. Qed.

(** The same parts, separated by blank lines. *)
Example parse_canonical_response_blank_lines :
  let text :=
    "**SCORE**: 77" ++ nl ++ nl ++
    "**STRENGTHS**:" ++ nl ++ "- a" ++ nl ++ "- b" ++ nl ++ nl ++
    "**GAPS**:" ++ nl ++ "- c" ++ nl ++ nl ++
    "**RECOMMENDATIONS**:" ++ nl ++ "- d" ++ nl ++ nl ++
    "**DETAILED ANALYSIS**:" ++ nl ++ "some text" ++ nl in
  parse_analysis_response text "P_Delta"
  = parse_analysis_response canonical_response "P_Delta".
Proof. vm_compute; reflexivity. Qed.

Lemma startswith_dash (s : string) :
  startswith "-" s = true <-> first_char s = Some "-"%char.
Proof.
  destruct s as [|c r]; [split; discriminate|].
  change (startswith "-" (String c r)) with (Ascii.eqb "-" c && true).
  change (first_char (String c r)) with (Some c).
  rewrite andb_true_r, Ascii.eqb_eq; split; congruence.
Qed.

(** The lists of the parser, as the code computes them: the bullet items
    of their heading's text, each the line without its leading and
    trailing dashes and spaces, and then without the whitespace left at
    either end. *)
Lemma bullet_items_spec :
  (forall response st,
      let r := parse_analysis_response response st in
      strengths r = items_of (search_section "STRENGTHS" response)
      /\ gaps r = items_of (search_gaps response)
      /\ recommendations r
         = items_of (search_section "RECOMMENDATIONS" response))
  /\ (forall group item,
         In item (bullet_items group) <->
         exists line,
           In line (section_lines group)
           /\ first_char (strip line) = Some "-"%char
           /\ item = strip (strip_chars "- " line))
  /\ (forall line,
         exists pre ws1 ws2 post,
           line = pre ++ (ws1 ++ bullet_text line ++ ws2) ++ post
           /\ all_chars (fun c => mem c "- ") pre = true
           /\ all_chars (fun c => mem c "- ") post = true
           /\ all_chars isspace ws1 = true
           /\ all_chars isspace ws2 = true
           /\ not_p isspace (first_char (bullet_text line))
           /\ not_p isspace (last_char (bullet_text line)))
  /\ bullet_items "- -5 points -" = ["5 points"]
  /\ bullet_items "* starred" = []
  /\ bullet_items "1. numbered" = [].
Proof.
  split; [|split; [|split; [|repeat split]]].
  - intros response st r; subst r.
    destruct (parse_analysis_response_fields response st) as [o ->].
    repeat split.
  - intros group item; unfold bullet_items.
    rewrite in_map_iff; split.
    + intros (line & <- & [Hin Hb]%filter_In).
      exists line; repeat split; [exact Hin|].
      apply startswith_dash; exact Hb.
    + intros (line & Hin & Hb & ->).
      exists line; split; [reflexivity|].
      apply filter_In; split; [exact Hin|].
      apply startswith_dash; exact Hb.
  - intros line; unfold bullet_text, strip, strip_chars.
    destruct (strip_by_spec (fun c => mem c "- ") line)
      as (pre & post & Hl & Hpre & Hpost & _).
    destruct (strip_by_spec isspace
                (strip_by (fun c => mem c "- ") line))
      as (ws1 & ws2 & Hm & Hws1 & Hws2 & Hfirst & Hlast).
    exists pre, ws1, ws2, post; rewrite <- Hm; auto 10.
Qed.

Lemma bullet_text_by_design (line : string) :
  stored_by_design line (bullet_text line).
Proof.
  intros Hb He; unfold bullet_text, strip, strip_chars.
  destruct (strip_by_spec (fun c => mem c "- ") line)
    as (pre & post & Hl & Hpre & Hpost & _).
  destruct (strip_by_spec isspace (strip_by (fun c => mem c "- ") line))
    as (ws1 & ws2 & Hm & Hws1 & Hws2 & Hfirst & Hlast).
  fold (strip_chars "- " line) in *; fold (strip (strip_chars "- " line)) in *.
  fold (bullet_text line) in *.
  set (item := bullet_text line) in *.
  assert (Hline : line = (pre ++ ws1) ++ item ++ (ws2 ++ post)).
  { rewrite Hl at 1; rewrite Hm at 1.
    rewrite !append_assoc; reflexivity. }
  rewrite Hline at 1; symmetry; apply strip_by_unique.
  - rewrite all_chars_app, andb_true_iff; split.
    + apply (all_chars_impl (fun c => mem c "- ")); [|exact Hpre].
      intros c; unfold dash_or_whitespace, is_dash; simpl.
      rewrite orb_false_r; intros [->%Ascii.eqb_eq | ->%Ascii.eqb_eq]%orb_true_iff;
        reflexivity.
    + apply (all_chars_impl isspace); [|exact Hws1].
      intros c Hc; unfold dash_or_whitespace; rewrite Hc; apply orb_true_r.
  - rewrite all_chars_app, andb_true_iff; split.
    + apply (all_chars_impl isspace); [|exact Hws2].
      intros c Hc; unfold dash_or_whitespace; rewrite Hc; apply orb_true_r.
    + apply (all_chars_impl (fun c => mem c "- ")); [|exact Hpost].
      intros c; unfold dash_or_whitespace, is_dash; simpl.
      rewrite orb_false_r; intros [->%Ascii.eqb_eq | ->%Ascii.eqb_eq]%orb_true_iff;
        reflexivity.
  - unfold begins_with_dash in Hb; destruct (first_char item) as [c|];
      simpl in *; [|exact I].
    unfold dash_or_whitespace; rewrite Hb, Hfirst; reflexivity.
  - unfold ends_with_dash in He; destruct (last_char item) as [c|];
      simpl in *; [|exact I].
    unfold dash_or_whitespace; rewrite He, Hlast; reflexivity.
Qed.

Lemma Forall2_map_r {A B} (R : A -> B -> Prop) (f : A -> B) (l : list A) :
  (forall x, R x (f x)) -> Forall2 R l (List.map f l).
Proof. intros H; induction l; simpl; constructor; auto. Qed.

(** C10, amended to the design.  The three lists of the parser are the
    bullet items of their heading's text; a line of that text is kept
    exactly when its whitespace-stripped form begins with a dash, kept
    lines keep their order, and the item stored for a kept line is the
    line cleared of its leading and trailing dashes and whitespace.
    Nothing is said of an item that still has a dash at either end. *)
Theorem bullet_items_by_design :
  (forall response st,
      let r := parse_analysis_response response st in
      strengths r = items_of (search_section "STRENGTHS" response)
      /\ gaps r = items_of (search_gaps response)
      /\ recommendations r
         = items_of (search_section "RECOMMENDATIONS" response))
  /\ (forall group,
         Forall2 stored_by_design
                 (List.filter (fun line => begins_with_dash (strip line))
                              (section_lines group))
                 (bullet_items group))
  /\ bullet_items "- -5 points -" = ["5 points"]
  /\ bullet_items ("- " ++ String tab "a") = ["a"]
  /\ bullet_items "* starred" = []
  /\ bullet_items "1. numbered" = [].
Proof.
  split; [|split; [|repeat split]].
  - intros response st r; subst r.
    destruct (parse_analysis_response_fields response st) as [o ->].
    repeat split.
  - intros group; unfold bullet_items.
    rewrite (List.filter_ext (fun line => begins_with_dash (strip line))
                             is_bullet).
    + apply Forall2_map_r, bullet_text_by_design.
    + intros line; unfold begins_with_dash, is_bullet, is_dash.
      destruct (strip line) as [|c r]; [reflexivity|].
      simpl; rewrite andb_true_r; apply Ascii.eqb_sym.
Qed.

(** C10 as stated fails: the item stored for a kept line is not the line
    without its leading and trailing dashes and spaces; whitespace left
    at either end by that strip is removed too. *)
Lemma bullet_item_is_stripped_of_whitespace :
  let line := "- " ++ String tab "a" in
  is_bullet line = true
  /\ strip_chars "- " line = String tab "a"
  /\ bullet_text line = "a"
  /\ bullet_text line <> strip_chars "- " line
  /\ strengths (parse_analysis_response
                  ("**STRENGTHS**:" ++ nl ++ "- x" ++ nl ++ line)
                  "P_Internal")
     = ["x"; "a"].
Proof. repeat split; discriminate. Qed.

(** A kept line whose dash follows a tab is stored with its dash: the
    strip of dashes and spaces stops at the tab. *)
Example bullet_after_tab_keeps_dash :
  let line := String tab "- a" in
  is_bullet line = true
  /\ bullet_text line = "- a"
  /\ strengths (parse_analysis_response
                  ("**STRENGTHS**:" ++ nl ++ "- x" ++ nl ++ line)
                  "P_Internal")
     = ["x"; "- a"].
Proof. repeat split. Qed.

End ParserClaims.

(** ** The effect monad *)

Section MonadFacts.
Context {E A B : Type}.
Implicit Types (m : M E A) (k : A -> M E B) (t : list E).

Lemma bind_inv m k t b t' :
  (m ≫= k) t = (inr b, t') ->
  exists a t1, m t = (inr a, t1) /\ k a t1 = (inr b, t').
Proof.
  unfold mbind, M_bind; destruct (m t) as [[e|a] t1]; [discriminate|].
  eauto.
Qed.

(** A computation whose continuation always raises, raises. *)
Lemma bind_fails m k t :
  (forall a t1, is_ok (fst (k a t1)) = false) ->
  is_ok (fst ((m ≫= k) t)) = false.
Proof.
  intros Hk; unfold mbind, M_bind; destruct (m t) as [[e|a] t1];
    [reflexivity | apply Hk].
Qed.

End MonadFacts.

(** ** Evaluation orchestrator *)

Section EvaluatorClaims.
Import PyStr Parser Spec Evaluator EvalSpec.

(** The example of property P1. *)
Example overall_score_80_none_90 :
  opt_Qeq (overall_score [Some 80%Q; None; Some 90%Q]) (Some 85%Q).
Proof. reflexivity. Qed.

(** A score of zero is a score. *)
Example overall_score_keeps_zero :
  overall_score [Some 0%Q; None; None] <> None.
Proof. discriminate. Qed.

(** Both futures of [evaluate] hold a coroutine object or have expired:
    the join raises. *)
Lemma evaluate_join_on_submitted (w : World) (request : EvaluatorRequest)
  (session_id proposal_summary tor_summary guidelines : string)
  (t : list event) :
  evaluate_join w request session_id proposal_summary tor_summary
                guidelines (submit_run_analysis w "P_Internal")
                (submit_run_analysis w "P_External") t
  = (inl (if pool_expired w "P_Internal" then TimeoutError
          else if pool_expired w "P_External" then TimeoutError
          else no_get), t).
Proof.
  unfold evaluate_join, submit_run_analysis, mbind, M_bind, lift.
  destruct (pool_expired w "P_Internal"); [reflexivity|].
  destruct (pool_expired w "P_External"); reflexivity.
Qed.

(** X1.  [evaluate] returns on no request: it raises at the join at the
    latest. *)
Lemma evaluate_never_returns (w : World) (request : EvaluatorRequest)
  (t : list event) :
  is_ok (fst (evaluate w request t)) = false.
Proof.
  unfold evaluate.
  apply bind_fails; intros [proposal_text proposal_url] t1.
  apply bind_fails; intros [tor_text tor_url] t2.
  do 4 (apply bind_fails; intros ? ?).
  rewrite evaluate_join_on_submitted; reflexivity.
Qed.

(** *** No step of [evaluate] saves results *)

Lemma quiet_ret {A} (a : A) : quiet (mret a).
Proof. intros t; reflexivity. Qed.

Lemma quiet_raise {A} (e : exn) : quiet (@raise event A e).
Proof. intros t; reflexivity. Qed.

Lemma quiet_lift {A} (x : result A) : quiet (lift x).
Proof. intros t; reflexivity. Qed.

Lemma quiet_history : quiet (@history event).
Proof. intros t; reflexivity. Qed.

Lemma quiet_emit (ev : event) : is_save ev = false -> quiet (emit ev).
Proof.
  intros H t; unfold saves, emit; simpl.
  rewrite List.filter_app; simpl; rewrite H, app_nil_r; reflexivity.
Qed.

Lemma quiet_bind {A B} (m : M event A) (k : A -> M event B) :
  quiet m -> (forall a, quiet (k a)) -> quiet (m ≫= k).
Proof.
  intros Hm Hk t; unfold mbind, M_bind.
  specialize (Hm t); destruct (m t) as [[e|a] t1]; simpl in *;
    [exact Hm|].
  rewrite (Hk a t1); exact Hm.
Qed.

Lemma quiet_catch {A} (m : M event A) (h : exn -> M event A) :
  quiet m -> (forall e, quiet (h e)) -> quiet (catch m h).
Proof.
  intros Hm Hh t; unfold catch.
  specialize (Hm t); destruct (m t) as [[e|a] t1]; simpl in *;
    [|exact Hm].
  rewrite (Hh e t1); exact Hm.
Qed.

Create HintDb quiet.
#[local] Hint Resolve quiet_ret quiet_raise quiet_lift quiet_history
  quiet_emit quiet_bind quiet_catch : quiet.

Ltac quiet_steps :=
  repeat first
    [ apply quiet_bind; [|intros ?]
    | apply quiet_catch; [|intros ?]
    | apply quiet_emit; reflexivity
    | solve [auto with quiet] ].

Lemma call_llm_quiet (w : World) (p : prompt) : quiet (call_llm w p).
Proof. unfold call_llm; quiet_steps. Qed.

Lemma process_proposal_quiet (w : World) (text_input : option string)
  (file_data : option (list Byte.byte)) :
  quiet (process_proposal w text_input file_data).
Proof.
  unfold process_proposal, await_extracted_text.
  destruct text_input as [[|c r]|], file_data as [[|b bs]|]; quiet_steps.
Qed.

Lemma process_tor_quiet (w : World) (text_input : option string)
  (file_data : option (list Byte.byte)) :
  quiet (process_tor w text_input file_data).
Proof.
  unfold process_tor, await_extracted_text.
  destruct text_input as [[|c r]|], file_data as [[|b bs]|]; quiet_steps.
Qed.

Lemma create_session_quiet (w : World)
  (session_id user_id proposal_text tor_text : string) :
  quiet (create_session w session_id user_id proposal_text tor_text).
Proof.
  unfold create_session; destruct (create_session_error w); quiet_steps.
Qed.

Lemma resolve_guidelines_quiet (w : World) (request : EvaluatorRequest) :
  quiet (resolve_guidelines w request).
Proof.
  unfold resolve_guidelines.
  destruct (organization_id request) as [[|c r]|]; quiet_steps.
  match goal with |- quiet (match ?l with [] => _ | _ :: _ => _ end) =>
    destruct l
  end; quiet_steps.
Qed.

#[local] Hint Resolve call_llm_quiet process_proposal_quiet
  process_tor_quiet create_session_quiet resolve_guidelines_quiet : quiet.

(** X2.  [evaluate] never writes evaluation results to the session store. *)
Lemma evaluate_saves_no_results (w : World) (request : EvaluatorRequest) :
  quiet (evaluate w request).
Proof.
  unfold evaluate, summarize_proposal, summarize_tor.
  apply quiet_bind; [auto with quiet | intros [proposal_text proposal_url]].
  apply quiet_bind; [auto with quiet | intros [tor_text tor_url]].
  apply quiet_bind; [auto with quiet | intros _].
  apply quiet_bind; [auto with quiet | intros guidelines].
  apply quiet_bind; [quiet_steps | intros proposal_summary].
  apply quiet_bind; [quiet_steps | intros tor_summary].
  intros t; cbv zeta; rewrite evaluate_join_on_submitted; reflexivity.
Qed.

(** With futures that hold analyses, the join does return. *)
Example evaluate_join_returns_on_analyses :
  is_ok (fst (evaluate_join Samples.world_all_well
                Samples.request_with_texts "generated-id" "ps" "ts" ""
                (Finished (inr (Samples.analysis_of "P_Internal")))
                (Finished (inr (Samples.analysis_of "P_External")))
                []))
  = true.
Proof. reflexivity. Qed.

(** The fallback of [summarize_proposal]: when the provider raises, the
    summary is the first 2000 characters of the text. *)
Lemma summarize_proposal_fallback (w : World) (proposal_text : string)
  (t : list event) (e : exn) :
  generate_completion w t (ProposalSummaryPrompt proposal_text) = inl e ->
  summarize_proposal w proposal_text t
  = (inr (take 2000 proposal_text),
     (t ++ [Completion (ProposalSummaryPrompt proposal_text)])%list).
Proof.
  intros H; unfold summarize_proposal, catch, call_llm, mbind, M_bind,
    history, emit, lift; rewrite H; reflexivity.
Qed.

(** C3, at a request whose proposal summary fails.  The fallback summary
    is used and the ToR is summarised, and then [evaluate] raises
    [AttributeError]: it returns no result. *)
Theorem evaluate_crashes_after_summary_fallback :
  summarize_proposal Samples.world_summary_fails "Our proposal aims to..."
                     []
  = (inr "Our proposal aims to...",
     [Completion (ProposalSummaryPrompt "Our proposal aims to...")])
  /\ evaluate Samples.world_summary_fails Samples.request_with_texts []
     = (inl (AttributeError "'coroutine' object has no attribute 'get'"),
        [ CreateSession "generated-id" "user123" "Our proposal aims to..."
                        "The Terms of Reference require...";
          Completion (ProposalSummaryPrompt "Our proposal aims to...");
          Completion
            (TorSummaryPrompt "The Terms of Reference require...") ]).
Proof. split; vm_compute; reflexivity. Qed.

(** C1, at a request whose three analyses would each score 77.  An
    awaited [run_analysis] returns an analysis with score 77 for each of
    the three types, so the overall score is meant to be 77; [evaluate]
    awaits none of the first two, raises [AttributeError] at the join and
    computes, returns and stores no overall score.  Same defect as C3. *)
Theorem evaluate_computes_no_overall_score :
  Forall (fun analysis_type =>
            exists a t',
              run_analysis Samples.world_all_well analysis_type
                           "Our proposal aims to..."
                           "The Terms of Reference require..." "" "" "" []
              = (inr a, t')
              /\ score a = Some 77%Q)
         ["P_Internal"; "P_External"; "P_Delta"]
  /\ evaluate Samples.world_all_well Samples.request_with_texts []
     = (inl (AttributeError "'coroutine' object has no attribute 'get'"),
        [ CreateSession "generated-id" "user123" "Our proposal aims to..."
                        "The Terms of Reference require...";
          Completion (ProposalSummaryPrompt "Our proposal aims to...");
          Completion
            (TorSummaryPrompt "The Terms of Reference require...") ]).
Proof.
  split; [|vm_compute; reflexivity].
  repeat (apply List.Forall_cons;
          [eexists; eexists; split; vm_compute; reflexivity|]).
  apply List.Forall_nil.
Qed.

(** C2, at a request whose internal analysis call would raise.  An
    awaited [run_analysis] of type [P_Internal] raises the provider's
    [LLMServiceError]; [evaluate] never makes that call: the trace holds
    no completion for the internal prompt, and the error that ends the
    evaluation is the [AttributeError] of the join, not the provider's.
    Same defect as C3. *)
Theorem evaluate_never_calls_internal_analysis :
  fst (run_analysis Samples.world_internal_fails "P_Internal"
                    "Our proposal aims to..."
                    "The Terms of Reference require..." "" "" "" [])
  = inl (LLMServiceError "OpenAI completion failed: timeout")
  /\ evaluate Samples.world_internal_fails Samples.request_with_texts []
     = (inl (AttributeError "'coroutine' object has no attribute 'get'"),
        [ CreateSession "generated-id" "user123" "Our proposal aims to..."
                        "The Terms of Reference require...";
          Completion (ProposalSummaryPrompt "Our proposal aims to...");
          Completion
            (TorSummaryPrompt "The Terms of Reference require...") ]).
Proof. split; vm_compute; reflexivity. Qed.

(** The route rejects a form that lacks both
    sources of the proposal, or both sources of the ToR, with HTTP 400,
    and makes no external call before it does. *)
Theorem evaluate_proposal_rejects_missing_document
  (w : World) (form : EvaluateForm) (t : list event) :
  (opt_truthy (f_proposal_text_input form) = false
   /\ f_proposal_pdf_file form = None)
  \/ (opt_truthy (f_tor_text_input form) = false
      /\ f_tor_pdf_file form = None) ->
  exists detail,
    evaluate_proposal w form t = (inl (HTTPException 400 detail), t).
Proof.
  intros H; unfold evaluate_proposal, catch, evaluate_proposal_body.
  destruct (negb (opt_truthy (f_proposal_text_input form))
            && negb (is_some (f_proposal_pdf_file form))) eqn:Hp.
  - exists proposal_missing; reflexivity.
  - destruct H as [[Ht Hf] | [Ht Hf]].
    + rewrite Ht, Hf in Hp; discriminate.
    + rewrite Ht, Hf; exists tor_missing; reflexivity.
Qed.

Lemma evaluate_proposal_rejects_missing_document_witness :
  ((opt_truthy (f_proposal_text_input Samples.form_without_proposal) = false
    /\ f_proposal_pdf_file Samples.form_without_proposal = None)
   \/ (opt_truthy (f_tor_text_input Samples.form_without_proposal) = false
       /\ f_tor_pdf_file Samples.form_without_proposal = None))
  /\ exists detail,
       evaluate_proposal Samples.world_all_well
                         Samples.form_without_proposal []
       = (inl (HTTPException 400 detail), []).
Proof.
  split.
  - left; split; reflexivity.
  - apply (evaluate_proposal_rejects_missing_document
             Samples.world_all_well Samples.form_without_proposal []).
    left; split; reflexivity.
Defined.

(** C9, at a request that names no document.  [process_proposal] has no
    failing branch and returns the empty text; [evaluate] creates the
    session with empty texts and calls the provider for both summaries:
    no [ValidationError] is raised before the session is created. *)
Lemma evaluate_accepts_request_without_documents :
  process_proposal Samples.world_all_well None None []
  = (inr ("", None), [])
  /\ evaluate Samples.world_all_well Samples.request_without_documents []
     = (inl (AttributeError "'coroutine' object has no attribute 'get'"),
        [ CreateSession "generated-id" "user123" "" "";
          Completion (ProposalSummaryPrompt "");
          Completion (TorSummaryPrompt "") ]).
Proof. split; vm_compute; reflexivity. Qed.

End EvaluatorClaims.

(** ** Chat orchestrator *)

Section RefinerClaims.
Import PyStr Chatbot ChatSpec.

(** When the provider raises, the refiner asks for retrieval with the
    original question. *)
Lemma query_refiner_on_provider_failure (w : World)
  (conversation query : string) (t : list event) (e : exn) :
  generate_completion w t
    (QueryRefinementPrompt
       (if truthy conversation then conversation else no_conversation)
       query) = inl e ->
  fst (query_refiner w conversation query t) = inr (true, query).
Proof.
  intros H; unfold query_refiner, catch, call_llm, mbind, M_bind, history,
    emit, lift; rewrite H; reflexivity.
Qed.

(** A line that carries neither label leaves both values as they are. *)
Lemma refine_lines_unlabelled (lines : list string) (acc : bool * string) :
  forallb unlabelled lines = true -> refine_lines lines acc = inr acc.
Proof.
  induction lines as [|line rest IH]; simpl; [reflexivity|].
  intros [[H1 H2]%andb_true_iff Hrest]%andb_true_iff.
  unfold refine_step; destruct acc as [rr rq].
  apply negb_true_iff in H1, H2; rewrite H1, H2; exact (IH Hrest).
Qed.

(** An answer without the two labelled lines parses to "no retrieval". *)
Lemma parse_refinement_unlabelled (response query : string) :
  forallb unlabelled (split_char newline (strip response)) = true ->
  parse_refinement response query = inr (false, query).
Proof. apply refine_lines_unlabelled. Qed.

(** C4, at an answer without the two labelled lines: the refiner returns
    [requires_retrieval = False] with the original question, where the
    claim has [True]. *)
Theorem query_refiner_unlabelled_answer :
  parse_refinement "The user asks about impact evaluation."
                   "What is impact evaluation?"
  = inr (false, "What is impact evaluation?")
  /\ query_refiner (ChatSamples.world_of ChatSamples.completion_unlabelled)
                   "" "What is impact evaluation?" []
     = (inr (false, "What is impact evaluation?"),
        [Completion (QueryRefinementPrompt "No previous conversation"
                                           "What is impact evaluation?")
                    None]).
Proof. split; vm_compute; reflexivity. Qed.

End RefinerClaims.

Section DedupFacts.
Import PyStr Chatbot ChatSpec.

Lemma filter_comm {A} (f g : A -> bool) (l : list A) :
  List.filter f (List.filter g l) = List.filter g (List.filter f l).
Proof.
  induction l as [|x l IH]; simpl; [reflexivity|].
  destruct (f x) eqn:Hf, (g x) eqn:Hg; simpl; rewrite ?Hf, ?Hg, IH;
    reflexivity.
Qed.

Lemma filter_absorb {A} (f g : A -> bool) (l : list A) :
  (forall x, f x = true -> g x = true) ->
  List.filter f (List.filter g l) = List.filter f l.
Proof.
  intros Hfg; induction l as [|x l IH]; simpl; [reflexivity|].
  destruct (f x) eqn:Hf.
  - rewrite (Hfg x Hf); simpl; rewrite Hf, IH; reflexivity.
  - destruct (g x); simpl; rewrite ?Hf; exact IH.
Qed.

(** Dropping documents commutes with keeping first entries. *)
Lemma first_per_document_filter (P : string -> bool) (results : list Match) :
  List.filter (fun r => P (match_pdf_name r)) (first_per_document results)
  = first_per_document
      (List.filter (fun r => P (match_pdf_name r)) results).
Proof.
  induction results as [|r rs IH]; simpl; [reflexivity|].
  destruct (P (match_pdf_name r)) eqn:Hr; simpl.
  - rewrite filter_comm, IH; reflexivity.
  - rewrite <- IH; apply filter_absorb.
    intros x Hx; apply negb_true_iff, String.eqb_neq; congruence.
Qed.

Lemma filter_filter_and {A} (f g : A -> bool) (l : list A) :
  List.filter f (List.filter g l) = List.filter (fun x => f x && g x) l.
Proof.
  induction l as [|x l IH]; simpl; [reflexivity|].
  destruct (g x) eqn:Hg; simpl; rewrite ?andb_true_r, ?andb_false_r.
  - destruct (f x); rewrite IH; reflexivity.
  - exact IH.
Qed.

Lemma unseen_insert_at (seen : gset string) (document : string) (x : Match) :
  other_document document x && unseen seen x
  = unseen ({[document]} ∪ seen) x.
Proof.
  unfold other_document, unseen.
  destruct (String.eqb_spec (match_pdf_name x) document) as [E|N]; simpl.
  - symmetry; apply bool_decide_eq_false_2.
    rewrite elem_of_union, elem_of_singleton; tauto.
  - apply bool_decide_ext.
    rewrite elem_of_union, elem_of_singleton; tauto.
Qed.

Lemma unseen_insert (seen : gset string) (r : Match) (rs : list Match) :
  List.filter (other_document (match_pdf_name r))
              (List.filter (unseen seen) rs)
  = List.filter (unseen ({[match_pdf_name r]} ∪ seen)) rs.
Proof.
  rewrite filter_filter_and; apply List.filter_ext.
  intros x; apply unseen_insert_at.
Qed.

(** The loop of [extract_context], from any state. *)
Lemma dedup_loop (top_k : Z) (results : list Match)
  (seen : gset string) (acc : list ContextInfo) :
  snd (fold_left (dedup_step top_k) results (seen, acc))
  = (acc ++ firstn (Z.to_nat top_k - length acc)
               (List.map match_context
                  (first_per_document
                     (List.filter (unseen seen) results))))%list.
Proof.
  revert seen acc; induction results as [|r rs IH]; intros seen acc.
  - simpl; rewrite firstn_nil, app_nil_r; reflexivity.
  - cbn [fold_left List.filter]; unfold dedup_step at 2, unseen at 1.
    case_bool_decide as Hs; cbn [andb negb].
    + destruct (Z.of_nat (length acc) <? top_k)%Z eqn:Hk.
      * apply Z.ltb_lt in Hk.
        rewrite IH, length_app; cbn [length first_per_document List.map].
        change (fun r' => negb (String.eqb (match_pdf_name r')
                                           (match_pdf_name r)))
          with (other_document (match_pdf_name r)).
        rewrite (first_per_document_filter
                   (fun n => negb (String.eqb n (match_pdf_name r)))).
        change (fun r0 => negb (String.eqb (match_pdf_name r0)
                                           (match_pdf_name r)))
          with (other_document (match_pdf_name r)).
        rewrite unseen_insert.
        replace (Z.to_nat top_k - length acc)%nat
          with (S (Z.to_nat top_k - (length acc + 1)))%nat by lia.
        cbn [firstn]; rewrite <- app_assoc; reflexivity.
      * apply Z.ltb_ge in Hk.
        rewrite IH.
        replace (Z.to_nat top_k - length acc)%nat with 0%nat by lia.
        reflexivity.
    + apply IH.
Qed.

Lemma filter_unseen_empty (results : list Match) :
  List.filter (unseen ∅) results = results.
Proof.
  induction results as [|r rs IH]; simpl; [reflexivity|].
  unfold unseen at 1; rewrite bool_decide_eq_true_2 by set_solver.
  rewrite IH; reflexivity.
Qed.

(** The loop computes the first [top_k] documents' first entries. *)
Lemma unique_contexts_of_top_unique (results : list Match) (top_k : Z) :
  unique_contexts_of results top_k = top_unique results top_k.
Proof.
  unfold unique_contexts_of, top_unique.
  rewrite dedup_loop, filter_unseen_empty, Nat.sub_0_r; reflexivity.
Qed.

End DedupFacts.

Section ContextClaims.
Import PyStr PdfMappings Chatbot ChatSpec.

(** A kept entry is the first entry of its document. *)
Lemma first_per_document_first (results : list Match) (r : Match) :
  In r (first_per_document results) ->
  exists earlier later,
    results = (earlier ++ r :: later)%list
    /\ Forall (fun x => match_pdf_name x <> match_pdf_name r) earlier.
Proof.
  induction results as [|x rs IH]; simpl; [tauto|].
  intros [<-|[H Hne]%filter_In].
  - exists [], rs; split; [reflexivity | constructor].
  - destruct (IH H) as (earlier & later & -> & Hall).
    exists (x :: earlier), later; split; [reflexivity|].
    constructor; [|exact Hall].
    apply negb_true_iff, String.eqb_neq in Hne; congruence.
Qed.

(** No two kept entries come from the same document. *)
Lemma first_per_document_NoDup (results : list Match) :
  List.NoDup (List.map match_pdf_name (first_per_document results)).
Proof.
  induction results as [|r rs IH]; simpl; constructor.
  - rewrite in_map_iff; intros (x & Hx & [_ Hne]%filter_In).
    apply negb_true_iff, String.eqb_neq in Hne; contradiction.
  - clear -IH; induction (first_per_document rs) as [|x l IHl]; simpl;
      [constructor|].
    inversion IH as [|? ? Hx Hl]; subst.
    destruct (negb _); simpl; [constructor|]; auto.
    rewrite in_map_iff in *; intros (y & Hy & [Hin _]%filter_In); eauto.
Qed.

Lemma firstn_subset {A} (n : nat) (l : list A) (x : A) :
  In x (firstn n l) -> In x l.
Proof.
  revert n; induction l as [|y l IH]; intros [|n]; simpl; try tauto.
  intros [->|H]; eauto.
Qed.

Lemma NoDup_firstn {A} (n : nat) (l : list A) :
  List.NoDup l -> List.NoDup (firstn n l).
Proof.
  revert n; induction l as [|x l IH]; intros [|n] H; simpl;
    try constructor; inversion H; subst; auto.
  intros Hin; apply firstn_subset in Hin; contradiction.
Qed.

Lemma top_unique_NoDup (results : list Match) (top_k : Z) :
  List.NoDup (List.map pdf_name (top_unique results top_k)).
Proof.
  unfold top_unique; rewrite <- firstn_map, List.map_map.
  apply NoDup_firstn, first_per_document_NoDup.
Qed.

Lemma top_unique_length (results : list Match) (top_k : Z) :
  (Z.of_nat (length (top_unique results top_k)) <= Z.max 0 top_k)%Z.
Proof.
  unfold top_unique.
  pose proof (firstn_le_length (Z.to_nat top_k)
                (List.map match_context (first_per_document results))).
  lia.
Qed.

Lemma match_pdf_name_chunk (r : Match) :
  match_pdf_name r = source_document_name (chunk_of r).
Proof.
  destruct r as [[[[name|] [source|] text]|] own relevance]; reflexivity.
Qed.

Lemma match_context_chunk (r : Match) :
  match_context r = entry_of_chunk (chunk_of r).
Proof.
  destruct r as [[[[name|] [source|] [text|]]|] [own|] [relevance|]];
    reflexivity.
Qed.

Lemma filter_map_commute {A B} (f : A -> B) (g : B -> bool) (l : list A) :
  List.filter g (List.map f l)
  = List.map f (List.filter (fun x => g (f x)) l).
Proof.
  induction l as [|x l IH]; simpl; [reflexivity|].
  destruct (g (f x)); simpl; rewrite IH; reflexivity.
Qed.

(** The closed form of the loop, read on chunks, is the deduplication by
    source-document name. *)
Lemma first_per_document_chunks (results : list Match) :
  List.map chunk_of (first_per_document results)
  = first_chunk_per_document (List.map chunk_of results).
Proof.
  induction results as [|r rs IH]; simpl; [reflexivity|].
  rewrite <- IH, filter_map_commute; do 2 f_equal.
  apply List.filter_ext; intros r'.
  rewrite !match_pdf_name_chunk; reflexivity.
Qed.

Lemma top_unique_chunks (results : list Match) (top_k : Z) :
  top_unique results top_k
  = List.map entry_of_chunk
             (deduplicated (List.map chunk_of results) top_k).
Proof.
  unfold top_unique, deduplicated.
  rewrite <- first_per_document_chunks, <- firstn_map, List.map_map.
  f_equal; apply List.map_ext, match_context_chunk.
Qed.

(** Every chunk the deduplication keeps is the first of its document. *)
Lemma first_chunk_is_first (chunks : list ContextChunk) (c : ContextChunk) :
  In c (first_chunk_per_document chunks) -> first_of_its_document chunks c.
Proof.
  induction chunks as [|c0 rest IH]; simpl; [tauto|].
  intros [<- | [Hin Hne]%filter_In].
  - exists [], rest; split; [reflexivity | constructor].
  - destruct (IH Hin) as (before & after & -> & Hall).
    exists (c0 :: before), after; split; [reflexivity|].
    constructor; [|exact Hall].
    apply negb_true_iff, String.eqb_neq in Hne; congruence.
Qed.

(** C6.  [extract_context] always returns.  Read as chunks (source
    document name, text, relevance), its context entries are the ranked
    results deduplicated by source-document name and capped at [top_k]:
    every entry shows the first chunk of its document, no document
    occurs twice, and there are at most [top_k] entries (none when
    retrieval fails); documents A, A, B, C, A with [top_k = 2] give the
    first chunk of A and the chunk of B. *)
Theorem extract_context_deduplicates (w : World) (query : string)
  (top_k multiplier : Z) (t : list event) :
  (exists data,
      extract_context w query top_k multiplier t
      = (inr data, (t ++ [PineconeQuery query (top_k * multiplier)])%list)
      /\ match pinecone_query w query (top_k * multiplier) with
         | inr results =>
             let chunks := List.map chunk_of results in
             context_info data
             = List.map entry_of_chunk (deduplicated chunks top_k)
             /\ Forall (first_of_its_document chunks)
                       (deduplicated chunks top_k)
         | inl _ => context_info data = []
         end
      /\ List.NoDup (List.map pdf_name (context_info data))
      /\ (Z.of_nat (length (context_info data)) <= Z.max 0 top_k)%Z)
  /\ unique_contexts_of ChatSamples.ranked_results 2
     = [ {| pdf_name := "A"; pdf_context := "first of A"; score := 0.9 |};
         {| pdf_name := "B"; pdf_context := "first of B"; score := 0.7 |} ].
Proof.
  split; [|vm_compute; reflexivity].
  unfold extract_context, catch, mbind, M_bind, emit, lift; simpl.
  destruct (pinecone_query w query (top_k * multiplier)) as [e|results].
  - exists empty_context; simpl; repeat split; [constructor | lia].
  - eexists; split; [reflexivity|]; simpl.
    rewrite unique_contexts_of_top_unique.
    split; [split|]; [apply top_unique_chunks | |
                      auto using top_unique_NoDup, top_unique_length].
    apply List.Forall_forall; intros c Hin.
    apply first_chunk_is_first; unfold deduplicated in Hin.
    eapply firstn_subset, Hin.
Qed.

(** The example of property P5: documents A, A, B, C, A and
    [top_k = 2] give the first entry of A and the entry of B. *)
Example extract_context_A_A_B_C_A :
  fst (extract_context (ChatSamples.world_of ChatSamples.completion_unlabelled)
                       "budget rules" 2 2 [])
  = inr {| context_info :=
             [ {| pdf_name := "A"; pdf_context := "first of A";
                  score := 0.9 |};
               {| pdf_name := "B"; pdf_context := "first of B";
                  score := 0.7 |} ];
           sources_info :=
             [ {| sno := ""; title := ""; author_organization := "";
                  publication_year := ""; link := ""; pdf_title := "A" |};
               {| sno := ""; title := ""; author_organization := "";
                  publication_year := ""; link := ""; pdf_title := "B" |} ];
           all_context :=
             "first of A" ++ nl ++ nl ++ "---" ++ nl ++ nl ++ "first of B" |}.
Proof. vm_compute; reflexivity. Qed.

End ContextClaims.

Section ChatClaims.
Import PyStr PdfMappings Chatbot.

(** What [generate_response] returns: the apology and [False] when the
    provider raises; otherwise the answer, with the flag true exactly when
    the context is not empty and the answer holds no marker phrase. *)
Lemma generate_response_returns (w : World)
  (question conversation context model : string) (source : option string)
  (t : list event) :
  fst (generate_response w question conversation context model source t)
  = inr match generate_completion w t
                (ResponseGenerationPrompt
                   (if truthy context then context
                    else "No relevant context found")
                   (if truthy conversation then conversation
                    else no_conversation) question) with
        | inr response =>
            (match source with
             | Some "WA" => TextProcessing.break_into_paragraphs response 1000
             | _ => response
             end,
             truthy context && negb (disclaims response))
        | inl _ => (apology, false)
        end.
Proof.
  unfold generate_response, catch, call_llm, mbind, M_bind, history, emit,
    lift.
  destruct (generate_completion w t _) as [e|response]; [reflexivity|].
  simpl; destruct (disclaims response), (truthy context); reflexivity.
Qed.

Lemma save_message_inv (w : World) (m : Message) (t t' : list event) :
  save_message w m t = (inr tt, t') -> t' = (t ++ [SaveMessage m])%list.
Proof.
  unfold save_message, mbind, M_bind, history, raise, emit.
  destruct (save_message_error w t); [discriminate | congruence].
Qed.

(** C5.  When a chat turn returns with [within_knowledge_base] false, the
    context and source lists of the response are empty, and so are those
    of the assistant message, which is the last write to the store. *)
Theorem chat_suppresses_context (w : World) (request : ChatRequest)
  (t t' : list event) (r : ChatResponse) :
  chat w request t = (inr r, t') ->
  within_knowledge_base r = false ->
  contextInfo r = [] /\ sources r = []
  /\ exists t0 m,
       t' = (t0 ++ [SaveMessage m])%list
       /\ msg_role m = "assistant"
       /\ msg_content m = response r
       /\ msg_response_id m = Some (response_id r)
       /\ msg_context_data m = Some ([], [])
       /\ msg_sources m = Some [].
Proof.
  intros H Hflag; unfold chat in H.
  apply bind_inv in H as (u1 & t1 & _ & H).
  apply bind_inv in H as (conversation & t2 & _ & H).
  apply bind_inv in H as (u3 & t3 & _ & H).
  apply bind_inv in H as ([requires_retrieval refined_query] & t4 & _ & H).
  apply bind_inv in H as (context_data & t5 & _ & H).
  apply bind_inv in H as ([response_text flag] & t6 & _ & H).
  apply bind_inv in H as ([] & t7 & Hsave & H).
  apply save_message_inv in Hsave.
  injection H as <- <-; simpl in Hflag; subst flag.
  repeat split; eauto 10.
Qed.

(** A turn in which retrieval finds the ranked results and the answer
    disclaims knowledge. *)
Lemma chat_suppresses_context_witness :
  let w := ChatSamples.world_of ChatSamples.completion_disclaiming in
  let request := ChatSamples.request_of "What are the budget rules?" in
  let r := {| r_user_id := "user123";
              r_session_id := "session-abc";
              response := "I Don't Have That Information in my knowledge base.";
              response_id := "generated-response";
              contextInfo := [];
              sources := [];
              within_knowledge_base := false |} in
  (chat w request [] = (inr r, snd (chat w request []))
   /\ within_knowledge_base r = false)
  /\ (contextInfo r = [] /\ sources r = []
      /\ exists t0 m,
           snd (chat w request []) = (t0 ++ [SaveMessage m])%list
           /\ msg_role m = "assistant"
           /\ msg_content m = response r
           /\ msg_response_id m = Some (response_id r)
           /\ msg_context_data m = Some ([], [])
           /\ msg_sources m = Some []).
Proof.
  intros w request r; split.
  - split; vm_compute; reflexivity.
  - apply (chat_suppresses_context w request [] (snd (chat w request [])) r);
      vm_compute; reflexivity.
Defined.

End ChatClaims.

(** * Further properties of the code *)

(** ** Strings *)

Section StringFacts.
Import PyStr.

Lemma length_append (a b : string) :
  String.length (a ++ b) = (String.length a + String.length b)%nat.
Proof.
  induction a as [|c a IH]; [reflexivity|].
  rewrite append_cons; simpl; rewrite IH; reflexivity.
Qed.

Lemma take_length (n : nat) (s : string) :
  (String.length (take n s) <= n)%nat.
Proof.
  unfold take; revert s; induction n as [|n IH]; intros [|c s]; simpl;
    try lia.
  specialize (IH s); lia.
Qed.

Lemma take_length_exact (n : nat) (s : string) :
  (n <= String.length s)%nat -> String.length (take n s) = n.
Proof.
  unfold take; revert s; induction n as [|n IH]; intros [|c s]; simpl;
    try lia.
  intros H; rewrite IH; lia.
Qed.

Lemma take_prefix (n : nat) (s : string) :
  exists rest, s = take n s ++ rest.
Proof.
  unfold take; revert s; induction n as [|n IH]; intros [|c s]; simpl.
  - exists ""; reflexivity.
  - exists (String c s); reflexivity.
  - exists ""; reflexivity.
  - destruct (IH s) as [rest H]; exists rest.
    rewrite append_cons, <- H; reflexivity.
Qed.

End StringFacts.

(** ** Computations only add to the trace *)

Module TraceFacts.
Import ExtraSpec.

Lemma grows_ret {E A} (a : A) : grows (mret a : M E A).
Proof. intros t; exists []; simpl; rewrite app_nil_r; reflexivity. Qed.

Lemma grows_raise {E A} (e : exn) : grows (@raise E A e).
Proof. intros t; exists []; simpl; rewrite app_nil_r; reflexivity. Qed.

Lemma grows_lift {E A} (x : result A) : grows (@lift E A x).
Proof. intros t; exists []; simpl; rewrite app_nil_r; reflexivity. Qed.

Lemma grows_history {E} : grows (@history E).
Proof. intros t; exists []; simpl; rewrite app_nil_r; reflexivity. Qed.

Lemma grows_emit {E} (ev : E) : grows (emit ev).
Proof. intros t; exists [ev]; reflexivity. Qed.

Lemma grows_bind {E A B} (m : M E A) (k : A -> M E B) :
  grows m -> (forall a, grows (k a)) -> grows (m ≫= k).
Proof.
  intros Hm Hk t; unfold mbind, M_bind.
  destruct (Hm t) as [evs Hevs]; destruct (m t) as [[e|a] t1];
    simpl in *; subst t1; [eauto|].
  destruct (Hk a (t ++ evs)%list) as [evs' ->].
  exists (evs ++ evs')%list; rewrite app_assoc; reflexivity.
Qed.

Lemma grows_catch {E A} (m : M E A) (h : exn -> M E A) :
  grows m -> (forall e, grows (h e)) -> grows (catch m h).
Proof.
  intros Hm Hh t; unfold catch.
  destruct (Hm t) as [evs Hevs]; destruct (m t) as [[e|a] t1];
    simpl in *; subst t1; [|eauto].
  destruct (Hh e (t ++ evs)%list) as [evs' ->].
  exists (evs ++ evs')%list; rewrite app_assoc; reflexivity.
Qed.

Create HintDb grows.
#[export] Hint Resolve grows_ret grows_raise grows_lift grows_history
  grows_emit grows_bind grows_catch : grows.

Ltac grows_steps :=
  repeat first
    [ apply grows_bind; [|intros ?]
    | apply grows_catch; [|intros ?]
    | solve [auto with grows] ].

End TraceFacts.

Import TraceFacts.

(** ** Evaluation orchestrator, further *)

Section EvaluatorExtras.
Import PyStr Parser Spec Evaluator EvalSpec ExtraSpec.

(** X3.  When the three section scores pass the range check of
    [EvaluationSection] (absent, or between 0 and 100), so does the
    overall score: the last check of [evaluate] cannot be the one that
    fails. *)
Theorem overall_score_in_range (internal external delta : option Q) :
  score_in_range internal = true ->
  score_in_range external = true ->
  score_in_range delta = true ->
  score_in_range (overall_score [internal; external; delta]) = true.
Proof.
  unfold score_in_range.
  destruct internal as [a|], external as [b|], delta as [c|];
    cbn [overall_score valid_scores py_sum fold_left length];
    rewrite ?andb_true_iff, ?Qle_bool_iff; intros; try reflexivity;
    repeat match goal with H : _ /\ _ |- _ => destruct H end.
  - assert (E : ((0 + a + b + c) / inject_Z (Z.of_nat 3)
                 == (a + b + c) * (1 # 3))%Q) by (simpl; field).
    rewrite E; split; lra.
  - assert (E : ((0 + a + b) / inject_Z (Z.of_nat 2)
                 == (a + b) * (1 # 2))%Q) by (simpl; field).
    rewrite E; split; lra.
  - assert (E : ((0 + a + c) / inject_Z (Z.of_nat 2)
                 == (a + c) * (1 # 2))%Q) by (simpl; field).
    rewrite E; split; lra.
  - assert (E : ((0 + a) / inject_Z (Z.of_nat 1) == a)%Q) by (simpl; field).
    rewrite E; split; lra.
  - assert (E : ((0 + b + c) / inject_Z (Z.of_nat 2)
                 == (b + c) * (1 # 2))%Q) by (simpl; field).
    rewrite E; split; lra.
  - assert (E : ((0 + b) / inject_Z (Z.of_nat 1) == b)%Q) by (simpl; field).
    rewrite E; split; lra.
  - assert (E : ((0 + c) / inject_Z (Z.of_nat 1) == c)%Q) by (simpl; field).
    rewrite E; split; lra.
Qed.

Lemma overall_score_in_range_witness :
  (score_in_range (Some 80%Q) = true
   /\ score_in_range None = true
   /\ score_in_range (Some 100%Q) = true)
  /\ score_in_range (overall_score [Some 80%Q; None; Some 100%Q]) = true.
Proof.
  split; [repeat split|].
  apply (overall_score_in_range (Some 80%Q) None (Some 100%Q));
    reflexivity.
Defined.

(** X4.  Summarising never raises.  Either summary is the provider's answer,
    or, when the provider raises, the first 2000 characters of the text:
    a prefix of the text of length at most 2000. *)
Theorem summaries_never_raise (w : World) (text : string) (t : list event) :
  (exists s,
      summarize_proposal w text t
      = (inr s, (t ++ [Completion (ProposalSummaryPrompt text)])%list)
      /\ (generate_completion w t (ProposalSummaryPrompt text) = inr s
          \/ (is_ok (generate_completion w t (ProposalSummaryPrompt text))
              = false
              /\ s = take 2000 text
              /\ (String.length s <= 2000)%nat
              /\ exists rest, text = s ++ rest)))
  /\ (exists s,
         summarize_tor w text t
         = (inr s, (t ++ [Completion (TorSummaryPrompt text)])%list)
         /\ (generate_completion w t (TorSummaryPrompt text) = inr s
             \/ (is_ok (generate_completion w t (TorSummaryPrompt text))
                 = false
                 /\ s = take 2000 text
                 /\ (String.length s <= 2000)%nat
                 /\ exists rest, text = s ++ rest))).
Proof.
  split.
  - unfold summarize_proposal, catch, call_llm, mbind, M_bind, history, emit,
      lift.
    destruct (generate_completion w t (ProposalSummaryPrompt text))
      as [e|s].
    + exists (take 2000 text); split; [reflexivity|]; right.
      repeat split; [apply take_length | apply take_prefix].
    + exists s; split; [reflexivity | left; reflexivity].
  - unfold summarize_tor, catch, call_llm, mbind, M_bind, history, emit, lift.
    destruct (generate_completion w t (TorSummaryPrompt text)) as [e|s].
    + exists (take 2000 text); split; [reflexivity|]; right.
      repeat split; [apply take_length | apply take_prefix].
    + exists s; split; [reflexivity | left; reflexivity].
Qed.

(** X5.  Ingestion returns only text the caller supplied: whenever
    [process_proposal] or [process_tor] returns, the text is the supplied
    one (or empty when nothing was supplied), no URL is set, and no
    external call was made. *)
Theorem ingest_returns_supplied_text (w : World)
  (text_input : option string) (file_data : option (list Byte.byte))
  (t t' : list event) (x : string * option string) :
  process_proposal w text_input file_data t = (inr x, t')
  \/ process_tor w text_input file_data t = (inr x, t') ->
  x = (or_else text_input "", None) /\ t' = t
  /\ (opt_truthy text_input = true \/ bytes_truthy file_data = false).
Proof.
  assert (Hsame : process_tor w text_input file_data
                  = process_proposal w text_input file_data) by reflexivity.
  rewrite Hsame; intros [H|H];
    unfold process_proposal, await_extracted_text, mbind, M_bind, emit, lift,
      raise in H;
    destruct text_input as [[|c r]|], file_data as [[|b bs]|]; simpl in *;
    try destruct (extract_text_from_pdf w (b :: bs));
    try discriminate; injection H as <- <-; auto.
Qed.

Lemma ingest_returns_supplied_text_witness :
  (process_proposal Samples.world_all_well (Some "Our proposal") None []
   = (inr ("Our proposal", None), [])
   \/ process_tor Samples.world_all_well (Some "Our proposal") None []
      = (inr ("Our proposal", None), []))
  /\ (("Our proposal", @None string) = (or_else (Some "Our proposal") "", None)
      /\ @nil event = []
      /\ (opt_truthy (Some "Our proposal") = true
          \/ bytes_truthy None = false)).
Proof.
  split; [left; reflexivity|].
  apply (ingest_returns_supplied_text Samples.world_all_well
           (Some "Our proposal") None [] [] ("Our proposal", None)).
  left; reflexivity.
Defined.

(** X6.  A document supplied only as a file is never ingested: extraction is
    called, and then [process_proposal] raises, with the extractor's
    error or, when the extractor returned, with the [TypeError] of
    awaiting its string. *)
Theorem ingest_file_only_raises (w : World) (text_input : option string)
  (b : Byte.byte) (bs : list Byte.byte) (t : list event) :
  opt_truthy text_input = false ->
  exists e,
    process_proposal w text_input (Some (b :: bs)) t
    = (inl e, (t ++ [ExtractPdf (b :: bs)])%list)
    /\ process_tor w text_input (Some (b :: bs)) t
       = (inl e, (t ++ [ExtractPdf (b :: bs)])%list)
    /\ (extract_text_from_pdf w (b :: bs) = inl e
        \/ (is_ok (extract_text_from_pdf w (b :: bs)) = true
            /\ e = TypeError
                     "object str can't be used in 'await' expression")).
Proof.
  intros Ht.
  unfold process_tor, process_proposal, await_extracted_text, mbind, M_bind,
    emit, lift, raise.
  destruct text_input as [[|c r]|]; try discriminate; simpl;
    destruct (extract_text_from_pdf w (b :: bs)) as [e|text];
    eauto 10.
Qed.

Lemma ingest_file_only_raises_witness :
  opt_truthy None = false
  /\ exists e,
       process_proposal Samples.world_all_well None
                        (Some [Byte.x25; Byte.x50]) []
       = (inl e, [ExtractPdf [Byte.x25; Byte.x50]])
       /\ process_tor Samples.world_all_well None
                      (Some [Byte.x25; Byte.x50]) []
          = (inl e, [ExtractPdf [Byte.x25; Byte.x50]])
       /\ (extract_text_from_pdf Samples.world_all_well
                                 [Byte.x25; Byte.x50] = inl e
           \/ (is_ok (extract_text_from_pdf Samples.world_all_well
                                            [Byte.x25; Byte.x50]) = true
               /\ e = TypeError
                        "object str can't be used in 'await' expression")).
Proof.
  split; [reflexivity|].
  apply (ingest_file_only_raises Samples.world_all_well None Byte.x25
           [Byte.x50] []).
  reflexivity.
Defined.

(** X7.  An analysis type other than the three known ones is refused with
    [ValueError] before the provider is called. *)
Theorem run_analysis_unknown_type (w : World)
  (analysis_type proposal_summary tor_summary guidelines
   internal_insights external_insights : string) (t : list event) :
  known_analysis_type analysis_type = false ->
  run_analysis w analysis_type proposal_summary tor_summary guidelines
               internal_insights external_insights t
  = (inl (ValueError ("Unknown analysis type: " ++ analysis_type)), t).
Proof.
  unfold known_analysis_type, run_analysis, mbind, M_bind.
  intros [[H1 H2]%orb_false_iff H3]%orb_false_iff.
  rewrite H1, H2, H3; reflexivity.
Qed.

Lemma run_analysis_unknown_type_witness :
  known_analysis_type "INVALID" = false
  /\ run_analysis Samples.world_all_well "INVALID" "" "" "" "" "" []
     = (inl (ValueError ("Unknown analysis type: " ++ "INVALID")), []).
Proof.
  split; [reflexivity|].
  apply (run_analysis_unknown_type Samples.world_all_well "INVALID"
           "" "" "" "" "" []).
  reflexivity.
Defined.

(** X8.  Whenever an awaited [run_analysis] returns, its type is one of the
    three, the provider was called exactly once, and the result is the
    parse of the provider's answer, tagged with the analysis type. *)
Theorem run_analysis_returns (w : World)
  (analysis_type proposal_summary tor_summary guidelines
   internal_insights external_insights : string) (t t' : list event)
  (a : Analysis) :
  run_analysis w analysis_type proposal_summary tor_summary guidelines
               internal_insights external_insights t
  = (inr a, t') ->
  known_analysis_type analysis_type = true
  /\ section_type a = analysis_type
  /\ exists p response,
       t' = (t ++ [Completion p])%list
       /\ generate_completion w t p = inr response
       /\ a = parse_analysis_response response analysis_type.
Proof.
  intros H.
  destruct (known_analysis_type analysis_type) eqn:Hk.
  - split; [reflexivity|].
    apply bind_inv in H as (p & t1 & Hp & H).
    assert (t1 = t) as ->.
    { destruct (String.eqb analysis_type "P_Internal");
        [injection Hp as _ <-; reflexivity|].
      destruct (String.eqb analysis_type "P_External");
        [injection Hp as _ <-; reflexivity|].
      destruct (String.eqb analysis_type "P_Delta");
        [injection Hp as _ <-; reflexivity | discriminate]. }
    apply bind_inv in H as (response & t2 & Hr & H).
    injection H as <- <-.
    unfold call_llm, mbind, M_bind, history, emit, lift in Hr.
    injection Hr as Hr <-.
    split; [|eauto].
    destruct (parse_analysis_response_fields response analysis_type)
      as [o ->]; reflexivity.
  - unfold known_analysis_type in Hk.
    apply orb_false_iff in Hk as [[H1 H2]%orb_false_iff H3].
    unfold run_analysis, mbind, M_bind in H.
    rewrite H1, H2, H3 in H; discriminate.
Qed.

Lemma run_analysis_returns_witness :
  let a := parse_analysis_response canonical_response "P_Delta" in
  let t' := [Completion (PDeltaPrompt "ps" "ts" "ii" "ei")] in
  run_analysis Samples.world_all_well "P_Delta" "ps" "ts" "" "ii" "ei" []
  = (inr a, t')
  /\ (known_analysis_type "P_Delta" = true
      /\ section_type a = "P_Delta"
      /\ exists p response,
           t' = ([] ++ [Completion p])%list
           /\ generate_completion Samples.world_all_well [] p = inr response
           /\ a = parse_analysis_response response "P_Delta").
Proof.
  intros a t'; split; [vm_compute; reflexivity|].
  apply (run_analysis_returns Samples.world_all_well "P_Delta" "ps" "ts" ""
           "ii" "ei" [] t' a).
  vm_compute; reflexivity.
Defined.

Lemma resolve_guidelines_grows (w : World) (request : EvaluatorRequest) :
  grows (resolve_guidelines w request).
Proof.
  unfold resolve_guidelines.
  destruct (organization_id request) as [[|c r]|]; grows_steps.
  match goal with |- grows (match ?l with [] => _ | _ :: _ => _ end) =>
    destruct l
  end; grows_steps.
Qed.

Lemma call_llm_grows (w : World) (p : prompt) : grows (call_llm w p).
Proof. unfold call_llm; grows_steps. Qed.

#[local] Hint Resolve resolve_guidelines_grows call_llm_grows : grows.

(** X9.  When both documents are supplied as text and the session store
    accepts the row, the first external effect of [evaluate] is the
    creation of the session, with both texts cut to 10000 characters;
    whatever fails later, the row stays in the trace. *)
Theorem evaluate_creates_session_first (w : World)
  (request : EvaluatorRequest) (t : list event) :
  opt_truthy (proposal_text_input request) = true ->
  opt_truthy (tor_text_input request) = true ->
  create_session_error w = None ->
  exists proposal_text tor_text rest,
    snd (evaluate w request t)
    = (t ++ CreateSession (or_else (session_id request) (uuid4 w))
                          (user_id request) proposal_text tor_text
            :: rest)%list
    /\ proposal_text
       = take 10000 (or_else (proposal_text_input request) "")
    /\ tor_text = take 10000 (or_else (tor_text_input request) "")
    /\ (String.length proposal_text <= 10000)%nat
    /\ (String.length tor_text <= 10000)%nat.
Proof.
  intros Hp Ht Hc.
  destruct (proposal_text_input request) as [[|c1 r1]|] eqn:Ep;
    try discriminate.
  destruct (tor_text_input request) as [[|c2 r2]|] eqn:Et;
    try discriminate.
  assert (Hrest : grows
            (guidelines ← resolve_guidelines w request;
             proposal_summary ← summarize_proposal w (String c1 r1);
             tor_summary ← summarize_tor w (String c2 r2);
             evaluate_join w request
               (or_else (session_id request) (uuid4 w))
               proposal_summary tor_summary guidelines
               (submit_run_analysis w "P_Internal")
               (submit_run_analysis w "P_External"))).
  { apply grows_bind; [auto with grows | intros guidelines].
    apply grows_bind; [unfold summarize_proposal; grows_steps
                      | intros proposal_summary].
    apply grows_bind; [unfold summarize_tor; grows_steps
                      | intros tor_summary].
    intros t0; exists []; rewrite evaluate_join_on_submitted, app_nil_r.
    reflexivity. }
  destruct (Hrest (t ++ [CreateSession
                           (or_else (session_id request) (uuid4 w))
                           (user_id request)
                           (take 10000 (String c1 r1))
                           (take 10000 (String c2 r2))])%list)
    as [rest Hr].
  exists (take 10000 (String c1 r1)), (take 10000 (String c2 r2)), rest.
  split; [|auto using take_length].
  unfold evaluate; rewrite Ep, Et.
  unfold process_proposal, process_tor, create_session; rewrite Hc.
  unfold mbind at 1 2 3, M_bind at 1 2 3; cbn [mret M_ret emit].
  rewrite Hr, <- app_assoc; reflexivity.
Qed.

Lemma evaluate_creates_session_first_witness :
  let w := Samples.world_summary_fails in
  let request := Samples.request_with_texts in
  (opt_truthy (proposal_text_input request) = true
   /\ opt_truthy (tor_text_input request) = true
   /\ create_session_error w = None)
  /\ exists proposal_text tor_text rest,
       snd (evaluate w request [])
       = ([] ++ CreateSession (or_else (session_id request) (uuid4 w))
                              (user_id request) proposal_text tor_text
                :: rest)%list
       /\ proposal_text
          = take 10000 (or_else (proposal_text_input request) "")
       /\ tor_text = take 10000 (or_else (tor_text_input request) "")
       /\ (String.length proposal_text <= 10000)%nat
       /\ (String.length tor_text <= 10000)%nat.
Proof.
  intros w request; split; [repeat split|].
  apply (evaluate_creates_session_first w request []); reflexivity.
Defined.

(** X10.  Whatever the form and the collaborators, the route [POST /evaluate]
    ends in an [HTTPException]: it returns no evaluation, and no other
    exception leaves it. *)
Theorem evaluate_proposal_always_http_error (w : World)
  (form : EvaluateForm) (t : list event) :
  exists status_code detail,
    fst (evaluate_proposal w form t) = inl (HTTPException status_code detail).
Proof.
  unfold evaluate_proposal, catch.
  destruct (evaluate_proposal_body w form t) as [[e|r] t1] eqn:Hb.
  - destruct e; simpl; eauto.
  - exfalso; unfold evaluate_proposal_body in Hb.
    destruct (negb (opt_truthy (f_proposal_text_input form))
              && negb (is_some (f_proposal_pdf_file form)));
      [discriminate|].
    destruct (negb (opt_truthy (f_tor_text_input form))
              && negb (is_some (f_tor_pdf_file form))); [discriminate|].
    destruct (request_validation_error w _); [discriminate|].
    match type of Hb with
    | evaluate w ?request t = _ =>
        assert (Hn : is_ok (fst (evaluate w request t)) = false)
    end.
    { unfold evaluate.
      apply bind_fails; intros [proposal_text proposal_url] t2.
      apply bind_fails; intros [tor_text tor_url] t3.
      do 4 (apply bind_fails; intros ? ?).
      rewrite evaluate_join_on_submitted; reflexivity. }
    rewrite Hb in Hn; discriminate.
Qed.

End EvaluatorExtras.

(** ** Follow-up questions *)

Section FollowupExtras.
Import PyStr Followup ExtraSpec.

(** X11.  A follow-up on a session the store does not know fails with
    [ValueError] right after the lookup: the provider is not called and
    nothing is saved.  The route reports it as HTTP 500. *)
Theorem followup_unknown_session (w : World)
  (request : EvaluatorFollowupRequest) (t : list event) :
  get_session w (session_id request) = inr None ->
  answer_followup w request t
  = (inl (ValueError ("Session not found: " ++ session_id request)),
     (t ++ [GetSession (session_id request)])%list)
  /\ followup_question w request t
     = (inl (HTTPException 500
               ("Failed to answer followup: "
                ++ ("Session not found: " ++ session_id request))),
        (t ++ [GetSession (session_id request)])%list).
Proof.
  intros H.
  unfold followup_question, catch, answer_followup, mbind, M_bind, emit, lift.
  rewrite H; split; reflexivity.
Qed.

Lemma followup_unknown_session_witness :
  let w := Samples.followup_world None in
  let request := Samples.followup_request in
  get_session w (session_id request) = inr None
  /\ (answer_followup w request []
      = (inl (ValueError ("Session not found: " ++ session_id request)),
         ([] ++ [GetSession (session_id request)])%list)
      /\ followup_question w request []
         = (inl (HTTPException 500
                   ("Failed to answer followup: "
                    ++ ("Session not found: " ++ session_id request))),
            ([] ++ [GetSession (session_id request)])%list)).
Proof.
  intros w request; split; [reflexivity|].
  apply (followup_unknown_session w request []); reflexivity.
Defined.

(** X12.  A follow-up is written to the log exactly when [answer_followup]
    returns, once, after the lookup and the single provider call, and
    with the provider's answer, which is also the answer returned.  When
    it raises, it has written nothing. *)
Theorem followup_saved_iff_returned (w : World)
  (request : EvaluatorFollowupRequest) (t : list event) :
  match answer_followup w request t with
  | (inr r, t') =>
      exists session p,
        get_session w (session_id request) = inr (Some session)
        /\ p = format_evaluator_followup_prompt
                 (evaluation_summary session) (query request)
                 (or_else (section request) "")
        /\ generate_completion
             w (t ++ [GetSession (session_id request)])%list p
           = inr (answer r)
        /\ t' = (t ++ [ GetSession (session_id request); Completion p;
                        SaveFollowup (session_id request) (user_id request)
                                     (query request) (answer r)
                                     (section request) ])%list
        /\ r_session_id r = session_id request
        /\ r_query r = query request
        /\ r_section r = section request
  | (inl e, t') =>
      exists evs,
        t' = (t ++ evs)%list
        /\ List.filter is_save_followup evs = []
  end.
Proof.
  unfold answer_followup, save_followup, mbind, M_bind, emit, lift, history,
    raise.
  destruct (get_session w (session_id request)) as [e|[session|]];
    [exists [GetSession (session_id request)]; split; reflexivity
    | | exists [GetSession (session_id request)]; split; reflexivity].
  destruct (generate_completion w _ _) as [e|a] eqn:Hg.
  - eexists [_; _]; split; [rewrite <- app_assoc|]; reflexivity.
  - destruct (save_followup_error w) as [e|].
    + eexists [_; _]; split; [rewrite <- app_assoc|]; reflexivity.
    + exists session; eexists; split; [reflexivity|].
      split; [reflexivity|]; split; [exact Hg|].
      rewrite <- !app_assoc; repeat split.
Qed.

End FollowupExtras.

(** ** Response parser, further *)

Section PartFacts.
Import PyStr Regex Spec ExtraSpec.

Lemma append_nil_r (a : string) : a ++ "" = a.
Proof.
  induction a as [|x a IH]; [reflexivity|].
  rewrite append_cons, IH; reflexivity.
Qed.

Lemma part_of_refl (s : string) : part_of s s.
Proof. exists "", ""; rewrite append_nil, append_nil_r; reflexivity. Qed.

Lemma part_of_trans (a b c : string) :
  part_of a b -> part_of b c -> part_of a c.
Proof.
  intros (p1 & q1 & ->) (p2 & q2 & ->).
  exists (p2 ++ p1), (q1 ++ q2); rewrite !append_assoc; reflexivity.
Qed.

Lemma part_of_suffix (before a : string) : part_of a (before ++ a).
Proof. exists before, ""; rewrite append_nil_r; reflexivity. Qed.

Lemma part_of_prefix (a after : string) : part_of a (a ++ after).
Proof. exists "", after; reflexivity. Qed.

Lemma part_of_cons (c : ascii) (a s : string) :
  part_of a s -> part_of a (String c s).
Proof.
  intros (p & q & ->); exists (String c p), q; reflexivity.
Qed.

Lemma strip_by_part (p : ascii -> bool) (s : string) :
  part_of (strip_by p s) s.
Proof.
  destruct (strip_by_spec p s) as (pre & post & H & _); exists pre, post.
  exact H.
Qed.

Lemma split_char_part (sep : ascii) (s x : string) :
  In x (split_char sep s) -> part_of x s.
Proof.
  revert x; induction s as [|c s IH]; simpl; intros x.
  - intros [<-|[]]; apply part_of_refl.
  - destruct (Ascii.eqb c sep).
    + intros [<-|H]; [exists "", (String c s); reflexivity|].
      apply part_of_cons, IH, H.
    + destruct (split_char sep s) as [|w ws] eqn:Hs.
      * intros [<-|[]]; exists "", s; reflexivity.
      * intros [<-|H].
        -- assert (Hhead : exists q', s = w ++ q').
           { clear -Hs. revert w ws Hs.
             induction s as [|d s IHs]; simpl; intros w ws.
             - intros [= <- <-]; exists ""; reflexivity.
             - destruct (Ascii.eqb d sep).
               + intros [= <- <-]; exists (String d s); reflexivity.
               + destruct (split_char sep s) as [|w' ws'].
                 * intros [= <- <-]; exists s; reflexivity.
                 * intros [= <- <-].
                   destruct (IHs w' ws' eq_refl) as [q' ->].
                   exists q'; reflexivity. }
           destruct Hhead as [q' ->].
           exists "", q'; reflexivity.
        -- apply part_of_cons, IH; right; exact H.
Qed.

Lemma match_literal_ci_suffix (lit s rest : string) :
  match_literal_ci lit s = Some rest -> exists head, s = head ++ rest.
Proof.
  revert s; induction lit as [|p lit IH]; intros s; simpl.
  - intros [= <-]; exists ""; reflexivity.
  - destruct s as [|c s]; [discriminate|].
    destruct (ci_eqb p c); [|discriminate].
    intros [head ->]%IH; exists (String c head); reflexivity.
Qed.

Lemma search_suffix {A} (here : string -> option A) (s : string) (r : A) :
  search here s = Some r ->
  exists before s', s = before ++ s' /\ here s' = Some r.
Proof.
  induction s as [|c s IH]; simpl.
  - destruct (here "") eqn:H; [|discriminate].
    intros [= <-]; exists "", ""; auto.
  - destruct (here (String c s)) eqn:H.
    + intros [= <-]; exists "", (String c s); auto.
    + intros (before & s' & -> & Hs)%IH.
      exists (String c before), s'; auto.
Qed.

Lemma lazy_until_end_prefix (s : string) :
  exists rest, s = lazy_until_end s ++ rest.
Proof.
  induction s as [|c s [rest IH]]; [exists ""; reflexivity|].
  cbn [lazy_until_end]; destruct (at_dollar (String c s)).
  - exists (String c s); reflexivity.
  - exists rest; rewrite append_cons, <- IH; reflexivity.
Qed.

Lemma lazy_until_stars_or_end_prefix (s : string) :
  exists rest, s = lazy_until_stars_or_end s ++ rest.
Proof.
  induction s as [|c s [rest IH]]; [exists ""; reflexivity|].
  cbn [lazy_until_stars_or_end].
  destruct (startswith "**" (String c s) || at_dollar (String c s)).
  - exists (String c s); reflexivity.
  - exists rest; rewrite append_cons, <- IH; reflexivity.
Qed.

End PartFacts.

Section ContainsFacts.
Import PyStr Regex Spec ExtraSpec.

Lemma startswith_spec (p s : string) :
  startswith p s = true <-> exists rest, s = p ++ rest.
Proof.
  revert s; induction p as [|a p IH]; intros s.
  - split; [exists s; reflexivity | reflexivity].
  - destruct s as [|b s]; cbn [startswith].
    + split; [discriminate | intros [rest H]; discriminate].
    + rewrite andb_true_iff, Ascii.eqb_eq, IH; split.
      * intros [-> [rest ->]]; exists rest; reflexivity.
      * intros [rest H]; rewrite append_cons in H.
        injection H as -> ->; eauto.
Qed.

(** [sub in s] holds exactly when [sub] is a contiguous part of [s]. *)
Lemma contains_spec (sub s : string) :
  contains sub s = true <-> part_of sub s.
Proof.
  split.
  - induction s as [|c s IH]; cbn [contains].
    + rewrite orb_false_r; intros [rest ->]%startswith_spec.
      apply part_of_prefix.
    + intros [[rest ->]%startswith_spec | H]%orb_true_iff.
      * apply part_of_prefix.
      * apply part_of_cons, IH, H.
  - intros (before & after & ->).
    induction before as [|c before IH].
    + rewrite append_nil.
      assert (H : startswith sub (sub ++ after) = true)
        by (apply startswith_spec; eauto).
      destruct (sub ++ after); cbn [contains]; rewrite H; reflexivity.
    + rewrite append_cons; cbn [contains]; rewrite IH.
      apply orb_true_r.
Qed.

Lemma contains_part (sub a s : string) :
  part_of a s -> contains sub s = false -> contains sub a = false.
Proof.
  intros Ha Hs; destruct (contains sub a) eqn:H; [|reflexivity].
  apply contains_spec in H.
  rewrite (proj2 (contains_spec sub s)) in Hs;
    [discriminate | eauto using part_of_trans].
Qed.

Lemma split_char_no_separator (sep : ascii) (s x : string) :
  In x (split_char sep s) -> contains (String sep "") x = false.
Proof.
  revert x; induction s as [|c s IH]; simpl; intros x.
  - intros [<-|[]]; reflexivity.
  - destruct (Ascii.eqb c sep) eqn:Hc.
    + intros [<-|H]; [reflexivity | auto].
    + destruct (split_char sep s) as [|w ws].
      * intros [<-|[]]; cbn [contains startswith].
        rewrite Ascii.eqb_sym, Hc; reflexivity.
      * intros [<-|H]; [|apply IH; right; exact H].
        cbn [contains startswith]; rewrite Ascii.eqb_sym, Hc.
        apply (IH w); left; reflexivity.
Qed.

Lemma lazy_first_char (s : string) :
  first_char (lazy_until_stars_or_end s) = None
  \/ first_char (lazy_until_stars_or_end s) = first_char s.
Proof.
  destruct s as [|c s]; [left; reflexivity|].
  cbn [lazy_until_stars_or_end].
  destruct (startswith "**" (String c s) || at_dollar (String c s));
    [left | right]; reflexivity.
Qed.

(** The text of a heading holds no [**]. *)
Lemma lazy_until_stars_or_end_no_stars (s : string) :
  contains "**" (lazy_until_stars_or_end s) = false.
Proof.
  induction s as [|c s IH]; [reflexivity|].
  cbn [lazy_until_stars_or_end].
  destruct (startswith "**" (String c s) || at_dollar (String c s)) eqn:H;
    [reflexivity|].
  apply orb_false_iff in H as [H _].
  cbn [contains]; rewrite IH, orb_false_r.
  cbn [startswith] in H |- *.
  destruct (Ascii.eqb "*" c); [|reflexivity]; cbn [andb] in *.
  destruct (lazy_first_char s) as [Hf|Hf];
    destruct (lazy_until_stars_or_end s) as [|d l]; try reflexivity;
    try discriminate.
  destruct s as [|d' s']; [discriminate|].
  injection Hf as ->; cbn [startswith] in *.
  rewrite andb_true_r in *; exact H.
Qed.

End ContainsFacts.

Section ParserExtras.
Import PyStr Regex Parser Spec ExtraSpec.

Lemma section_here_part (name s g : string) :
  section_here name s = Some g ->
  part_of g s /\ contains "**" g = false.
Proof.
  unfold section_here.
  destruct (match_literal_ci ("**" ++ name ++ "**:") s) as [rest|] eqn:Hm;
    [|discriminate].
  intros [= <-]; split; [|apply lazy_until_stars_or_end_no_stars].
  destruct (match_literal_ci_suffix _ _ _ Hm) as [head ->].
  destruct (lazy_until_stars_or_end_prefix rest) as [tail Ht].
  exists head, tail; rewrite <- Ht; reflexivity.
Qed.

Lemma search_section_part (name response g : string) :
  search_section name response = Some g ->
  part_of g response /\ contains "**" g = false.
Proof.
  intros (before & s' & -> & [Hp Hn]%section_here_part)%search_suffix.
  split; [|exact Hn].
  eapply part_of_trans; [exact Hp | apply part_of_suffix].
Qed.

Lemma search_gaps_part (response g : string) :
  search_gaps response = Some g ->
  part_of g response /\ contains "**" g = false.
Proof.
  intros (before & s' & -> & H)%search_suffix.
  assert (Hg : part_of g s' /\ contains "**" g = false).
  { unfold gaps_here in H.
    destruct (section_here "GAPS" s') eqn:H1;
      [injection H as ->; eauto using section_here_part|].
    destruct (section_here "CRITICAL GAPS" s') eqn:H2;
      [injection H as ->; eauto using section_here_part|].
    eauto using section_here_part. }
  destruct Hg as [Hp Hn]; split; [|exact Hn].
  eapply part_of_trans; [exact Hp | apply part_of_suffix].
Qed.

Lemma search_analysis_part (response g : string) :
  search_analysis response = Some g -> part_of g response.
Proof.
  intros (before & s' & -> & H)%search_suffix.
  unfold analysis_here in H.
  destruct (match_literal_ci "**DETAILED ANALYSIS**:" s') as [rest|] eqn:Hm;
    [|discriminate].
  injection H as <-.
  destruct (match_literal_ci_suffix _ _ _ Hm) as [head ->].
  destruct (lazy_until_end_prefix rest) as [tail Ht].
  exists (before ++ head), tail.
  rewrite <- Ht, append_assoc; reflexivity.
Qed.

(** What holds of every item of a heading's text. *)
Lemma bullet_items_part (g item : string) :
  In item (bullet_items g) ->
  part_of item g /\ contains nl item = false.
Proof.
  unfold bullet_items, section_lines, bullet_text, strip, strip_chars.
  intros (line & <- & [Hin _]%filter_In)%in_map_iff.
  assert (Hitem : part_of (strip_by isspace
                             (strip_by (fun c => mem c "- ") line)) line)
    by eauto using part_of_trans, strip_by_part.
  split.
  - eapply part_of_trans; [exact Hitem|].
    eapply part_of_trans; [eapply split_char_part, Hin | apply strip_by_part].
  - eapply contains_part; [exact Hitem|].
    apply (split_char_no_separator newline _ _ Hin).
Qed.

Lemma items_of_part (m : option string) (response : string) :
  (forall g, m = Some g -> part_of g response /\ contains "**" g = false) ->
  Forall (fun item => part_of item response
                      /\ contains nl item = false
                      /\ contains "**" item = false)
         (items_of m).
Proof.
  intros H; destruct m as [g|]; [|constructor].
  destruct (H g eq_refl) as [Hp Hn].
  apply Forall_forall; intros item Hin%list_elem_of_In.
  apply bullet_items_part in Hin as [Hi Hl].
  eauto using part_of_trans, contains_part.
Qed.

(** X13.  The parser invents no text.  The content of the record is a
    contiguous part of the response, and so is every item of its three
    lists; an item spans one line only and holds no [**], so an item with
    bold text is cut at the marker. *)
Theorem parser_keeps_to_the_text (response st : string) :
  let r := parse_analysis_response response st in
  part_of (content r) response
  /\ Forall (fun item => part_of item response
                         /\ contains nl item = false
                         /\ contains "**" item = false)
            (strengths r ++ gaps r ++ recommendations r)%list.
Proof.
  destruct (parse_analysis_response_fields response st) as [o ->];
    cbn [content strengths gaps recommendations]; split.
  - destruct (search_analysis response) as [g|] eqn:Hg;
      [|apply part_of_refl].
    eapply part_of_trans; [apply strip_by_part|].
    apply search_analysis_part, Hg.
  - rewrite !Forall_app; repeat split; apply items_of_part; intros g Hg.
    + apply (search_section_part "STRENGTHS"), Hg.
    + apply search_gaps_part, Hg.
    + apply (search_section_part "RECOMMENDATIONS"), Hg.
Qed.

(** An item in bold is cut at the marker. *)
Example bold_item_is_cut :
  strengths (parse_analysis_response
               ("**STRENGTHS**:" ++ nl ++ "- a **clear** plan" ++ nl ++ "- b")
               "P_Internal")
  = ["a"].
Proof. vm_compute; reflexivity. Qed.

Lemma digits_val_nonneg (d : string) (acc : Z) :
  all_chars isdigit d = true -> (0 <= acc)%Z -> (0 <= digits_val acc d)%Z.
Proof.
  revert acc; induction d as [|c d IH]; intros acc; simpl; [auto|].
  intros [Hc Hd]%andb_true_iff Hacc; apply IH; [exact Hd|].
  unfold isdigit in Hc; apply andb_true_iff in Hc as [Hc _].
  apply Nat.leb_le in Hc; unfold digit_val; lia.
Qed.

Lemma py_float_nonneg (s : string) (q : Q) :
  py_float s = inr q -> (0 <= q)%Q.
Proof.
  unfold py_float.
  pose proof (span_digits_spec s) as [_ Hi].
  destruct (span_digits s) as [i rest]; simpl in Hi.
  assert (Hint : (0 <= inject_Z (digits_val 0 i))%Q).
  { rewrite <- (Zle_Qle 0); apply digits_val_nonneg; [exact Hi | lia]. }
  destruct i as [|c i]; [discriminate|].
  destruct rest as [|d rest]; [intros [= <-]; exact Hint|].
  destruct (Ascii.eqb d ".") eqn:Hd.
  - apply Ascii.eqb_eq in Hd; subst d.
    pose proof (span_digits_spec rest) as [_ Hf].
    destruct (span_digits rest) as [f rest']; simpl in Hf.
    destruct f as [|e f]; [discriminate|].
    destruct rest'; [|discriminate].
    intros [= <-].
    assert (Hfrac : (0 <= inject_Z (digits_val 0 (String e f)))%Q).
    { rewrite <- (Zle_Qle 0); apply digits_val_nonneg; [exact Hf | lia]. }
    assert (Hpow : (0 <= inject_Z (10 ^ Z.of_nat (String.length (String e f))))%Q).
    { rewrite <- (Zle_Qle 0); apply Z.pow_nonneg; lia. }
    apply Qle_lt_or_eq in Hpow as [Hpos|Hzero].
    + assert (0 <= inject_Z (digits_val 0 (String e f))
                   / inject_Z (10 ^ Z.of_nat (String.length (String e f))))%Q.
      { apply Qle_shift_div_l; [exact Hpos|]. rewrite Qmult_0_l; exact Hfrac. }
      apply (Qle_trans _ (0 + 0)); [discriminate|].
      apply Qplus_le_compat; assumption.
    + exfalso.
      assert (Hz : (0 < 10 ^ Z.of_nat (String.length (String e f)))%Z)
        by (apply Z.pow_pos_nonneg; lia).
      rewrite (Zlt_Qlt 0) in Hz; rewrite <- Hzero in Hz.
      apply (Qlt_irrefl 0); exact Hz.
  - destruct d as [[] [] [] [] [] [] [] []]; try discriminate.
Qed.

(** X14.  A parsed score is never negative: the score pattern captures digits
    only, so a sign before the number makes the heading unreadable
    instead of yielding a negative score. *)
Theorem parsed_score_nonneg (response st : string) :
  match score (parse_analysis_response response st) with
  | Some q => (0 <= q)%Q
  | None => True
  end.
Proof.
  pose proof (parse_body_returns response st) as H.
  unfold parse_body in H.
  destruct (search_score response) as [g|].
  - destruct (py_float g) as [e|q] eqn:Hq; [discriminate|].
    injection H as <-; simpl; eauto using py_float_nonneg.
  - injection H as <-; exact I.
Qed.

Example signed_score_is_unread :
  score (parse_analysis_response "**SCORE**: -5" "P_Internal") = None.
Proof. vm_compute; reflexivity. Qed.

End ParserExtras.

(** ** The document table *)

Section MappingExtras.
Import PyStr PdfMappings ExtraSpec.

Lemma keyed_empty : keyed ∅.
Proof. intros name info H; rewrite lookup_empty in H; discriminate. Qed.

Lemma keyed_insert (mappings : gmap string SourceInfo) (name : string)
  (info : Row) :
  keyed mappings -> keyed (<[name := entry_of name info]> mappings).
Proof.
  intros Hk name' info'; rewrite lookup_insert.
  case_decide as Heq; [intros [= <-]; subst; reflexivity | apply Hk].
Qed.

Lemma keyed_load_row (mappings : gmap string SourceInfo) (row : Row) :
  keyed mappings -> keyed (load_row mappings row).
Proof.
  intros Hk; unfold load_row.
  destruct (row_name row) as [pdf_name|]; [|exact Hk].
  destruct (truthy pdf_name); [apply keyed_insert, Hk | exact Hk].
Qed.

Lemma keyed_load (rows : list Row) (mappings : gmap string SourceInfo) :
  keyed mappings -> keyed (load_from_csv mappings rows).
Proof.
  unfold load_from_csv; revert mappings.
  induction rows as [|row rows IH]; intros mappings Hk; simpl;
    [exact Hk | apply IH, keyed_load_row, Hk].
Qed.

Lemma keyed_get (mappings : gmap string SourceInfo) (name : string) :
  keyed mappings -> pdf_title (get mappings name) = name.
Proof.
  intros Hk; unfold get.
  destruct (mappings !! name) as [info|] eqn:H; [apply (Hk _ _ H)|].
  reflexivity.
Qed.

(** X15.  Adding a mapping and reading it back: the entry read for the added
    name is the one built from the given fields, with missing fields
    empty and the name as title; every other name reads as before. *)
Theorem add_mapping_get (mappings : gmap string SourceInfo)
  (name other : string) (info : Row) :
  get (add_mapping mappings name info) name
  = {| sno := default "" (row_sno info);
       title := default "" (row_title info);
       author_organization := default "" (row_author_organization info);
       publication_year := default "" (row_publication_year info);
       link := default "" (row_link info);
       pdf_title := name |}
  /\ (if String.eqb other name then True
      else get (add_mapping mappings name info) other = get mappings other).
Proof.
  unfold get, add_mapping; split.
  - rewrite lookup_insert_eq; reflexivity.
  - destruct (String.eqb_spec other name) as [|Hne]; [exact I|].
    rewrite lookup_insert_ne by congruence; reflexivity.
Qed.

(** X16.  A table loaded from CSV rows answers every name with an entry titled
    with that name, whether the name is in the table or not; the same
    holds after any further [add_mapping]. *)
Theorem loaded_table_is_keyed (rows : list Row) (name added : string)
  (info : Row) :
  pdf_title (get (load_from_csv ∅ rows) name) = name
  /\ pdf_title (get (add_mapping (load_from_csv ∅ rows) added info) name)
     = name.
Proof.
  split; apply keyed_get;
    [|apply keyed_insert]; apply keyed_load, keyed_empty.
Qed.

Lemma load_row_stored (mappings : gmap string SourceInfo) (row : Row) :
  load_row mappings row
  = match stored_name row with
    | Some name => <[name := entry_of name row]> mappings
    | None => mappings
    end.
Proof.
  unfold load_row, row_name, stored_name.
  destruct (row_pdf_name row) as [[name|]|];
    [destruct (truthy name); reflexivity | reflexivity |].
  destruct (row_pdf_title row) as [[name|]|];
    [destruct (truthy name)| |]; reflexivity.
Qed.

(** X17.  What a table holds after [load_from_csv]: a name reads the
    entry of the last row stored under it, and reads as before when no
    row is stored under it.  A row is stored under the text of its
    [pdf_name] column, or of its [pdf_title] column when there is no
    [pdf_name] column; it is skipped when that text is empty, when there
    is neither column, and when the row is too short to have a
    [pdf_name], whatever its [pdf_title]. *)
Theorem load_from_csv_lookup (mappings : gmap string SourceInfo)
  (rows : list Row) (name : string) :
  load_from_csv mappings rows !! name
  = match List.find (stored_under name) (List.rev rows) with
    | Some row => Some (entry_of name row)
    | None => mappings !! name
    end.
Proof.
  induction rows as [|row rows IH] using rev_ind; [reflexivity|].
  unfold load_from_csv in *; rewrite fold_left_app, List.rev_app_distr.
  cbn [fold_left List.rev app List.find].
  rewrite load_row_stored; unfold stored_under at 1.
  destruct (stored_name row) as [key|].
  - destruct (decide (key = name)) as [->|Hne].
    + rewrite bool_decide_eq_true_2 by reflexivity.
      apply lookup_insert_eq.
    + rewrite bool_decide_eq_false_2 by congruence.
      rewrite lookup_insert_ne by exact Hne; exact IH.
  - rewrite bool_decide_eq_false_2 by discriminate; exact IH.
Qed.

(** A row that is too short to have a [pdf_name] is skipped although its
    [pdf_title] names a document; the same title is used when the file
    has no [pdf_name] column. *)
Example short_row_is_skipped :
  let fields name :=
    {| row_pdf_name := name; row_pdf_title := Some (Some "doc.pdf");
       row_sno := Some "1"; row_title := None;
       row_author_organization := None; row_publication_year := None;
       row_link := None |} in
  load_from_csv ∅ [fields (Some None)] = ∅
  /\ load_from_csv ∅ [fields None]
     = {[ "doc.pdf" := entry_of "doc.pdf" (fields None) ]}.
Proof. split; reflexivity. Qed.

Lemma NoDup_snoc {A} (l : list A) (x : A) :
  List.NoDup l -> ~ In x l -> List.NoDup (l ++ [x]).
Proof.
  induction l as [|y l IH]; simpl; intros Hnd Hx.
  - constructor; [tauto | constructor].
  - inversion Hnd as [|? ? Hy Hl]; subst; constructor.
    + rewrite in_app_iff; simpl; intuition.
    + apply IH; [exact Hl | tauto].
Qed.

Lemma unique_state_step (seen : gset string) (unique : list SourceInfo)
  (x : SourceInfo) :
  unique_state seen unique ->
  unique_state (fst (unique_step (seen, unique) x))
               (snd (unique_step (seen, unique) x))
  /\ (snd (unique_step (seen, unique) x) = unique
      \/ snd (unique_step (seen, unique) x) = (unique ++ [x])%list)
  /\ (titled x = true ->
      In (pdf_title x)
         (List.map pdf_title (snd (unique_step (seen, unique) x)))).
Proof.
  intros (Hseen & Hnd & Hne); unfold unique_step, titled.
  destruct (truthy (pdf_title x)) eqn:Ht; cbn [andb];
    [|cbn [fst snd];
      split; [exact (conj Hseen (conj Hnd Hne))
             | split; [left; reflexivity | discriminate]]].
  case_bool_decide as Hin; cbn [fst snd].
  - repeat split; auto.
    + intros [->%elem_of_singleton|H%Hseen]%elem_of_union;
        rewrite List.map_app, in_app_iff; simpl; auto.
    + rewrite List.map_app, in_app_iff; simpl.
      intros [H|[<-|[]]]; apply elem_of_union;
        [right; apply Hseen, H | left; apply elem_of_singleton; reflexivity].
    + rewrite List.map_app; simpl.
      apply NoDup_snoc; [exact Hnd|].
      intros H; apply Hin, Hseen, H.
    + apply Forall_app; split; [exact Hne | repeat constructor; exact Ht].
    + intros _; rewrite List.map_app, in_app_iff; simpl; auto.
  - split; [exact (conj Hseen (conj Hnd Hne))|].
    split; [left; reflexivity | intros _; apply Hseen, Hin].
Qed.

Lemma unique_loop (sources : list SourceInfo) (seen : gset string)
  (unique : list SourceInfo) :
  unique_state seen unique ->
  let final := fold_left unique_step sources (seen, unique) in
  unique_state (fst final) (snd final)
  /\ (exists added, snd final = (unique ++ added)%list
                    /\ added `sublist_of` sources)
  /\ Forall (fun x => In (pdf_title x) (List.map pdf_title (snd final)))
            (List.filter titled sources).
Proof.
  revert seen unique; induction sources as [|x sources IH];
    intros seen unique Hs; cbn [fold_left List.filter].
  - repeat split; try apply Hs; [|constructor].
    exists []; rewrite app_nil_r; split; [reflexivity | constructor].
  - destruct (unique_state_step seen unique x Hs) as (Hs' & Hstep & Hx).
    destruct (unique_step (seen, unique) x) as [seen' unique'] eqn:Hu;
      cbn [fst snd] in *.
    destruct (IH seen' unique' Hs') as (Hfin & (added & Hadd & Hsub) & Hall).
    split; [exact Hfin|]; split.
    + destruct Hstep as [->| ->].
      * exists added; split; [exact Hadd | apply sublist_cons, Hsub].
      * exists (x :: added); rewrite Hadd, <- app_assoc; split;
          [reflexivity | apply sublist_skip, Hsub].
    + destruct (titled x) eqn:Ht; [|exact Hall].
      constructor; [|exact Hall].
      rewrite Hadd, List.map_app, in_app_iff; left; auto.
Qed.

Lemma unique_state_empty : unique_state ∅ [].
Proof.
  repeat split; try constructor; simpl; [set_solver | tauto].
Qed.

(** On sources with distinct titles the loop only drops the untitled. *)
Lemma unique_loop_distinct (sources : list SourceInfo) (seen : gset string)
  (unique : list SourceInfo) :
  (forall name, name ∈ seen <-> In name (List.map pdf_title unique)) ->
  List.NoDup (List.map pdf_title (unique ++ sources)) ->
  snd (fold_left unique_step sources (seen, unique))
  = (unique ++ List.filter titled sources)%list.
Proof.
  revert seen unique; induction sources as [|x sources IH];
    intros seen unique Hseen Hnd; cbn [fold_left List.filter].
  - rewrite app_nil_r; reflexivity.
  - rewrite List.map_app in Hnd; simpl in Hnd.
    pose proof (List.NoDup_remove_1 _ _ _ Hnd) as Hnd1.
    pose proof (List.NoDup_remove_2 _ _ _ Hnd) as Hnd2.
    unfold unique_step at 2, titled.
    destruct (truthy (pdf_title x)) eqn:Ht; cbn [andb].
    + rewrite bool_decide_eq_true_2.
      * rewrite IH.
        -- rewrite <- app_assoc; reflexivity.
        -- intros name; rewrite List.map_app, in_app_iff, elem_of_union,
             elem_of_singleton, Hseen; simpl; intuition.
        -- rewrite <- app_assoc, List.map_app; exact Hnd.
      * intros Hin%Hseen; apply Hnd2, in_or_app; left; exact Hin.
    + apply IH; [exact Hseen | rewrite List.map_app; exact Hnd1].
Qed.

(** X18.  [get_unique_sources] keeps one source per title: the titles of the
    result are distinct and not empty, the result is a sublist of the
    input, every non-empty title of the input occurs in it, and applying
    it again changes nothing. *)
Theorem get_unique_sources_spec (sources : list SourceInfo) :
  let unique := get_unique_sources sources in
  List.NoDup (List.map pdf_title unique)
  /\ Forall (fun x => truthy (pdf_title x) = true) unique
  /\ unique `sublist_of` sources
  /\ Forall (fun x => In (pdf_title x) (List.map pdf_title unique))
            (List.filter titled sources)
  /\ get_unique_sources unique = unique.
Proof.
  unfold get_unique_sources.
  destruct (unique_loop sources ∅ [] unique_state_empty)
    as ((_ & Hnd & Hne) & (added & Hadd & Hsub) & Hall).
  cbv zeta in *; simpl in Hadd; rewrite Hadd in *.
  repeat split; auto.
  rewrite unique_loop_distinct; simpl; [| set_solver | exact Hnd].
  clear -Hne; induction added as [|x l IH]; simpl; [reflexivity|].
  inversion Hne as [|? ? Hx Hl]; subst; unfold titled at 1; rewrite Hx.
  f_equal; apply IH, Hl.
Qed.

End MappingExtras.

(** ** Chat orchestrator, further *)

Section ChatExtras.
Import PyStr PdfMappings Chatbot ChatSpec ExtraSpec.

Lemma after_label_colon (label rest : string) :
  contains ":" label = true ->
  is_ok (after_first_colon (label ++ rest)) = true.
Proof.
  induction label as [|c label IH]; [discriminate|].
  rewrite append_cons; cbn [contains startswith after_first_colon].
  rewrite Ascii.eqb_sym.
  destruct (Ascii.eqb c ":"); [reflexivity|].
  cbn [andb orb]; exact IH.
Qed.

Lemma refine_step_returns (acc : bool * string) (line : string) :
  exists acc', refine_step acc line = inr acc'
               /\ (fst acc' = true ->
                   fst acc = true
                   \/ startswith "REQUIRES_RETRIEVAL:" line = true).
Proof.
  unfold refine_step; destruct acc as [rr rq].
  destruct (startswith "REQUIRES_RETRIEVAL:" line) eqn:H1.
  - apply startswith_spec in H1 as [rest ->].
    pose proof (after_label_colon "REQUIRES_RETRIEVAL:" rest eq_refl) as Hc.
    destruct (after_first_colon _) as [e|v]; [discriminate|].
    eexists; split; [reflexivity | auto].
  - destruct (startswith "REFINED_QUERY:" line) eqn:H2.
    + apply startswith_spec in H2 as [rest ->].
      pose proof (after_label_colon "REFINED_QUERY:" rest eq_refl) as Hc.
      destruct (after_first_colon _) as [e|v]; [discriminate|].
      eexists; split; [reflexivity | auto].
    + eexists; split; [reflexivity | auto].
Qed.

Lemma refine_lines_returns (lines : list string) (acc : bool * string) :
  exists acc', refine_lines lines acc = inr acc'
               /\ (fst acc' = true ->
                   fst acc = true
                   \/ existsb (startswith "REQUIRES_RETRIEVAL:") lines
                      = true).
Proof.
  revert acc; induction lines as [|line lines IH]; intros acc;
    cbn [refine_lines existsb].
  - eauto.
  - destruct (refine_step_returns acc line) as (acc1 & -> & H1).
    destruct (IH acc1) as (acc' & -> & H').
    exists acc'; split; [reflexivity|].
    intros Ht; destruct (H' Ht) as [Ha|Hb];
      [|right; rewrite Hb; apply orb_true_r].
    destruct (H1 Ha) as [?|Hc]; [auto | right; rewrite Hc; reflexivity].
Qed.

(** X19.  Parsing the refiner's answer never raises: a line that carries a
    label holds the colon that [split(':', 1)[1]] needs.  Retrieval is
    asked for only when some line starts with the retrieval label. *)
Theorem parse_refinement_never_raises (response query : string) :
  exists requires_retrieval refined_query,
    parse_refinement response query
    = inr (requires_retrieval, refined_query)
    /\ (if requires_retrieval
        then existsb (startswith "REQUIRES_RETRIEVAL:")
                     (split_char newline (strip response)) = true
        else True).
Proof.
  unfold parse_refinement.
  destruct (refine_lines_returns (split_char newline (strip response))
              (false, query)) as ([rr rq] & -> & H).
  exists rr, rq; split; [reflexivity|].
  destruct rr; [|exact I].
  destruct (H eq_refl) as [?|?]; [discriminate | assumption].
Qed.

(** X20.  [query_refiner] never raises and calls the provider exactly
    once.  When the provider raises it returns [(True, query)]; when the
    provider answers it returns the parse of the answer. *)
Theorem query_refiner_outcome (w : World) (conversation query : string)
  (t : list event) :
  let p := QueryRefinementPrompt
             (if truthy conversation then conversation else no_conversation)
             query in
  exists requires_retrieval refined_query,
    query_refiner w conversation query t
    = (inr (requires_retrieval, refined_query),
       (t ++ [Completion p None])%list)
    /\ match generate_completion w t p with
       | inr response =>
           parse_refinement response query
           = inr (requires_retrieval, refined_query)
       | inl _ => requires_retrieval = true /\ refined_query = query
       end.
Proof.
  intros p; unfold query_refiner, catch, call_llm, mbind, M_bind, history,
    emit, lift; fold p.
  destruct (generate_completion w t p) as [e|response];
    [exists true, query; repeat split|].
  destruct (refine_lines_returns (split_char newline (strip response))
              (false, query)) as ([requires_retrieval refined_query] & H & _).
  exists requires_retrieval, refined_query.
  unfold parse_refinement; rewrite H; split; reflexivity.
Qed.

Lemma bind_inv_err {E A B} (m : M E A) (k : A -> M E B) (t t' : list E)
  (e : exn) :
  (m ≫= k) t = (inl e, t') ->
  m t = (inl e, t')
  \/ exists a t1, m t = (inr a, t1) /\ k a t1 = (inl e, t').
Proof.
  unfold mbind, M_bind; destruct (m t) as [[e1|a] t1]; intros H;
    [injection H as -> ->; left; reflexivity
    | right; exists a, t1; split; [reflexivity | exact H]].
Qed.

Lemma catch_all_returns {E A} (m : M E A) (a : A) (t : list E) :
  is_ok (fst (catch m (fun _ => mret a) t)) = true.
Proof. unfold catch; destruct (m t) as [[e|x] t1]; reflexivity. Qed.

Lemma extract_context_returns (w : World) (query : string)
  (top_k multiplier : Z) (t : list event) :
  is_ok (fst (extract_context w query top_k multiplier t)) = true.
Proof. apply catch_all_returns. Qed.

Lemma save_message_fails (w : World) (m : Message) (t t' : list event)
  (e : exn) :
  save_message w m t = (inl e, t') ->
  save_message_error w t = Some e /\ t' = t.
Proof.
  unfold save_message, mbind, M_bind, history, raise, emit.
  destruct (save_message_error w t); [intros [= <- <-]; auto | discriminate].
Qed.

Lemma chat_raises_inv (w : World) (request : ChatRequest)
  (t t' : list event) (e : exn) :
  chat w request t = (inl e, t') ->
  exists h, save_message_error w h = Some e.
Proof.
  intros H; unfold chat in H.
  apply bind_inv_err in H as [H | (? & t1 & _ & H)].
  { pose proof (catch_all_returns
                  (create_session w
                     (or_else (session_id request) (uuid4_session w))
                     (user_id request)) tt t) as Hok.
    rewrite H in Hok; discriminate. }
  apply bind_inv_err in H as [H | (conversation & t2 & _ & H)].
  { destruct (truthy _); discriminate. }
  apply bind_inv_err in H as [H | (? & t3 & _ & H)].
  { apply save_message_fails in H as [H _]; eauto. }
  apply bind_inv_err in H as [H | ([requires_retrieval refined] & t4 & _ & H)].
  { pose proof (catch_all_returns
                  (response ←
                     call_llm w
                       (QueryRefinementPrompt
                          (if truthy conversation then conversation
                           else no_conversation) (question request)) None;
                   lift (parse_refinement response (question request)))
                  (true, question request) t3) as Hok.
    unfold query_refiner in H; rewrite H in Hok; discriminate. }
  apply bind_inv_err in H as [H | (context_data & t5 & _ & H)].
  { destruct requires_retrieval; [|discriminate].
    pose proof (extract_context_returns w refined 4 2 t4) as Hok.
    rewrite H in Hok; discriminate. }
  apply bind_inv_err in H as [H | ([response_text flag] & t6 & _ & H)].
  { pose proof (generate_response_returns w (question request) conversation
                  (all_context context_data) (model request)
                  (source request) t5) as Hok.
    rewrite H in Hok; discriminate. }
  apply bind_inv_err in H as [H | (? & t7 & _ & H)].
  { apply save_message_fails in H as [H _]; eauto. }
  discriminate.
Qed.

(** X21.  A chat turn raises only when a message cannot be stored: failures of
    session creation, of the history lookup, of the refiner, of the
    retriever and of the provider are all absorbed.  The error raised is
    the one of [save_message]. *)
Theorem chat_fails_only_on_save (w : World) (request : ChatRequest)
  (t : list event) :
  match chat w request t with
  | (inl e, t') => exists h, save_message_error w h = Some e
  | (inr _, _) => True
  end.
Proof.
  destruct (chat w request t) as [[e|r] t'] eqn:H; [|exact I].
  exact (chat_raises_inv w request t t' e H).
Qed.

(** X22.  The route [POST /chat] answers with the response of the engine, or
    with HTTP 500 and a detail that starts with [Chat failed: ]; the
    latter only when a message could not be stored. *)
Theorem chat_route_outcome (w : World) (request : ChatRequest)
  (t : list event) :
  match ChatRoute.chat w request t with
  | (inr r, t') => chat w request t = (inr r, t')
  | (inl e, _) =>
      exists detail err h,
        e = HTTPException 500 ("Chat failed: " ++ detail)
        /\ save_message_error w h = Some err
  end.
Proof.
  unfold ChatRoute.chat, catch.
  destruct (chat w request t) as [[err|r] t'] eqn:H; [|reflexivity].
  destruct (chat_raises_inv w request t t' err H) as [h Hh].
  exists (exn_str err), err, h; split; [reflexivity | exact Hh].
Qed.

Lemma snd_bind {E A B} (m : M E A) (k : A -> M E B) (t : list E) :
  snd ((m ≫= k) t)
  = match m t with
    | (inr a, t1) => snd (k a t1)
    | (inl _, t1) => t1
    end.
Proof. unfold mbind, M_bind; destruct (m t) as [[e|a] t1]; reflexivity. Qed.

Lemma save_message_grows (w : World) (m : Message) :
  grows (save_message w m).
Proof.
  intros t; unfold save_message, mbind, M_bind, history, raise, emit.
  destruct (save_message_error w t);
    [exists [] | exists [SaveMessage m]]; simpl; rewrite ?app_nil_r;
    reflexivity.
Qed.

Lemma chat_call_llm_grows (w : World) (p : prompt) (model : option string) :
  grows (call_llm w p model).
Proof. unfold call_llm; grows_steps. Qed.

Lemma query_refiner_grows (w : World) (conversation query : string) :
  grows (query_refiner w conversation query).
Proof.
  unfold query_refiner; apply grows_catch; [|intros ?; grows_steps].
  apply grows_bind; [apply chat_call_llm_grows | intros ?; grows_steps].
Qed.

Lemma extract_context_grows (w : World) (query : string)
  (top_k multiplier : Z) :
  grows (extract_context w query top_k multiplier).
Proof. unfold extract_context; grows_steps. Qed.

Lemma generate_response_grows (w : World)
  (question conversation context model : string) (source : option string) :
  grows (generate_response w question conversation context model source).
Proof.
  unfold generate_response; apply grows_catch; [|intros ?; grows_steps].
  apply grows_bind; [apply chat_call_llm_grows | intros ?; grows_steps].
Qed.

#[local] Hint Resolve save_message_grows query_refiner_grows
  extract_context_grows generate_response_grows : grows.

(** X23.  The user's question is stored before the refiner, the retriever or
    the provider is called: the trace of a turn is some set-up events
    (session creation, history lookup), then the stored question, then
    the rest; when the question cannot be stored, nothing follows. *)
Theorem chat_saves_question_first (w : World) (request : ChatRequest)
  (t : list event) :
  exists setup rest,
    snd (chat w request t) = (t ++ setup ++ rest)%list
    /\ forallb is_setup setup = true
    /\ (rest = []
        \/ exists rest',
             rest = SaveMessage
                      (user_message
                         (or_else (session_id request) (uuid4_session w))
                         (question request))
                    :: rest').
Proof.
  unfold chat; rewrite snd_bind.
  set (sid := or_else (session_id request) (uuid4_session w)).
  assert (Hcreate :
    exists s1, catch (create_session w sid (user_id request))
                     (fun _ => mret tt) t = (inr tt, (t ++ s1)%list)
               /\ forallb is_setup s1 = true).
  { unfold catch, create_session.
    destruct (create_session_error w);
      [exists [] | exists [CreateSession sid (user_id request)]];
      simpl; rewrite ?app_nil_r; split; reflexivity. }
  destruct Hcreate as (s1 & -> & Hs1); rewrite snd_bind.
  assert (Hconv :
    exists c s2,
      (if truthy sid
       then _ ← emit (GetUserConversations (user_id request) sid);
            mret (get_user_conversations w (user_id request) sid)
       else mret "") (t ++ s1)%list
      = (inr c, (t ++ s1 ++ s2)%list)
      /\ forallb is_setup s2 = true).
  { destruct (truthy sid);
      [exists (get_user_conversations w (user_id request) sid),
              [GetUserConversations (user_id request) sid]
      | exists "", []];
      unfold mbind, M_bind, emit, mret, M_ret;
      rewrite <- ?app_assoc, ?app_nil_r; split; reflexivity. }
  destruct Hconv as (conversation & s2 & -> & Hs2); rewrite snd_bind.
  exists (s1 ++ s2)%list.
  unfold save_message at 1; unfold mbind at 1, M_bind at 1, history at 1.
  destruct (save_message_error w (t ++ s1 ++ s2)%list) as [e|].
  - exists []; cbn; rewrite app_nil_r, forallb_app, Hs1, Hs2; auto.
  - cbn [emit].
    match goal with
    | |- context [snd (?c ?tr)] =>
        assert (Hc : grows c)
    end.
    { apply grows_bind; [auto with grows | intros [rr rq]].
      apply grows_bind; [destruct rr; auto with grows | intros data].
      apply grows_bind; [auto with grows | intros [text flag]].
      apply grows_bind; [apply save_message_grows | intros ?].
      auto with grows. }
    match goal with
    | |- context [snd (?c ?tr)] => destruct (Hc tr) as [evs ->]
    end.
    eexists (_ :: evs); rewrite forallb_app, Hs1, Hs2.
    split; [|split; [reflexivity | right; eauto]].
    rewrite <- !app_assoc; reflexivity.
Qed.

Lemma grows_run {E A} (m : M E A) (t t1 : list E) (x : result A) :
  grows m -> m t = (x, t1) -> exists evs, t1 = (t ++ evs)%list.
Proof.
  intros Hg H; destruct (Hg t) as [evs Hevs]; rewrite H in Hevs; eauto.
Qed.

Lemma join_nil_context (l : list ContextInfo) :
  truthy (join context_separator (List.map pdf_context l)) = true -> l <> [].
Proof. intros H ->; discriminate. Qed.

(** X24.  A response is flagged as within the knowledge base only when the
    retriever was queried in this very turn, for eight matches, and
    answered: the context entries of the response are then the
    de-duplicated first four documents of that answer, and there is at
    least one. *)
Theorem grounded_answer_needs_retrieval (w : World) (request : ChatRequest)
  (t t' : list event) (r : ChatResponse) :
  chat w request t = (inr r, t') ->
  within_knowledge_base r = true ->
  exists before query after results,
    t' = (t ++ before ++ PineconeQuery query 8 :: after)%list
    /\ pinecone_query w query 8 = inr results
    /\ contextInfo r = unique_contexts_of results 4
    /\ contextInfo r <> [].
Proof.
  intros H Hflag; unfold chat in H.
  set (sid := or_else (session_id request) (uuid4_session w)) in *.
  apply bind_inv in H as (u1 & t1 & H1 & H).
  apply bind_inv in H as (conversation & t2 & H2 & H).
  apply bind_inv in H as (u3 & t3 & H3 & H).
  apply bind_inv in H as ([requires_retrieval refined] & t4 & H4 & H).
  apply bind_inv in H as (data & t5 & H5 & H).
  apply bind_inv in H as ([text flag] & t6 & H6 & H).
  apply bind_inv in H as ([] & t7 & H7 & H).
  injection H as <- <-; cbn [within_knowledge_base] in Hflag; subst flag.
  cbn [contextInfo].
  pose proof (generate_response_returns w (question request) conversation
                (all_context data) (model request) (source request) t5)
    as Hg.
  rewrite H6 in Hg; cbn [fst] in Hg.
  assert (Hctx : truthy (all_context data) = true).
  { destruct (generate_completion w t5 _); injection Hg as _ Hf;
      [discriminate|].
    symmetry in Hf; apply andb_true_iff in Hf; tauto. }
  destruct requires_retrieval;
    [|injection H5 as <- _; discriminate Hctx].
  unfold extract_context, catch, mbind, M_bind, emit, lift in H5.
  change (4 * 2)%Z with 8%Z in H5.
  destruct (pinecone_query w refined 8) as [e|results] eqn:Hq;
    [injection H5 as <- _; discriminate Hctx|].
  injection H5 as <- <-; cbn [all_context context_info] in *.
  apply grows_run in H1 as [e1 ->];
    [|apply grows_catch; [unfold create_session;
                          destruct (create_session_error w)|intros ?];
      auto with grows].
  apply grows_run in H2 as [e2 ->];
    [|destruct (truthy sid); grows_steps].
  apply grows_run in H3 as [e3 ->]; [|auto with grows].
  apply grows_run in H4 as [e4 ->]; [|auto with grows].
  apply grows_run in H6 as [e6 ->]; [|auto with grows].
  apply grows_run in H7 as [e7 ->]; [|auto with grows].
  exists (e1 ++ e2 ++ e3 ++ e4)%list, refined, (e6 ++ e7)%list, results.
  split; [|split; [exact Hq | split; [reflexivity|]]].
  - repeat rewrite <- app_assoc; reflexivity.
  - apply join_nil_context, Hctx.
Qed.

(** A turn in which retrieval finds the ranked results and the answer
    uses them. *)
Lemma grounded_answer_needs_retrieval_witness :
  let w := ChatSamples.world_of ChatSamples.completion_grounded in
  let request := ChatSamples.request_of "What are the budget rules?" in
  exists r,
    (chat w request [] = (inr r, snd (chat w request []))
     /\ within_knowledge_base r = true)
    /\ exists before query after results,
         snd (chat w request [])
         = ([] ++ before ++ PineconeQuery query 8 :: after)%list
         /\ pinecone_query w query 8 = inr results
         /\ contextInfo r = unique_contexts_of results 4
         /\ contextInfo r <> [].
Proof.
  intros w request.
  destruct (chat w request []) as [[e|r] t'] eqn:H;
    [vm_compute in H; discriminate|].
  assert (Hflag : within_knowledge_base r = true).
  { vm_compute in H; injection H as <- _; reflexivity. }
  exists r; split; [split; [reflexivity | exact Hflag]|].
  exact (grounded_answer_needs_retrieval w request [] t' r H Hflag).
Defined.

Lemma filter_titled_get (mappings : gmap string SourceInfo)
  (names : list string) :
  keyed mappings ->
  List.filter titled (List.map (get mappings) names)
  = List.map (get mappings) (List.filter truthy names).
Proof.
  intros Hk; induction names as [|name names IH]; [reflexivity|].
  cbn [List.map List.filter]; unfold titled at 1.
  rewrite (keyed_get _ _ Hk), IH.
  destruct (truthy name); reflexivity.
Qed.

Lemma map_title_get (mappings : gmap string SourceInfo)
  (names : list string) :
  keyed mappings ->
  List.map pdf_title (List.map (get mappings) names) = names.
Proof.
  intros Hk; induction names as [|name names IH]; [reflexivity|].
  cbn [List.map]; rewrite (keyed_get _ _ Hk), IH; reflexivity.
Qed.

(** X25.  With a table in which every entry is stored under its own title (as
    [add_mapping] and [load_from_csv] build it), [extract_context]
    returns, and its sources are the table's answers for the documents of
    its context entries, in the same order, the documents with an empty
    name left out. *)
Theorem extract_context_sources_align (w : World) (query : string)
  (top_k multiplier : Z) (t : list event) :
  keyed (pdf_mappings w) ->
  exists data,
    fst (extract_context w query top_k multiplier t) = inr data
    /\ sources_info data
       = List.map (get (pdf_mappings w))
                  (List.filter truthy
                     (List.map pdf_name (context_info data))).
Proof.
  intros Hk; unfold extract_context, catch, mbind, M_bind, emit, lift.
  destruct (pinecone_query w query (top_k * multiplier)) as [e|results];
    [exists empty_context; split; reflexivity|].
  eexists; split; [reflexivity|]; cbn [sources_info context_info].
  rewrite unique_contexts_of_top_unique.
  rewrite <- (List.map_map pdf_name (get (pdf_mappings w))).
  unfold get_unique_sources; rewrite unique_loop_distinct.
  - cbn [app]; apply filter_titled_get, Hk.
  - intros name; cbn [List.map]; rewrite elem_of_empty; simpl; tauto.
  - cbn [app]; rewrite (map_title_get _ _ Hk); apply top_unique_NoDup.
Qed.

(** The ranked results, with a table that holds document B. *)
Lemma extract_context_sources_align_witness :
  let w :=
    {| uuid4_session := "generated-session";
       uuid4_response := "generated-response";
       generate_completion := ChatSamples.completion_grounded;
       pinecone_query := fun _ _ => inr ChatSamples.ranked_results;
       pdf_mappings :=
         load_from_csv ∅
           [ {| row_pdf_name := Some (Some "B");
                row_pdf_title := None;
                row_sno := Some "7";
                row_title := Some "Budget handbook";
                row_author_organization := None;
                row_publication_year := Some "2021";
                row_link := None |} ];
       create_session_error := None;
       get_user_conversations := fun _ _ => "";
       save_message_error := fun _ => None |} in
  keyed (pdf_mappings w)
  /\ exists data,
       fst (extract_context w "budget rules" 4 2 []) = inr data
       /\ sources_info data
          = List.map (get (pdf_mappings w))
                     (List.filter truthy
                        (List.map pdf_name (context_info data))).
Proof.
  intros w.
  assert (Hk : keyed (pdf_mappings w)) by apply keyed_load, keyed_empty.
  split; [exact Hk|].
  exact (extract_context_sources_align w "budget rules" 4 2 [] Hk).
Defined.

End ChatExtras.

(** ** Text utilities and the follow-up summary *)

Section TextExtras.
Import PyStr TextProcessing ExtraSpec.

Lemma take_length_min (n : nat) (s : string) :
  String.length (take n s) = Nat.min n (String.length s).
Proof.
  unfold take; revert s; induction n as [|n IH]; intros [|c s]; simpl;
    try reflexivity.
  rewrite IH; reflexivity.
Qed.

(** X26.  The length of what [truncate_text] returns: the text is returned
    whole when it is empty or fits; otherwise the result is exactly
    [max_length] long when the suffix fits in [max_length], and when it
    does not the slice counts from the end of the text and the result is
    longer than [max_length]. *)
Theorem truncate_text_length (text suffix : string) (max_length : Z) :
  let n := Z.of_nat (String.length text) in
  let k := Z.of_nat (String.length suffix) in
  Z.of_nat (String.length (truncate_text text max_length suffix))
  = (if (n =? 0) || (n <=? max_length) then n
     else if k <=? max_length then max_length
     else Z.max k (n + max_length))%Z.
Proof.
  cbv zeta; unfold truncate_text.
  destruct text as [|c text]; [reflexivity|].
  set (s := String c text).
  assert (Hn : (Z.of_nat (String.length s) =? 0)%Z = false)
    by (apply Z.eqb_neq; simpl; lia).
  rewrite Hn; cbn [truthy s negb orb].
  destruct (Z.leb_spec (Z.of_nat (String.length s)) max_length) as [H|H];
    [reflexivity|].
  rewrite length_append; unfold slice_to.
  destruct (Z.leb_spec 0 (max_length - Z.of_nat (String.length suffix)))
    as [Hk|Hk]; rewrite take_length_min.
  - destruct (Z.leb_spec (Z.of_nat (String.length suffix)) max_length); lia.
  - destruct (Z.leb_spec (Z.of_nat (String.length suffix)) max_length); lia.
Qed.

Lemma pack_line_fits (max_length : nat) (rs : list string)
  (cur line : string) :
  Forall (well_sized max_length) rs ->
  (String.length cur <= max_length)%nat ->
  (String.length (strip line) <= max_length)%nat ->
  Forall (well_sized max_length) (fst (pack_line max_length (rs, cur) line))
  /\ (String.length (snd (pack_line max_length (rs, cur) line))
      <= max_length)%nat.
Proof.
  intros Hrs Hcur Hline; unfold pack_line.
  destruct (truthy (strip line)) eqn:Ht; cbn [negb]; [|split; assumption].
  destruct (Nat.ltb_spec max_length
              (String.length cur + String.length (strip line) + 1))
    as [Hlt|Hle]; cbn [fst snd].
  - split; [|exact Hline].
    destruct (truthy cur) eqn:Hc; [|exact Hrs].
    apply Forall_app; split; [exact Hrs|].
    constructor; [split; assumption | constructor].
  - split; [exact Hrs|].
    destruct (truthy cur); [|exact Hline].
    rewrite !length_append; simpl; lia.
Qed.

Lemma pack_lines_fit (max_length : nat) (lines : list string) :
  Forall (fun line => (String.length (strip line) <= max_length)%nat) lines ->
  forall (rs : list string) (cur : string),
    Forall (well_sized max_length) rs ->
    (String.length cur <= max_length)%nat ->
    Forall (well_sized max_length)
           (fst (fold_left (pack_line max_length) lines (rs, cur)))
    /\ (String.length (snd (fold_left (pack_line max_length) lines (rs, cur)))
        <= max_length)%nat.
Proof.
  induction 1 as [|line lines Hline _ IH]; intros rs cur Hrs Hcur;
    [split; assumption|].
  cbn [fold_left].
  destruct (pack_line_fits max_length rs cur line Hrs Hcur Hline)
    as [Hrs' Hcur'].
  destruct (pack_line max_length (rs, cur) line) as [rs' cur'].
  apply IH; assumption.
Qed.

Lemma pack_paragraph_fits (max_length : nat) (rs : list string)
  (para : string) :
  Forall (well_sized max_length) rs ->
  Forall (fun line => (String.length (strip line) <= max_length)%nat)
         (split_char newline (strip para)) ->
  Forall (well_sized max_length) (pack_paragraph max_length rs para).
Proof.
  intros Hrs Hlines; unfold pack_paragraph.
  destruct (truthy (strip para)) eqn:Ht; cbn [negb]; [|exact Hrs].
  destruct (Nat.ltb_spec max_length (String.length (strip para)))
    as [Hlt|Hle].
  - destruct (pack_lines_fit max_length _ Hlines rs "" Hrs (Nat.le_0_l _))
      as [Hrs' Hcur'].
    destruct (fold_left _ _ _) as [rs' cur]; cbn [fst snd] in *.
    destruct (truthy cur) eqn:Hc; [|exact Hrs'].
    apply Forall_app; split; [exact Hrs'|].
    constructor; [split; assumption | constructor].
  - apply Forall_app; split; [exact Hrs|].
    constructor; [split; assumption | constructor].
Qed.

Lemma pack_paragraphs_fit (max_length : nat) (paras : list string) :
  Forall (fun para =>
            Forall (fun line =>
                      (String.length (strip line) <= max_length)%nat)
                   (split_char newline (strip para))) paras ->
  forall rs : list string,
    Forall (well_sized max_length) rs ->
    Forall (well_sized max_length)
           (fold_left (pack_paragraph max_length) paras rs).
Proof.
  induction 1 as [|para paras Hpara _ IH]; intros rs Hrs; [exact Hrs|].
  cbn [fold_left]; apply IH, pack_paragraph_fits; assumption.
Qed.

(** X27.  [break_into_paragraphs] joins its paragraphs with a blank line; when
    no line of the text, stripped, is longer than [max_length], every
    paragraph it joins is non-empty and at most [max_length] long. *)
Theorem break_into_paragraphs_fits (text : string) (max_length : nat) :
  lines_fit max_length text ->
  break_into_paragraphs text max_length
  = join (nl ++ nl) (paragraphs text max_length)
  /\ Forall (well_sized max_length) (paragraphs text max_length).
Proof.
  intros Hfit; split.
  - destruct text; reflexivity.
  - apply pack_paragraphs_fit; [exact Hfit | constructor].
Qed.

(** Two lines that do not fit together in twelve characters, and a
    second paragraph. *)
Lemma break_into_paragraphs_fits_witness :
  let text := "first line" ++ nl ++ "second line" ++ nl ++ nl ++ "next" in
  lines_fit 12 text
  /\ break_into_paragraphs text 12
     = join (nl ++ nl) (paragraphs text 12)
  /\ Forall (well_sized 12) (paragraphs text 12).
Proof.
  intros text.
  assert (Hfit : lines_fit 12 text).
  { unfold lines_fit; vm_compute split_blank_line.
    repeat first [ apply List.Forall_nil
                 | apply List.Forall_cons
                 | progress vm_compute split_char ];
      vm_compute; lia. }
  split; [exact Hfit | exact (break_into_paragraphs_fits text 12 Hfit)].
Defined.

(** A line longer than [max_length] is kept whole. *)
Example long_line_is_kept :
  break_into_paragraphs "a line of twenty-six chars" 10
  = "a line of twenty-six chars".
Proof. vm_compute; reflexivity. Qed.

(** X28.  The summary [answer_followup] puts in its prompt holds at most 300
    characters of each stored analysis: it is at most 968 characters
    long, whatever the session stores. *)
Theorem followup_summary_is_bounded (session : Followup.StoredSession) :
  (String.length (Followup.evaluation_summary session) <= 968)%nat.
Proof.
  unfold Followup.evaluation_summary, Followup.summary_part, join.
  destruct session as [[a|] [b|] [c|]];
    cbn [Followup.internal_analysis Followup.external_analysis
         Followup.delta_analysis app String.concat];
    rewrite ?length_append;
    repeat match goal with
           | |- context [String.length (take 300 ?x)] =>
               let H := fresh in
               pose proof (take_length 300 x) as H;
               generalize dependent (String.length (take 300 x)); intros
           end;
    simpl; lia.
Qed.

Lemma flat_map_part_length (l : list MessageDict) :
  (length (flat_map conversation_part l) <= length l)%nat.
Proof.
  induction l as [|msg l IH]; [reflexivity|].
  cbn [flat_map]; rewrite length_app; unfold conversation_part at 1.
  destruct (String.eqb _ "user"); [simpl; lia|].
  destruct (String.eqb _ "assistant"); simpl; lia.
Qed.

(** X29.  [build_conversation_string] joins the parts of the recent messages.
    With a positive limit there are at most [max_messages] parts, taken
    from the last [max_messages] messages; with the limit zero no message
    is dropped, and with a negative limit the first [-max_messages]
    messages are dropped. *)
Theorem build_conversation_string_limit (messages : list MessageDict)
  (max_messages : Z) :
  build_conversation_string messages max_messages
  = join (nl ++ nl) (conversation_parts messages max_messages)
  /\ if (0 <? max_messages)%Z
     then recent_messages messages max_messages
          = skipn (length messages - Z.to_nat max_messages) messages
          /\ (Z.of_nat (length (conversation_parts messages max_messages))
              <= max_messages)%Z
     else recent_messages messages max_messages
          = skipn (Z.to_nat (- max_messages)) messages.
Proof.
  split.
  { destruct messages; [|reflexivity].
    unfold build_conversation_string, conversation_parts, recent_messages,
      slice_from.
    destruct (_ <? _)%Z; [destruct (0 <=? _)%Z; rewrite skipn_nil|];
      reflexivity. }
  assert (Hrecent :
    recent_messages messages max_messages
    = if (0 <? max_messages)%Z
      then skipn (length messages - Z.to_nat max_messages) messages
      else skipn (Z.to_nat (- max_messages)) messages).
  { unfold recent_messages, slice_from.
    destruct (Z.ltb_spec max_messages (Z.of_nat (length messages))),
             (Z.leb_spec 0 (- max_messages)),
             (Z.ltb_spec 0 max_messages); try lia.
    - reflexivity.
    - f_equal; lia.
    - replace (Z.to_nat (- max_messages)) with 0%nat by lia; reflexivity.
    - replace (length messages - Z.to_nat max_messages)%nat with 0%nat
        by lia; reflexivity. }
  destruct (Z.ltb_spec 0 max_messages) as [Hpos|Hneg]; [|exact Hrecent].
  split; [exact Hrecent|].
  unfold conversation_parts; rewrite Hrecent.
  pose proof (flat_map_part_length
                (skipn (length messages - Z.to_nat max_messages) messages))
    as Hlen.
  rewrite length_skipn in Hlen; lia.
Qed.

(** With the limit zero the whole history is kept. *)
Example zero_limit_keeps_all :
  build_conversation_string
    [ {| role := Some "user"; content := Some "Hello" |};
      {| role := Some "assistant"; content := Some "Hi" |} ] 0
  = "User: Hello" ++ nl ++ nl ++ "Assistant: Hi".
Proof. vm_compute; reflexivity. Qed.

End TextExtras.
